(** * Cosmic-On-Air processing: timestamp repair, window search, longitude
      wrapping, the processed-log format, the readers of device logs and
      flight tracks, and the smoothing of plots

    A shallow embedding of the algorithmic core of
    [scripts/cosmic_on_air.py], and of [extract_drive_id] of
    [scripts/coa_automation_script.py]; the properties its specification
    states about it (the theorems C1, C2, ...), and properties read off
    the code itself (X1, X2, ...).

    Conventions of the embedding.
    - A [datetime] is its number of whole seconds since some epoch ([Z]):
      every reader of the repository builds its datetimes with [strptime]
      at second resolution or by adding [timedelta(seconds=5)], and
      [fix_times] itself rebuilds them from whole seconds.  A [timedelta]
      is a number of seconds.
    - A numpy [int64] array is a [list Z]; the magnitudes at hand (seconds
      within the datetime range, detector counts) are far from the 64-bit
      bounds, so no wrap-around is written out.
    - A Python or numpy float is an exact rational ([Q]).  The values the
      statements below evaluate are small integers and halves, which
      binary64 represents and combines exactly.  Storing a float into an
      [int64] array truncates toward zero ([Qtrunc]).
    - A raised exception is a constructor of the result type. *)

From Stdlib Require Import ZArith QArith Qround Qabs List Bool Lia Lqa Arith Sorted.
From Stdlib Require String Ascii DecimalString DecimalZ DecimalPos.
Import ListNotations.

Local Open Scope Z_scope.

(** ** Exceptions and shared numeric helpers *)

Inductive exn : Type :=
| Unrecoverable       (* Exception("Unable to repair without specific dt; ...") *)
| IndexError          (* an index out of range *)
| UnboundLocalError   (* a local variable read before any assignment *)
| ValueError          (* np.interp on empty sample points; int(), float(),
                         strptime on text they do not accept *)
| TypeError           (* subscripting None *)
| KeyError            (* a key the dictionary does not have *)
| AttributeError.     (* a method of None *)

(** Float to [int64] conversion of numpy's item assignment: toward zero. *)
Definition Qtrunc (q : Q) : Z := Z.quot (Qnum q) (Zpos (Qden q)).

Definition Qltb (a b : Q) : bool := negb (Qle_bool b a).

(** [np.sum] of floats (kept in lowest terms) *)
Definition Qsum (l : list Q) : Q := Qred (fold_left Qplus l 0%Q).

Definition Zsum (l : list Z) : Z := fold_left Z.add l 0.

(** [np.cumsum] *)
Fixpoint cumsum_from (acc : Z) (l : list Z) : list Z :=
  match l with
  | [] => []
  | x :: r => (acc + x) :: cumsum_from (acc + x) r
  end.

Definition cumsum (l : list Z) : list Z := cumsum_from 0 l.

(** [a[1:] - a[:-1]] *)
Fixpoint diffs (a : list Z) : list Z :=
  match a with
  | x :: ((y :: _) as r) => (y - x) :: diffs r
  | _ => []
  end.

(** Item assignment [a[i] = v] on a list, for an index in range. *)
Fixpoint set_nth {A : Type} (l : list A) (i : nat) (v : A) : list A :=
  match l, i with
  | [], _ => []
  | _ :: r, O => v :: r
  | x :: r, S j => x :: set_nth r j v
  end.

(** Insertion sort, for [np.median]. *)
Fixpoint insert_sorted (x : Z) (l : list Z) : list Z :=
  match l with
  | [] => [x]
  | y :: r => if x <=? y then x :: l else y :: insert_sorted x r
  end.

Definition sort (l : list Z) : list Z := fold_right insert_sorted [] l.

(** [np.median] of a non-empty integer array: the middle element, or the
    mean of the two middle elements.  (On an empty array numpy gives nan;
    [fix_times] never asks for it.) *)
Definition median (l : list Z) : Q :=
  let s := sort l in
  let n := length s in
  let lo := nth (n / 2 - 1) s 0 in
  let hi := nth (n / 2) s 0 in
  if Nat.even n then ((inject_Z lo + inject_Z hi) / 2)%Q else inject_Z hi.

(** ** TimestampRepair: [fix_times] *)

Module FixTimes.

(** What a call of [fix_times] does: hand back the very object it was
    given, build a new array, or raise. *)
Inductive result : Type :=
| SameObject
| NewArray (data_time : list Z)
| Raise (e : exn).

(** The array a caller holds after a call that returned. *)
Definition returned (data_time : list Z) (r : result) : option (list Z) :=
  match r with
  | SameObject => Some data_time
  | NewArray t => Some t
  | Raise _ => None
  end.

(** [times = np.array([(d - data_time[0]).total_seconds() ...], int64)] *)
Definition offsets (data_time : list Z) : list Z :=
  match data_time with
  | [] => []
  | d0 :: _ => map (fun d => d - d0) data_time
  end.

(** [(0<dt) & (dt<=max_dt)] *)
Definition valid_mask (max_dt : Z) (dt : list Z) : list bool :=
  map (fun d => (0 <? d) && (d <=? max_dt)) dt.

Definition np_all (m : list bool) : bool := forallb (fun b => b) m.
Definition np_any (m : list bool) : bool := existsb (fun b => b) m.

(** [dt[valid_dt]] *)
Fixpoint select {A : Type} (mask : list bool) (l : list A) : list A :=
  match mask, l with
  | b :: m, x :: r => if b then x :: select m r else select m r
  | _, _ => []
  end.

(** The inner function [valid(dt)], applied to a float. *)
Definition valid (max_dt : Z) (dt : Q) : bool :=
  if Qle_bool dt 0 then false
  else if Qltb (inject_Z max_dt) dt then false
  else true.

(** [array[-i]]: index 0 for [i = 0], else [len - i]. *)
Definition neg_index (len i : nat) : nat :=
  if Nat.eqb i 0 then O else (len - i)%nat.

(** [increment_binary(array, i)]; [calls] bounds the recursive calls left,
    which the guard [i + 1 < len(array)] keeps below [len(array) - i]. *)
Fixpoint increment_binary_from (calls : nat) (array : list bool) (i : nat)
  : list bool :=
  let p := neg_index (length array) i in
  if negb (nth p array false) then set_nth array p true
  else
    let array' := set_nth array p false in
    if Nat.ltb (i + 1) (length array) then
      match calls with
      | O => array'
      | S c => increment_binary_from c array' (i + 1)
      end
    else array'.

Definition increment_binary (array : list bool) : list bool :=
  increment_binary_from (length array) array 0.

(** [sum(arr)] *)
Definition count_true (arr : list bool) : nat :=
  length (filter (fun b => b) arr).

(** The errors a mask leaves after [del errors[k]] for every set [k]. *)
Definition unselected {A : Type} (mask : list bool) (l : list A) : list A :=
  select (map negb mask) l.

(** The [for j in range(2**len(errors) - 1)] loop: [Some (dt_i, errors)]
    when a combination made [dt[i]] valid ([fixed = True; break]). *)
Fixpoint search (iterations : nat) (max_dt : Z) (arr : list bool)
  (errors : list Q) (dt_i : Z) : option (Z * list Q) :=
  match iterations with
  | O => None
  | S n =>
      let error := Qsum (select arr errors) in
      if Nat.leb (count_true arr) 10
         && valid max_dt (inject_Z dt_i + error)%Q
      then Some (Qtrunc (inject_Z dt_i + error)%Q, unselected arr errors)
      else search n max_dt (increment_binary arr) errors dt_i
  end.

(** [errors[-1] -= delta] *)
Definition sub_last (errors : list Q) (delta : Q) : option (list Q) :=
  match rev errors with
  | [] => None
  | e :: r => Some (rev ((e - delta)%Q :: r))
  end.

(** One pass of the body of [for i in range(dt.size)] on the pair
    [(dt, errors)]. *)
Definition body (delta : Q) (max_dt : Z) (valid_dt : list bool) (i : nat)
  (st : list Z * list Q) : list Z * list Q + exn :=
  let '(dt, errors) := st in
  let dt_i := nth i dt 0 in
  if dt_i =? 0 then
    let dt := set_nth dt i (Qtrunc delta) in
    if Nat.ltb 1 i && negb (nth (i - 1) valid_dt true) then
      match sub_last errors delta with
      | None => inr IndexError
      | Some errors' => inl (dt, errors')
      end
    else inl (dt, errors ++ [(- delta)%Q])
  else if negb (nth i valid_dt true) then
    let found :=
      match errors with
      | [] => None
      | _ :: _ =>
          search (2 ^ length errors - 1) max_dt
                 (true :: repeat false (length errors - 1)) errors dt_i
      end in
    match found with
    | Some (d, errors') => inl (set_nth dt i d, errors')
    | None =>
        inl (set_nth dt i (Qtrunc delta),
             errors ++ [(inject_Z dt_i - delta)%Q])
    end
  else inl st.

Fixpoint loop (delta : Q) (max_dt : Z) (valid_dt : list bool)
  (indices : list nat) (st : list Z * list Q) : list Z * list Q + exn :=
  match indices with
  | [] => inl st
  | i :: rest =>
      match body delta max_dt valid_dt i st with
      | inl st' => loop delta max_dt valid_dt rest st'
      | inr e => inr e
      end
  end.

(** The delta the repair works with: the one given or, for
    [delta <= 0], [np.median(dt[valid_dt])]. *)
Definition used_delta (delta : Q) (valid_dt : list bool) (dt : list Z) : Q :=
  if Qle_bool delta 0 then median (select valid_dt dt) else delta.

(** [fix_times(data_time, delta, max_dt)] *)
Definition fix_times (data_time : list Z) (delta : Q) (max_dt : Z) : result :=
  let times := offsets data_time in
  let dt := diffs times in
  let valid_dt := valid_mask max_dt dt in
  if np_all valid_dt then SameObject
  else if Qle_bool delta 0 && negb (np_any valid_dt) then Raise Unrecoverable
  else
    let delta := used_delta delta valid_dt dt in
    match loop delta max_dt valid_dt (seq 0 (length dt)) (dt, []) with
    | inr e => Raise e
    | inl (dt, _) =>
        let times := 0 :: cumsum dt in
        NewArray (map (fun t => nth 0 data_time 0 + t) times)
    end.

(** The defaults of the signature: [delta=-1, max_dt=1800]. *)
Definition default_delta : Q := (-1)%Q.
Definition default_max_dt : Z := 1800.

End FixTimes.

(** ** WindowEstimator: [estimate_takeoff] *)

Module EstimateTakeoff.

Inductive outcome : Type :=
| Returned (takeoff_idx landing_idx : nat)
| Raised (e : exn)
| OutOfFuel.

(** [np.where(delta > max_diff, max_diff, delta)] then
    [np.where(delta < -max_diff, -max_diff, delta)] *)
Definition clip (max_diff : Z) (delta : Z) : Z :=
  let d := if max_diff <? delta then max_diff else delta in
  if d <? - max_diff then - max_diff else d.

(** The loop that rebuilds [cnt_5sc[1:]] from the capped differences,
    never letting it dip below 0. *)
Fixpoint rebuild (prev : Z) (delta : list Z) : list Z :=
  match delta with
  | [] => []
  | d :: r =>
      let c := prev + d in
      let c := if c <? 0 then 0 else c in
      c :: rebuild c r
  end.

Definition clipped_counts (max_diff : Z) (cnt_5sc : list Z) : list Z :=
  match cnt_5sc with
  | [] => []
  | c0 :: _ => c0 :: rebuild c0 (map (clip max_diff) (diffs cnt_5sc))
  end.

Record state : Type := mkState {
  window_start : nat;
  window_stop : nat;
  dt : option Z;          (* [None]: not assigned yet *)
  max_sum : Z;
  takeoff_idx : nat;
  landing_idx : nat
}.

Section Loop.

Variable time : list Z.          (* data['time'] *)
Variable flight_duration : Z.
Variable cumsum_arr : list Z.    (* cumsum *)
Variable size : nat.

(** [for i in range(window_stop+1, size)]: the window stop and the last
    [dt] computed. *)
Fixpoint scan (indices : list nat) (start stop : nat) (d : option Z)
  : nat * option Z + exn :=
  match indices with
  | [] => inl (stop, d)
  | i :: rest =>
      match nth_error time i, nth_error time start with
      | Some ti, Some ts =>
          if ti - ts <? flight_duration
          then scan rest start i (Some (ti - ts))
          else inl (stop, Some (ti - ts))
      | _, _ => inr IndexError
      end
  end.

Definition range (lo hi : nat) : list nat := seq lo (hi - lo).

(** One pass of the body of [while window_stop != size - 1]. *)
Definition iteration (st : state) : state + exn :=
  match scan (range (window_stop st + 1) size)
             (window_start st) (window_stop st) (dt st) with
  | inr e => inr e
  | inl (stop, None) => inr UnboundLocalError
  | inl (stop, Some d) =>
      if d <=? 0 then
        inl (mkState (window_start st + 1) (window_start st + 1 + 1) (Some d)
                     (max_sum st) (takeoff_idx st) (landing_idx st))
      else
        match nth_error cumsum_arr stop,
              nth_error cumsum_arr (window_start st) with
        | Some c_stop, Some c_start =>
            let this_sum := c_stop - c_start in
            if max_sum st <=? this_sum then
              inl (mkState (window_start st + 1) stop (Some d)
                           this_sum (window_start st) stop)
            else
              inl (mkState (window_start st + 1) stop (Some d)
                           (max_sum st) (takeoff_idx st) (landing_idx st))
        | _, _ => inr IndexError
        end
  end.

Fixpoint while (fuel : nat) (st : state) : outcome :=
  if Nat.eqb (window_stop st) (size - 1)
  then Returned (takeoff_idx st) (landing_idx st)
  else
    match fuel with
    | O => OutOfFuel
    | S f =>
        match iteration st with
        | inl st' => while f st'
        | inr e => Raised e
        end
    end.

(** The window a pass compares with [max_sum], with its sum
    [cumsum[window_stop] - cumsum[window_start]]: none when the pass takes
    the [continue] branch. *)
Definition compared (st : state) : option (nat * nat * Z) :=
  match scan (range (window_stop st + 1) size)
             (window_start st) (window_stop st) (dt st) with
  | inl (stop, Some d) =>
      if d <=? 0 then None
      else
        match nth_error cumsum_arr stop,
              nth_error cumsum_arr (window_start st) with
        | Some c_stop, Some c_start =>
            Some (window_start st, stop, c_stop - c_start)
        | _, _ => None
        end
  | _ => None
  end.

(** The windows compared by the passes of [while], in the order of the
    scan. *)
Fixpoint windows (fuel : nat) (st : state) : list (nat * nat * Z) :=
  if Nat.eqb (window_stop st) (size - 1) then []
  else
    match fuel with
    | O => []
    | S f =>
        match iteration st with
        | inl st' =>
            match compared st with
            | Some w => w :: windows f st'
            | None => windows f st'
            end
        | inr _ => []
        end
    end.

End Loop.

(** The candidate windows [(start, stop, sum)] of a call, in scan order. *)
Definition candidate_windows (fuel : nat) (cnt_5sc time : list Z)
  (flight_duration : Z) (max_diff : Z) : list (nat * nat * Z) :=
  let size := length cnt_5sc in
  let cumsum_arr := cumsum (clipped_counts max_diff cnt_5sc) in
  windows time flight_duration cumsum_arr size fuel
          (mkState 0 0 None 0 0 (size - 1)).

(** [estimate_takeoff(data, flight_duration, max_diff)], the [while] loop
    run for at most [fuel] passes. *)
Definition estimate_takeoff (fuel : nat) (cnt_5sc time : list Z)
  (flight_duration : Z) (max_diff : Z) : outcome :=
  match cnt_5sc with
  | [] => Raised IndexError        (* data['cnt_5sc'][0] *)
  | _ :: _ =>
      let size := length cnt_5sc in
      let cumsum_arr := cumsum (clipped_counts max_diff cnt_5sc) in
      while time flight_duration cumsum_arr size fuel
            (mkState 0 0 None 0 0 (size - 1))
  end.

Definition default_max_diff : Z := 100.

End EstimateTakeoff.

(** ** ReferenceAligner: [align_time] *)

(** [a[lo:hi]] *)
Definition slice {A : Type} (l : list A) (lo hi : nat) : list A :=
  firstn (hi - lo) (skipn lo l).

Definition Qsq (x : Q) : Q := (x * x)%Q.

Fixpoint map2 {A B C : Type} (f : A -> B -> C) (a : list A) (b : list B)
  : list C :=
  match a, b with
  | x :: a', y :: b' => f x y :: map2 f a' b'
  | _, _ => []
  end.

(** The zero-intercept slope [np.sum(y * x) / np.sum(x**2)] of [y] on
    [x]; [None] stands for the nan of 0/0 (the sum of squares is 0 only
    when every [x] is, and then so is the numerator). *)
Definition slope (y x : list Q) : option Q :=
  let den := Qsum (map Qsq x) in
  if Qeq_bool den 0 then None else Some (Qsum (map2 Qmult y x) / den)%Q.

(** [np.interp(x, xp, fp)] for one abscissa, [xp] increasing: [fp[0]]
    left of the sample points, [fp[-1]] right of them, and the chord
    through the two neighbouring sample points in between. *)
Fixpoint interp_from (x x0 f0 : Q) (rest : list (Q * Q)) : Q :=
  match rest with
  | [] => f0
  | (x1, f1) :: r =>
      if Qltb x x1
      then ((f1 - f0) / (x1 - x0) * (x - x0) + f0)%Q
      else interp_from x x1 f1 r
  end.

Definition np_interp (x xp fp : list Q) : list Q + exn :=
  if negb (Nat.eqb (length xp) (length fp)) then inr ValueError
  else
    match combine xp fp with
    | [] => inr ValueError
    | (x0, f0) :: rest =>
        inl (map (fun xi => if Qle_bool xi x0 then f0
                            else interp_from xi x0 f0 rest) x)
    end.

Module AlignTime.

Inductive outcome (R : Type) : Type :=
| Returned (takeoff_idx landing_idx : nat) (max_R2 : R)
| Raised (e : exn)
| OutOfFuel.

Arguments Returned {R} _ _ _.
Arguments Raised {R} _.
Arguments OutOfFuel {R}.

Record state (R : Type) : Type := mkState {
  window_start : nat;
  window_end : nat;
  takeoff_idx : nat;
  landing_idx : nat;
  max_R2 : R
}.

Arguments mkState {R} _ _ _ _ _.
Arguments window_start {R} _.
Arguments window_end {R} _.
Arguments takeoff_idx {R} _.
Arguments landing_idx {R} _.
Arguments max_R2 {R} _.

(** What the regression of one window comes to: a [continue] before the
    comparison, an R2 that is compared with [max_R2], or an exception. *)
Inductive fitted (R : Type) : Type :=
| Skip
| Fit (R2 : R)
| FitRaises (e : exn).

Arguments Skip {R}.
Arguments Fit {R} _.
Arguments FitRaises {R} _.

(** The sliding-window loop, for any way of scoring a window: [fit s e]
    is the regression of the slice [s..e] and [gt] the test
    [R2 > max_R2]. *)
Section Loop.

Variable R : Type.
Variable fit : nat -> nat -> fitted R.
Variable gt : R -> R -> bool.
Variable time : list Z.            (* device_data['time'] *)
Variable flight_duration : Z.
Variable size : nat.

(** [for i in range(window_end+1, size): ... else: window_end = size-1] *)
Fixpoint find_end (indices : list nat) (start : nat) : nat + exn :=
  match indices with
  | [] => inl (size - 1)%nat
  | i :: rest =>
      match nth_error time i, nth_error time start with
      | Some ti, Some ts =>
          if flight_duration <? ti - ts then inl (i - 1)%nat
          else find_end rest start
      | _, _ => inr IndexError
      end
  end.

Definition range (lo hi : nat) : list nat := seq lo (hi - lo).

(** One pass of the body of [while window_end != size - 1]. *)
Definition iteration (st : state R) : state R + exn :=
  match find_end (range (window_end st + 1) size) (window_start st) with
  | inr e => inr e
  | inl we =>
      match nth_error time we, nth_error time (window_start st) with
      | Some te, Some ts =>
          let dt := te - ts in
          if (2 * dt <? flight_duration)
             || (Z.of_nat we - Z.of_nat (window_start st) <? 5)
          then
            inl (mkState (window_start st + 1) (window_start st + 1 + 1)
                         (takeoff_idx st) (landing_idx st) (max_R2 st))
          else
            let keep := mkState (window_start st + 1) we
                                (takeoff_idx st) (landing_idx st) (max_R2 st) in
            match fit (window_start st) we with
            | FitRaises e => inr e
            | Skip => inl keep
            | Fit R2 =>
                if gt R2 (max_R2 st)
                then inl (mkState (window_start st + 1) we
                                  (window_start st + 1) we R2)
                else inl keep
            end
      | _, _ => inr IndexError
      end
  end.

Fixpoint while (fuel : nat) (st : state R) : outcome R :=
  if Nat.eqb (window_end st) (size - 1)
  then Returned (takeoff_idx st) (landing_idx st) (max_R2 st)
  else
    match fuel with
    | O => OutOfFuel
    | S f =>
        match iteration st with
        | inl st' => while f st'
        | inr e => Raised e
        end
    end.

(** The window a pass fits and compares with [max_R2], with its R2. *)
Definition fitted_window (st : state R) : option (nat * nat * R) :=
  match find_end (range (window_end st + 1) size) (window_start st) with
  | inr _ => None
  | inl we =>
      match nth_error time we, nth_error time (window_start st) with
      | Some te, Some ts =>
          if (2 * (te - ts) <? flight_duration)
             || (Z.of_nat we - Z.of_nat (window_start st) <? 5)
          then None
          else
            match fit (window_start st) we with
            | Fit R2 => Some (window_start st, we, R2)
            | _ => None
            end
      | _, _ => None
      end
  end.

(** The windows fitted and compared by the passes of [while], in the
    order of the scan. *)
Fixpoint fits (fuel : nat) (st : state R) : list (nat * nat * R) :=
  if Nat.eqb (window_end st) (size - 1) then []
  else
    match fuel with
    | O => []
    | S f =>
        match iteration st with
        | inl st' =>
            match fitted_window st with
            | Some w => w :: fits f st'
            | None => fits f st'
            end
        | inr _ => []
        end
    end.

(** The loop from its initial state.  On an empty device array
    [size - 1] is -1: the first pass sets [window_end = -1] and indexes
    the empty array. *)
Definition run (fuel : nat) (R0 : R) : outcome R :=
  match size with
  | O => Raised IndexError
  | S _ => while fuel (mkState 0 0 0 (size - 1) R0)
  end.

End Loop.

(** [R2 > max_R2] *)
Definition better (R2 max_R2 : Q) : bool := Qltb max_R2 R2.

(** [measurement = device_data['cnt_1mn'][window_start:window_end+1]] *)
Definition window_counts (cnt_1mn : list Z) (s e : nat) : list Z :=
  slice cnt_1mn s (e + 1).

(** [reference_adjusted]: the reference curve interpolated at the times
    of the slice [s..e], counted from its first sample. *)
Definition window_reference (time : list Z) (reference_times reference : list Q)
  (s e : nat) : list Q + exn :=
  let t0 := nth 0 time 0 in
  let times_from_start := map (fun d => d - t0) time in
  let measurement_times :=
    map (fun t => inject_Z (t - (nth s time 0 - t0)))
        (slice times_from_start s (e + 1)) in
  np_interp measurement_times reference_times reference.

(** [beta_hat = np.sum(measurement * reference_adjusted)
                / np.sum(reference_adjusted**2)] *)
Definition beta_hat (measurement : list Z) (reference_adjusted : list Q)
  : option Q :=
  slope (map inject_Z measurement) reference_adjusted.

(** The linear regression from reference to measurement, lines 1262-1275:
    a nan slope never passes [R2 > max_R2] and counts as skipped. *)
Definition regression (measurement : list Z) (reference_adjusted : list Q)
  : fitted Q :=
  let beta := beta_hat measurement reference_adjusted in
  let measurement := map inject_Z measurement in
  match beta with
  | None => Skip
  | Some beta_hat =>
      if Qltb beta_hat 0 then Skip
      else
        let err := map2 (fun m r => (m - beta_hat * r)%Q)
                        measurement reference_adjusted in
        let ESS := Qsum (map Qsq err) in
        let mean := (Qsum measurement
                     / inject_Z (Z.of_nat (length measurement)))%Q in
        let TSS := Qsum (map (fun m => Qsq (m - mean)) measurement) in
        if Qeq_bool TSS 0 then Skip
        else Fit (1 - ESS / TSS)%Q
  end.

(** The body of the loop from the slicing to R2, lines 1252-1275, on the
    slice [s..e]. *)
Definition fit_window (time cnt_1mn : list Z) (reference_times reference : list Q)
  (s e : nat) : fitted Q :=
  match window_reference time reference_times reference s e with
  | inr ex => FitRaises ex
  | inl reference_adjusted =>
      regression (window_counts cnt_1mn s e) reference_adjusted
  end.

(** [align_time(device_data, flight_data, cari_data)], the [while] loop
    run for at most [fuel] passes.  [time] and [cnt_1mn] are the device
    arrays (of one size in every record the readers build), [takeoff],
    [landing] and [flight_time] the flight's, [reference] is
    [cari_data['total-neutron']]. *)
Definition align_time (fuel : nat) (time cnt_1mn : list Z)
  (takeoff landing : Z) (flight_time : list Z) (reference : list Q)
  : outcome Q :=
  let size := length time in
  let flight_duration := landing - takeoff in
  let reference_times := map (fun t => inject_Z (t - takeoff)) flight_time in
  run Q (fit_window time cnt_1mn reference_times reference)
      better
      time flight_duration size fuel 0%Q.

(** The windows [(start, end, R2)] a call fits, in scan order. *)
Definition fitted_windows (fuel : nat) (time cnt_1mn : list Z)
  (takeoff landing : Z) (flight_time : list Z) (reference : list Q)
  : list (nat * nat * Q) :=
  let size := length time in
  let reference_times := map (fun t => inject_Z (t - takeoff)) flight_time in
  fits Q (fit_window time cnt_1mn reference_times reference)
       better
       time (landing - takeoff) size fuel (mkState 0 0 0 (size - 1) 0%Q).

End AlignTime.

(** ** SpatialInterpolator: [unravel_lon] and [ravel_lon] *)

Module Longitude.

(** [while u[i] - u[i-1] > 180: u[i] -= 360], at most [fuel] times *)
Fixpoint lower (fuel : nat) (prev x : Q) : option Q :=
  if Qltb 180 (x - prev) then
    match fuel with
    | O => None
    | S f => lower f prev (x - 360)
    end
  else Some x.

(** [while u[i] - u[i-1] < -180: u[i] += 360], at most [fuel] times *)
Fixpoint lift (fuel : nat) (prev x : Q) : option Q :=
  if Qltb (x - prev) (-180) then
    match fuel with
    | O => None
    | S f => lift f prev (x + 360)
    end
  else Some x.

(** The body of [for i in range(1, size)] from index [i] on, [prev]
    being the entry [u[i-1]] already settled. *)
Fixpoint unravel_from (fuel : nat) (prev : Q) (rest : list Q)
  : option (list Q) :=
  match rest with
  | [] => Some []
  | x :: r =>
      match lower fuel prev x with
      | None => None
      | Some x1 =>
          match lift fuel prev x1 with
          | None => None
          | Some x2 =>
              match unravel_from fuel x2 r with
              | None => None
              | Some r' => Some (x2 :: r')
              end
          end
      end
  end.

(** [unravel_lon(lon)], each [while] loop run for at most [fuel] passes;
    [None] when one of them needs more. *)
Definition unravel_lon (fuel : nat) (lon : list Q) : option (list Q) :=
  match lon with
  | [] => Some []
  | x0 :: r =>
      match unravel_from fuel x0 r with
      | None => None
      | Some r' => Some (x0 :: r')
      end
  end.

(** The float remainder [x % m] of numpy, with the sign of [m]. *)
Definition Qmod (x m : Q) : Q := (x - m * inject_Z (Qfloor (x / m)))%Q.

(** [ravel_lon(lon)]: [(lon + 180) % 360 - 180], elementwise *)
Definition ravel1 (x : Q) : Q := (Qmod (x + 180) 360 - 180)%Q.

Definition ravel_lon (lon : list Q) : list Q := map ravel1 lon.

(** The range the docstring of [ravel_lon] and the specification name:
    (-180, 180]. *)
Definition in_range (x : Q) : Prop := (-180 < x /\ x <= 180)%Q.

(** Two angles that differ by a whole number of turns. *)
Definition same_angle (x y : Q) : Prop :=
  exists k : Z, (x - y == 360 * inject_Z k)%Q.

End Longitude.

(** ** MergePipeline: the scaling factor of [read_raw_log] *)

(** [np.sum(data['cnt_1mn'] * data['total-neutron'])
     / np.sum(data['cnt_1mn']**2)]; [None] for the nan of 0/0. *)
Definition scaling_factor (cnt_1mn : list Z) (total_neutron : list Q)
  : option Q :=
  let cnt := map inject_Z cnt_1mn in
  let den := Qsum (map Qsq cnt) in
  if Qeq_bool den 0 then None
  else Some (Qsum (map2 Qmult cnt total_neutron) / den)%Q.

(** ** The processed-log format: [write_newlog] and [read_processed_log] *)

Module ProcessedLog.

Import String Ascii.
Local Open Scope string_scope.
Local Open Scope list_scope.

(** *** Python string operations *)

(** [pat in s] *)
Fixpoint contains (pat s : string) : bool :=
  if prefix pat s then true
  else
    match s with
    | EmptyString => false
    | String _ r => contains pat r
    end.

(** The ASCII characters [str.strip] removes. *)
Definition is_space (c : ascii) : bool :=
  let n := nat_of_ascii c in
  Nat.eqb n 32 || (Nat.leb 9 n && Nat.leb n 13) || (Nat.leb 28 n && Nat.leb n 31).

Fixpoint lstrip (s : string) : string :=
  match s with
  | EmptyString => EmptyString
  | String c r => if is_space c then lstrip r else s
  end.

Fixpoint rstrip (s : string) : string :=
  match s with
  | EmptyString => EmptyString
  | String c r =>
      match rstrip r with
      | EmptyString => if is_space c then EmptyString else String c EmptyString
      | r' => String c r'
      end
  end.

(** [s.strip()] *)
Definition strip (s : string) : string := rstrip (lstrip s).

(** [s[s.find("=")+1:]] when [s] has an ["="] *)
Fixpoint after_eq (s : string) : option string :=
  match s with
  | EmptyString => None
  | String c r => if Ascii.eqb c "=" then Some r else after_eq r
  end.

(** The inner function [strip_context]; [find] gives -1 on a string
    without ["="], and the slice is then the whole string. *)
Definition strip_context (line : string) : string :=
  strip (match after_eq line with Some r => r | None => line end).

(** [s.split(",")] *)
Fixpoint split_comma (s : string) : list string :=
  match s with
  | EmptyString => [EmptyString]
  | String c r =>
      if Ascii.eqb c ","
      then EmptyString :: split_comma r
      else
        match split_comma r with
        | f :: fs => String c f :: fs
        | [] => [String c EmptyString]
        end
  end.

(** [s.lower()], on ASCII letters *)
Definition lower_ascii (c : ascii) : ascii :=
  let n := nat_of_ascii c in
  if Nat.leb 65 n && Nat.leb n 90 then ascii_of_nat (n + 32) else c.

Fixpoint lower (s : string) : string :=
  match s with
  | EmptyString => EmptyString
  | String c r => String (lower_ascii c) (lower r)
  end.

(** [f"{n}"] for an integer, and [int(s)] on the decimal texts it
    accepts (blanks around the number are ignored). *)
Definition format_int (n : Z) : string :=
  DecimalString.NilZero.string_of_int (Z.to_int n).

Definition int_of_str (s : string) : option Z :=
  option_map Z.of_int (DecimalString.NilZero.int_of_string (strip s)).

(** *** Errors *)

Definition bind {A B : Type} (x : A + exn) (f : A -> B + exn) : B + exn :=
  match x with
  | inl a => f a
  | inr e => inr e
  end.

Notation "x <- e ;; k" := (bind e (fun x => k))
  (at level 61, e at next level, right associativity).

Definition or_raise {A : Type} (e : exn) (x : option A) : A + exn :=
  match x with
  | Some a => inl a
  | None => inr e
  end.

(** *** The record and the two functions *)

Section Format.

(** Datetimes, dates and floats with their renderings are kept abstract:
    [strftime] and [strptime] use the format ["%Y-%m-%dT%H:%M:%SZ"];
    [format_5f], [format_0f] and [format_4e] are the format specs
    [:.5f], [:.0f] and [:.4e]; [float_of_str] is [float] on a text without
    blanks around it; [city] is the lookup
    [airports.get(code)['city']], [None] when the code is unknown. *)
Variables datetime date float : Type.
Variable date_of : datetime -> date.
Variable strftime : datetime -> string.
Variable strptime : string -> option datetime.
Variables format_5f format_0f format_4e : float -> string.
Variable float_of_str : string -> option float.
Variable fsub : float -> float -> float.
Variable fzero : float.
Variable fpos : float -> bool.            (* [x > 0] *)
Variable city : string -> option string.

(** [float(s)] *)
Definition py_float (s : string) : float + exn :=
  or_raise ValueError (float_of_str (strip s)).

(** [int(s)] *)
Definition py_int (s : string) : Z + exn :=
  or_raise ValueError (int_of_str s).

(** The dictionary [data]; [None] is Python's [None] for the three
    dates and the absence of the key for the two reference columns. *)
Record merged : Type := mkMerged {
  device_id : string;
  flight_number : string;
  citizen_id : string;
  origin : string;
  destination : string;
  origin_ICAO : string;
  destination_ICAO : string;
  flight_date : option date;
  takeoff : option datetime;
  landing : option datetime;
  time_offset : string;
  R2 : string;
  scaling_factor : float;
  timestamps : string;
  cnt_1mn : list Z;
  cnt_5sc : list Z;
  time : list datetime;
  lat : list float;
  lon : list float;
  alt : list float;
  cari_total : option (list float);
  total_neutron : option (list float)
}.

(** The lines about the detector, chosen by [device_id.lower()]. *)
Definition detector_lines (device_id : string) : list string :=
  if contains "safecast" device_id then
    ["# detector_native_quantity = cnt_5s";
     "# cnt_1min_source = original";
     "# cnt_5s_source = original"]
  else if contains "uct" device_id then
    ["# detector_native_quantity = event_timestamps";
     "# cnt_1min_source = derived";
     "# cnt_5s_source = derived"]
  else if contains "radiacode" device_id || contains "rium" device_id then
    ["# detector_native_quantity = average_cps_over_1_minute";
     "# cnt_1min_source = derived";
     "# cnt_5s_source = derived"]
  else if contains "gmc" device_id then
    ["# detector_native_quantity = cnt_1mn";
     "# cnt_1min_source = original";
     "# cnt_5s_source = derived"]
  else [].

Definition reference_lines (data : merged) : list string :=
  match cari_total data with
  | Some _ =>
      ["#";
       "# reference_id = cari7a";
       "# reference_model = CARI-7A";
       "# reference_quantity = H*(10)_total-neutron";
       "# reference_alignment_method = time_offset_max_r2";
       ("# reference_time_offset_s = " ++ time_offset data)%string;
       ("# reference_scaling_beta = " ++ format_4e (scaling_factor data))%string;
       "# reference_scaling_units = μSv/h / CPM";
       ("# reference_fit_r2 = " ++ R2 data)%string;
       "#";
       "# simulation_model = CARI-7A";
       "# simulation_version = ???";
       "# simulation_total = H*10_total";
       "# simulation_neutron = H*10_neutron";
       "# simulation_unit = μSv/h"]
  | None =>
      ["#";
       "# reference_id = ???";
       "# reference_model = ???";
       "# reference_quantity = ???";
       "# reference_alignment_method = ???";
       "# reference_time_offset_s = ???";
       (if fpos (scaling_factor data)
        then ("# reference_scaling_beta = " ++ format_4e (scaling_factor data))%string
        else "# reference_scaling_beta = ???");
       "# reference_scaling_units = ???";
       "# reference_fit_r2 = ???";
       "#";
       "# simulation_model = ???";
       "# simulation_version = ???";
       "# simulation_total = ???";
       "# simulation_neutron = ???";
       "# simulation_unit = ???"]
  end.

(** The header, one string per line written (without its line break). *)
Definition header_lines (data : merged) (takeoff landing : datetime)
  : list string :=
  ["# format = processedCOA-v1";
   "# data delimiter = comma";
   "#";
   ("# device_id = " ++ device_id data)%string;
   "# detector_model = ???"]
  ++ detector_lines (lower (device_id data))
  ++ ["# processing_pipeline = ???"]
  ++ reference_lines data
  ++ ["#";
      "# airport_code_type = ICAO";
      ("# origin = " ++ origin_ICAO data)%string;
      ("# destination = " ++ destination_ICAO data)%string;
      ("# flight_number = " ++ flight_number data)%string;
      ("# takeoff_utc = " ++ strftime takeoff)%string;
      ("# landing_utc = " ++ strftime landing)%string;
      "#";
      ("# detector_timestamps = " ++ timestamps data)%string;
      "#";
      "# timestamp_format = UTC_ISO8601";
      "# latitude_unit = degrees";
      "# longitude_unit = degrees";
      "# altitude_unit = metres";
      "#";
      ("# citizen_id = " ++ citizen_id data)%string;
      "#";
      (match cari_total data with
       | Some _ => "# columns = timestamp_utc, cnt_1min, cnt_5s, latitude, longitude, altitude, simulation_total, simulation_neutron"
       | None => "# columns = timestamp_utc, cnt_1min, cnt_5s, latitude, longitude, altitude"
       end)].

Definition item {A : Type} (l : list A) (i : nat) : A + exn :=
  or_raise IndexError (nth_error l i).

(** The line of sample [i]. *)
Definition data_line (data : merged) (i : nat) : string + exn :=
  t <- item (time data) i ;;
  c1 <- item (cnt_1mn data) i ;;
  c5 <- item (cnt_5sc data) i ;;
  la <- item (lat data) i ;;
  lo <- item (lon data) i ;;
  al <- item (alt data) i ;;
  let line := concat ", " [strftime t; format_int c1; format_int c5;
                           format_5f la; format_5f lo; format_0f al] in
  match cari_total data with
  | None => inl line
  | Some total =>
      tot <- item total i ;;
      tn <- or_raise KeyError (total_neutron data) ;;
      n <- item tn i ;;
      inl (line ++ ", " ++ concat ", " [format_4e tot; format_4e (fsub tot n)])%string
  end.

Fixpoint data_lines (data : merged) (indices : list nat) : list string + exn :=
  match indices with
  | [] => inl []
  | i :: rest =>
      line <- data_line data i ;;
      lines <- data_lines data rest ;;
      inl (line :: lines)
  end.

(** [write_newlog(data, new_file)]: the lines of the file written. *)
Definition write_newlog (data : merged) : list string + exn :=
  tk <- or_raise AttributeError (takeoff data) ;;
  ld <- or_raise AttributeError (landing data) ;;
  rows <- data_lines data (seq 0 (List.length (time data))) ;;
  inl (header_lines data tk ld ++ rows).

(** The dictionary [read_processed_log] starts from. *)
Definition empty : merged :=
  mkMerged "" "" "" "" "" "" "" None None None "" "" fzero ""
           [] [] [] [] [] [] None None.

(** A comment line: the [elif] chain on the keys, in its order. *)
Definition read_comment (line : string) (d : merged) : merged + exn :=
  let v := strip_context line in
  if contains "device_id =" line then
    inl (mkMerged v (flight_number d) (citizen_id d) (origin d) (destination d)
           (origin_ICAO d) (destination_ICAO d) (flight_date d) (takeoff d)
           (landing d) (time_offset d) (R2 d) (scaling_factor d) (timestamps d)
           (cnt_1mn d) (cnt_5sc d) (time d) (lat d) (lon d) (alt d)
           (cari_total d) (total_neutron d))
  else if contains "reference_fit_r2 =" line then
    inl (mkMerged (device_id d) (flight_number d) (citizen_id d) (origin d)
           (destination d) (origin_ICAO d) (destination_ICAO d) (flight_date d)
           (takeoff d) (landing d) (time_offset d) v (scaling_factor d)
           (timestamps d) (cnt_1mn d) (cnt_5sc d) (time d) (lat d) (lon d)
           (alt d) (cari_total d) (total_neutron d))
  else if contains "reference_time_offset_s =" line then
    inl (mkMerged (device_id d) (flight_number d) (citizen_id d) (origin d)
           (destination d) (origin_ICAO d) (destination_ICAO d) (flight_date d)
           (takeoff d) (landing d) v (R2 d) (scaling_factor d)
           (timestamps d) (cnt_1mn d) (cnt_5sc d) (time d) (lat d) (lon d)
           (alt d) (cari_total d) (total_neutron d))
  else if contains "origin =" line then
    c <- or_raise TypeError (city v) ;;
    inl (mkMerged (device_id d) (flight_number d) (citizen_id d) c
           (destination d) v (destination_ICAO d) (flight_date d)
           (takeoff d) (landing d) (time_offset d) (R2 d) (scaling_factor d)
           (timestamps d) (cnt_1mn d) (cnt_5sc d) (time d) (lat d) (lon d)
           (alt d) (cari_total d) (total_neutron d))
  else if contains "destination =" line then
    c <- or_raise TypeError (city v) ;;
    inl (mkMerged (device_id d) (flight_number d) (citizen_id d) (origin d)
           c (origin_ICAO d) v (flight_date d)
           (takeoff d) (landing d) (time_offset d) (R2 d) (scaling_factor d)
           (timestamps d) (cnt_1mn d) (cnt_5sc d) (time d) (lat d) (lon d)
           (alt d) (cari_total d) (total_neutron d))
  else if contains "flight_number =" line then
    inl (mkMerged (device_id d) v (citizen_id d) (origin d)
           (destination d) (origin_ICAO d) (destination_ICAO d) (flight_date d)
           (takeoff d) (landing d) (time_offset d) (R2 d) (scaling_factor d)
           (timestamps d) (cnt_1mn d) (cnt_5sc d) (time d) (lat d) (lon d)
           (alt d) (cari_total d) (total_neutron d))
  else if contains "takeoff_utc =" line then
    t <- or_raise ValueError (strptime v) ;;
    inl (mkMerged (device_id d) (flight_number d) (citizen_id d) (origin d)
           (destination d) (origin_ICAO d) (destination_ICAO d)
           (Some (date_of t)) (Some t) (landing d) (time_offset d) (R2 d)
           (scaling_factor d) (timestamps d) (cnt_1mn d) (cnt_5sc d) (time d)
           (lat d) (lon d) (alt d) (cari_total d) (total_neutron d))
  else if contains "landing_utc =" line then
    t <- or_raise ValueError (strptime v) ;;
    inl (mkMerged (device_id d) (flight_number d) (citizen_id d) (origin d)
           (destination d) (origin_ICAO d) (destination_ICAO d)
           (flight_date d) (takeoff d) (Some t) (time_offset d) (R2 d)
           (scaling_factor d) (timestamps d) (cnt_1mn d) (cnt_5sc d) (time d)
           (lat d) (lon d) (alt d) (cari_total d) (total_neutron d))
  else if contains "simulation_model = CARI-7A" line then
    inl (mkMerged (device_id d) (flight_number d) (citizen_id d) (origin d)
           (destination d) (origin_ICAO d) (destination_ICAO d)
           (flight_date d) (takeoff d) (landing d) (time_offset d) (R2 d)
           (scaling_factor d) (timestamps d) (cnt_1mn d) (cnt_5sc d) (time d)
           (lat d) (lon d) (alt d) (Some []) (Some []))
  else if contains "reference_scaling_beta =" line then
    let x := match float_of_str (strip v) with Some x => x | None => fzero end in
    inl (mkMerged (device_id d) (flight_number d) (citizen_id d) (origin d)
           (destination d) (origin_ICAO d) (destination_ICAO d)
           (flight_date d) (takeoff d) (landing d) (time_offset d) (R2 d)
           x (timestamps d) (cnt_1mn d) (cnt_5sc d) (time d)
           (lat d) (lon d) (alt d) (cari_total d) (total_neutron d))
  else if contains "citizen_id =" line then
    inl (mkMerged (device_id d) (flight_number d) v (origin d)
           (destination d) (origin_ICAO d) (destination_ICAO d) (flight_date d)
           (takeoff d) (landing d) (time_offset d) (R2 d) (scaling_factor d)
           (timestamps d) (cnt_1mn d) (cnt_5sc d) (time d) (lat d) (lon d)
           (alt d) (cari_total d) (total_neutron d))
  else if contains "detector_timestamps =" line then
    inl (mkMerged (device_id d) (flight_number d) (citizen_id d) (origin d)
           (destination d) (origin_ICAO d) (destination_ICAO d) (flight_date d)
           (takeoff d) (landing d) (time_offset d) (R2 d) (scaling_factor d)
           v (cnt_1mn d) (cnt_5sc d) (time d) (lat d) (lon d)
           (alt d) (cari_total d) (total_neutron d))
  else inl d.

(** A data line: the row is split at the commas and each list gets its
    entry appended. *)
Definition read_row (line : string) (d : merged) : merged + exn :=
  let row := split_comma line in
  t <- or_raise ValueError (strptime (strip (nth 0 row ""))) ;;
  c1 <- (f <- item row 1 ;; py_int f) ;;
  c5 <- (f <- item row 2 ;; py_int f) ;;
  la <- (f <- item row 3 ;; py_float f) ;;
  lo <- (f <- item row 4 ;; py_float f) ;;
  al <- (f <- item row 5 ;; py_float f) ;;
  match cari_total d, total_neutron d with
  | Some total, Some tn =>
      tot <- (f <- item row 6 ;; py_float f) ;;
      tot' <- (f <- item row 6 ;; py_float f) ;;
      neu <- (f <- item row 7 ;; py_float f) ;;
      inl (mkMerged (device_id d) (flight_number d) (citizen_id d) (origin d)
             (destination d) (origin_ICAO d) (destination_ICAO d)
             (flight_date d) (takeoff d) (landing d) (time_offset d) (R2 d)
             (scaling_factor d) (timestamps d)
             (cnt_1mn d ++ [c1]) (cnt_5sc d ++ [c5]) (time d ++ [t])
             (lat d ++ [la]) (lon d ++ [lo]) (alt d ++ [al])
             (Some (total ++ [tot])) (Some (tn ++ [fsub tot' neu])))
  | _, _ =>
      inl (mkMerged (device_id d) (flight_number d) (citizen_id d) (origin d)
             (destination d) (origin_ICAO d) (destination_ICAO d)
             (flight_date d) (takeoff d) (landing d) (time_offset d) (R2 d)
             (scaling_factor d) (timestamps d)
             (cnt_1mn d ++ [c1]) (cnt_5sc d ++ [c5]) (time d ++ [t])
             (lat d ++ [la]) (lon d ++ [lo]) (alt d ++ [al])
             (cari_total d) (total_neutron d))
  end.

Definition read_line (line : string) (d : merged) : merged + exn :=
  if prefix "#" line then read_comment line d else read_row line d.

Fixpoint read_lines (lines : list string) (d : merged) : merged + exn :=
  match lines with
  | [] => inl d
  | line :: rest => d' <- read_line line d ;; read_lines rest d'
  end.

(** [read_processed_log(log_filename)] on the lines of the file.  The
    flag [has_reference] is the presence of the key ['cari_total'],
    which the same branch sets. *)
Definition read_processed_log (lines : list string) : merged + exn :=
  read_lines lines empty.

(** *** What a round trip is expected to give *)

(** The values of the renderings: [round_5f x] is the float that
    [f"{x:.5f}"] denotes, and so on. *)
Variables round_5f round_0f round_4e : float -> float.

(** One sample: the entries of the arrays at one index. *)
Record sample : Type := mkSample {
  s_time : datetime;
  s_cnt_1mn : Z;
  s_cnt_5sc : Z;
  s_lat : float;
  s_lon : float;
  s_alt : float;
  s_total : float;
  s_total_neutron : float
}.

(** The record [read_processed_log] is expected to build from the file
    of [data]: strings, counts and datetimes as they are, floats as the
    values of their renderings, the neutron-free dose as the difference
    of the two doses read; without reference columns the time offset and
    R2 are the placeholder text and a scaling factor that is not
    positive is 0. *)
Definition reread (data : merged) : merged :=
  let has_reference := match cari_total data with Some _ => true | None => false end in
  mkMerged
    (device_id data) (flight_number data) (citizen_id data)
    (origin data) (destination data) (origin_ICAO data) (destination_ICAO data)
    (flight_date data) (takeoff data) (landing data)
    (if has_reference then time_offset data else "???")
    (if has_reference then R2 data else "???")
    (if has_reference || fpos (scaling_factor data)
     then round_4e (scaling_factor data) else fzero)
    (timestamps data)
    (cnt_1mn data) (cnt_5sc data) (time data)
    (map round_5f (lat data)) (map round_5f (lon data)) (map round_0f (alt data))
    (option_map (map round_4e) (cari_total data))
    (match cari_total data, total_neutron data with
     | Some total, Some tn =>
         Some (map2 (fun t n => fsub (round_4e t) (round_4e (fsub t n))) total tn)
     | _, _ => None
     end).

(** The record with empty arrays: what the reader has built when the
    header is read. *)
Definition without_samples (data : merged) : merged :=
  mkMerged
    (device_id data) (flight_number data) (citizen_id data)
    (origin data) (destination data) (origin_ICAO data) (destination_ICAO data)
    (flight_date data) (takeoff data) (landing data)
    (time_offset data) (R2 data) (scaling_factor data) (timestamps data)
    [] [] [] [] [] []
    (option_map (fun _ => []) (cari_total data))
    (option_map (fun _ => []) (cari_total data)).

(** The record with the re-read entries of some samples appended. *)
Definition append_samples (data : merged) (samples : list sample) : merged :=
  mkMerged
    (device_id data) (flight_number data) (citizen_id data)
    (origin data) (destination data) (origin_ICAO data) (destination_ICAO data)
    (flight_date data) (takeoff data) (landing data)
    (time_offset data) (R2 data) (scaling_factor data) (timestamps data)
    (cnt_1mn data ++ map s_cnt_1mn samples)
    (cnt_5sc data ++ map s_cnt_5sc samples)
    (time data ++ map s_time samples)
    (lat data ++ map (fun x => round_5f (s_lat x)) samples)
    (lon data ++ map (fun x => round_5f (s_lon x)) samples)
    (alt data ++ map (fun x => round_0f (s_alt x)) samples)
    (option_map (fun l => l ++ map (fun x => round_4e (s_total x)) samples)
                (cari_total data))
    (option_map
       (fun l => l ++ map (fun x => fsub (round_4e (s_total x))
                                         (round_4e (fsub (s_total x)
                                                         (s_total_neutron x))))
                          samples)
       (total_neutron data)).

(** The line [write_newlog] writes for a sample. *)
Definition row_text (has_reference : bool) (x : sample) : string :=
  concat ", "
    ([strftime (s_time x); format_int (s_cnt_1mn x); format_int (s_cnt_5sc x);
      format_5f (s_lat x); format_5f (s_lon x); format_0f (s_alt x)]
     ++ (if has_reference
         then [format_4e (s_total x);
               format_4e (fsub (s_total x) (s_total_neutron x))]
         else [])).

End Format.

Arguments mkMerged {datetime date float}.
Arguments device_id {datetime date float} m.
Arguments flight_number {datetime date float} m.
Arguments citizen_id {datetime date float} m.
Arguments origin {datetime date float} m.
Arguments destination {datetime date float} m.
Arguments origin_ICAO {datetime date float} m.
Arguments destination_ICAO {datetime date float} m.
Arguments flight_date {datetime date float} m.
Arguments takeoff {datetime date float} m.
Arguments landing {datetime date float} m.
Arguments time_offset {datetime date float} m.
Arguments R2 {datetime date float} m.
Arguments scaling_factor {datetime date float} m.
Arguments timestamps {datetime date float} m.
Arguments cnt_1mn {datetime date float} m.
Arguments cnt_5sc {datetime date float} m.
Arguments time {datetime date float} m.
Arguments lat {datetime date float} m.
Arguments lon {datetime date float} m.
Arguments alt {datetime date float} m.
Arguments cari_total {datetime date float} m.
Arguments total_neutron {datetime date float} m.
Arguments mkSample {datetime float}.
Arguments s_time {datetime float} s.
Arguments s_cnt_1mn {datetime float} s.
Arguments s_cnt_5sc {datetime float} s.
Arguments s_lat {datetime float} s.
Arguments s_lon {datetime float} s.
Arguments s_alt {datetime float} s.
Arguments s_total {datetime float} s.
Arguments s_total_neutron {datetime float} s.
Arguments without_samples {datetime date float} data.
Arguments empty {datetime date float} fzero.

(** *** Texts that survive the format *)

Fixpoint all_chars (p : ascii -> bool) (s : string) : bool :=
  match s with
  | EmptyString => true
  | String c r => p c && all_chars p r
  end.

Definition no_char (c : ascii) (s : string) : bool :=
  all_chars (fun a => negb (Ascii.eqb a c)) s.

(** The last character of a text is [c]. *)
Fixpoint ends_with (c : ascii) (s : string) : bool :=
  match s with
  | EmptyString => false
  | String a EmptyString => Ascii.eqb a c
  | String _ r => ends_with c r
  end.

(** A header value the reader gets back: no blank at either end, no
    ["="], no line break. *)
Definition header_value (v : string) : Prop :=
  strip v = v /\ no_char "=" v = true /\ no_char "010" v = true.

(** A rendering of a number or a datetime: no blank, no [","], no ["="],
    no ["#"]. *)
Definition plain_char (c : ascii) : bool :=
  negb (is_space c) && negb (Ascii.eqb c ",") && negb (Ascii.eqb c "=")
  && negb (Ascii.eqb c "#").

Definition plain (s : string) : bool := all_chars plain_char s.

(** A finalized merged record: header values the format can carry, the
    cities and the date those of the airport codes and of the takeoff,
    and arrays with one entry per sample, with both reference columns or
    none. *)
Definition finalized {datetime date float : Type} (date_of : datetime -> date)
  (city : string -> option string) (data : merged datetime date float)
  (samples : list (sample datetime float)) : Prop :=
  header_value (device_id data)
  /\ header_value (flight_number data)
  /\ header_value (citizen_id data)
  /\ header_value (origin_ICAO data)
  /\ header_value (destination_ICAO data)
  /\ header_value (time_offset data)
  /\ header_value (R2 data)
  /\ header_value (timestamps data)
  /\ city (origin_ICAO data) = Some (origin data)
  /\ city (destination_ICAO data) = Some (destination data)
  /\ (exists tk ld,
        takeoff data = Some tk /\ landing data = Some ld
        /\ flight_date data = Some (date_of tk))
  /\ time data = map s_time samples
  /\ cnt_1mn data = map s_cnt_1mn samples
  /\ cnt_5sc data = map s_cnt_5sc samples
  /\ lat data = map s_lat samples
  /\ lon data = map s_lon samples
  /\ alt data = map s_alt samples
  /\ ((cari_total data = None /\ total_neutron data = None)
      \/ (cari_total data = Some (map s_total samples)
          /\ total_neutron data = Some (map s_total_neutron samples))).

(** *** A small instance for examples

    Datetimes are seconds since the epoch rendered in decimal, floats
    are whole numbers rendered in decimal (so every rendering is exact),
    a date is a day number and the city of a code is looked up in a
    two-entry table. *)

Definition example_date_of (t : Z) : Z := Z.div t 86400.

Definition example_city (code : string) : option string :=
  if String.eqb code "EGLL" then Some "London"
  else if String.eqb code "KJFK" then Some "New York"
  else None.

Definition example_write : merged Z Z Z -> list string + exn :=
  write_newlog Z Z Z format_int format_int format_int format_int Z.sub
               (Z.ltb 0).

Definition example_read : list string -> merged Z Z Z + exn :=
  read_processed_log Z Z Z example_date_of int_of_str int_of_str Z.sub 0
                     example_city.

Definition example_reread : merged Z Z Z -> merged Z Z Z :=
  reread Z Z Z Z.sub 0 (Z.ltb 0) (fun x => x) (fun x => x) (fun x => x).

Definition example_samples : list (sample Z Z) :=
  [mkSample 1700000000 10 1 51 0 10000 5 3;
   mkSample 1700000060 11 2 52 (-1) 10001 6 4].

(** A record with reference columns. *)
Definition example_with_reference : merged Z Z Z :=
  mkMerged "Safecast 123" "BA117" "UNKNOWN" "London" "New York" "EGLL" "KJFK"
           (Some 19675) (Some 1700000000) (Some 1700020000)
           "42" "0.9876" 17 "original"
           [10; 11] [1; 2] [1700000000; 1700000060]
           [51; 52] [0; -1] [10000; 10001]
           (Some [5; 6]) (Some [3; 4]).

(** The same flight without reference data: [read_raw_log] still fills
    in the time offset, and leaves R2 empty and the factor 0. *)
Definition example_without_reference : merged Z Z Z :=
  mkMerged "Safecast 123" "BA117" "UNKNOWN" "London" "New York" "EGLL" "KJFK"
           (Some 19675) (Some 1700000000) (Some 1700020000)
           "42" "" 0 "original"
           [10; 11] [1; 2] [1700000000; 1700000060]
           [51; 52] [0; -1] [10000; 10001]
           None None.

End ProcessedLog.

(** ** Plot smoothing: [moving_average] *)

Module MovingAverage.

Section Model.

(** The entries of the array, in its dtype. *)
Variable X : Type.

(** One entry of [np.convolve(arr, np.ones(w)/w, mode='valid')] as the
    item assignment stores it back into [arr]: the entries of one window,
    each times [1/w], summed and cast to the dtype of [arr]. *)
Variable average : Z -> list X -> X.

(** A bound of a Python slice on an array of [n] entries: a negative
    bound counts from the end, and the result is clamped to [0, n]. *)
Definition bound (n : nat) (i : Z) : nat :=
  let j := if i <? 0 then i + Z.of_nat n else i in
  Z.to_nat (Z.min (Z.max j 0) (Z.of_nat n)).

(** [np.convolve(arr, np.ones(w)/w, mode='valid')]: [np.ones] refuses a
    negative size and [np.convolve] an empty argument; the result has
    [max(n, w) - min(n, w) + 1] entries, one for every position at which
    the shorter argument lies within the longer one. *)
Definition convolve_valid (arr : list X) (w : Z) : list X + exn :=
  let n := length arr in
  if w <? 0 then inr ValueError
  else if Nat.eqb n 0 || (w =? 0) then inr ValueError
  else
    let m := Z.to_nat w in
    if Nat.leb m n
    then inl (map (fun i => average w (slice arr i (i + m)))
                  (seq 0 (n - m + 1)))
    else inl (repeat (average w arr) (m - n + 1)).

(** [arr[lo:hi] = values]: the values fill the slice when there are as
    many, a single value is broadcast over it, and anything else is a
    shape mismatch. *)
Definition assign_slice (arr : list X) (lo hi : nat) (values : list X)
  : list X + exn :=
  let len := (hi - lo)%nat in
  if Nat.eqb (length values) len
  then inl (firstn lo arr ++ values ++ skipn (lo + len) arr)
  else
    match values with
    | [v] => inl (firstn lo arr ++ repeat v len ++ skipn (lo + len) arr)
    | _ => inr ValueError
    end.

(** [moving_average(arr, w)] *)
Definition moving_average (arr : list X) (w : Z) : list X + exn :=
  if w mod 2 =? 0 then inr ValueError
  else
    match convolve_valid arr w with
    | inr e => inr e
    | inl smoothed =>
        let n := length arr in
        assign_slice arr (bound n (w / 2)) (bound n (- w / 2 + 1)) smoothed
    end.

End Model.

(** An instance for witnesses: an [int64] array, the average taken
    exactly and cut toward zero. *)
Definition example_average (w : Z) (window : list Z) : Z :=
  Z.quot (Zsum window) w.

End MovingAverage.

(** ** Device readers *)

(** What [read_safecast_log], [read_uct_data] and [read_otherdata_csv]
    return: the device id and the arrays of the samples.  A float of the
    position arrays is a rational or [np.nan] ([None]). *)
Module Device.

Record data : Type := mkData {
  device_id : String.string;
  cnt_1mn : list Z;
  cnt_5sc : list Z;
  time : list Z;
  lat : list (option Q);
  lon : list (option Q);
  alt : list (option Q)
}.

End Device.

(** [l[-1]] *)
Definition py_last {A : Type} (l : list A) : option A :=
  match rev l with
  | [] => None
  | x :: _ => Some x
  end.

(** [l[-k:]] *)
Definition last_n {A : Type} (k : nat) (l : list A) : list A :=
  skipn (length l - k) l.

(** [l[-1] += 1] *)
Definition incr_last (l : list Z) : option (list Z) :=
  match rev l with
  | [] => None
  | x :: r => Some (rev ((x + 1) :: r))
  end.

(** *** [read_uct_data]: a log of event timestamps

    The events are stamped in milliseconds after the start time; the
    sample times the reader builds are whole seconds, the start time and
    multiples of 5 s after it.  The stamps are taken within the range
    of [timedelta] and [datetime], where their arithmetic is exact. *)
Module UctLog.

Import String.
Import Device.

(** The body of [for i in range(elapsed5)]: one more 5 s bin, with no
    event yet, its 1 min count the sum of the last 12 bins. *)
Definition append_bin (d : data) : data + exn :=
  match py_last (time d) with
  | None => inr IndexError
  | Some t =>
      let cnt_5sc' := cnt_5sc d ++ [0] in
      inl (mkData (device_id d)
                  (cnt_1mn d ++ [Zsum (last_n 12 cnt_5sc')])
                  cnt_5sc'
                  (time d ++ [t + 5])
                  (lat d ++ [None]) (lon d ++ [None]) (alt d ++ [None]))
  end.

Fixpoint append_bins (k : nat) (d : data) : data + exn :=
  match k with
  | O => inl d
  | S k' =>
      match append_bin d with
      | inl d' => append_bins k' d'
      | inr e => inr e
      end
  end.

(** The body of [for line in f] for an event [millis] ms after the
    start: [time - data['time'][-1]] is compared in milliseconds, and
    [elapsed5] is the number of whole 5 s in it. *)
Definition event (start millis : Z) (d : data) : data + exn :=
  match py_last (time d) with
  | None => inr IndexError
  | Some t =>
      let gap := 1000 * start + millis - 1000 * t in
      let binned :=
        if 5000 <? gap then append_bins (Z.to_nat (gap / 5000)) d else inl d in
      match binned with
      | inr e => inr e
      | inl d' =>
          match incr_last (cnt_5sc d'), incr_last (cnt_1mn d') with
          | Some c5, Some c1 =>
              inl (mkData (device_id d') c1 c5 (time d')
                          (lat d') (lon d') (alt d'))
          | _, _ => inr IndexError
          end
      end
  end.

Section Reader.

(** [datetime.strptime(s, "%Y %d %b %H:%M:%S")], in seconds, and
    [int(s)]; [None] is their ValueError. *)
Variable strptime : string -> option Z.
Variable py_int : string -> option Z.

(** [int(line.split(',')[0].strip())] *)
Definition millis_of (line : string) : option Z :=
  py_int (ProcessedLog.strip (hd EmptyString (ProcessedLog.split_comma line))).

Fixpoint events (start : Z) (lines : list string) (d : data) : data + exn :=
  match lines with
  | [] => inl d
  | line :: rest =>
      match millis_of line with
      | None => inr ValueError
      | Some millis =>
          match event start millis d with
          | inl d' => events start rest d'
          | inr e => inr e
          end
      end
  end.

(** [read_uct_data], on the lines of the file: the first holds the start
    time, the second is skipped, every further one is an event. *)
Definition start_text (lines : list string) : string :=
  let line1 := hd EmptyString lines in
  append "2026 " (ProcessedLog.strip line1).

Definition read_uct_data (lines : list string) : data + exn :=
  match strptime (start_text lines) with
  | None => inr ValueError
  | Some start_time =>
      events start_time (skipn 2 lines)
             (mkData "UCT" [0] [0] [start_time] [] [] [])
  end.

End Reader.

(** The sample times [start, start + 5, ...] of [n] bins. *)
Definition grid (start : Z) (n : nat) : list Z :=
  map (fun i => start + 5 * Z.of_nat i) (seq 0 n).

(** The 1 min count of bin [i]: the sum of the 5 s counts of the bins
    [i - 11 .. i]. *)
Definition minute_sum (cnt_5sc : list Z) (i : nat) : Z :=
  Zsum (slice cnt_5sc (i - 11) (i + 1)).

(** What [read_uct_data] keeps true of its record after [events] events. *)
Definition inv (start : Z) (events : nat) (d : data) : Prop :=
  time d = grid start (List.length (time d))
  /\ (0 < List.length (time d))%nat
  /\ List.length (cnt_5sc d) = List.length (time d)
  /\ List.length (cnt_1mn d) = List.length (time d)
  /\ List.length (time d) = S (List.length (lat d))
  /\ List.length (lon d) = List.length (lat d)
  /\ List.length (alt d) = List.length (lat d)
  /\ Zsum (cnt_5sc d) = Z.of_nat events
  /\ (forall i, (i < List.length (time d))%nat ->
                nth i (cnt_1mn d) 0 = minute_sum (cnt_5sc d) i)
  /\ device_id d = "UCT"%string.

(** An instance for witnesses: the start line holds the start time as a
    decimal number of seconds. *)
Definition example_strptime (s : string) : option Z :=
  ProcessedLog.int_of_str (substring 5 (String.length s - 5) s).

Definition example_lines : list string :=
  ["100"; "time,value"; "0,1"; "7000,1"; "7100,2"; "70000"]%string.

Definition example_data : data :=
  mkData "UCT"
         [1; 3; 3; 3; 3; 3; 3; 3; 3; 3; 3; 3; 2; 0; 1]
         [1; 2; 0; 0; 0; 0; 0; 0; 0; 0; 0; 0; 0; 0; 1]
         [100; 105; 110; 115; 120; 125; 130; 135; 140; 145; 150; 155;
          160; 165; 170]
         (repeat None 14) (repeat None 14) (repeat None 14).

End UctLog.

(** ** The CARI-7A input files of [gen_cari_data] *)

(** [gen_cari_data] spreads the [size] points it kept of the flight over
    [parallel] copies of CARI-7A: copy [p] is given the points
    [offset .. offset + widths[p] - 1].  [read_raw_log] calls it for
    [parallel > 0] only. *)
Module CariInput.

(** [widths = [int(size/parallel + 1)] * parallel] and then
    [widths[-1] = size - sum(widths[:-1])] *)
Definition widths (size : nat) (parallel : positive) : list Z :=
  let w := Qtrunc (inject_Z (Z.of_nat size) / inject_Z (Zpos parallel) + 1)%Q in
  let all := repeat w (Pos.to_nat parallel) in
  set_nth all (length all - 1) (Z.of_nat size - Zsum (removelast all)).

(** [range(lo, hi)] *)
Definition range (lo hi : Z) : list Z :=
  map (fun i => lo + Z.of_nat i) (seq 0 (Z.to_nat (hi - lo))).

(** The index [i] of a list of [n] entries: a negative index counts
    from the end. *)
Definition index (n : nat) (i : Z) : option nat :=
  if (0 <=? i) && (i <? Z.of_nat n) then Some (Z.to_nat i)
  else if (- Z.of_nat n <=? i) && (i <? 0) then Some (Z.to_nat (i + Z.of_nat n))
  else None.

(** The points written to the input file of one copy:
    [for i in range(offset, offset+widths[p])], each [lat[i]], [lon[i]],
    ... being looked up in the lists of [size] entries. *)
Fixpoint file_points (size : nat) (indices : list Z) : list nat + exn :=
  match indices with
  | [] => inl []
  | i :: rest =>
      match index size i with
      | None => inr IndexError
      | Some j =>
          match file_points size rest with
          | inl js => inl (j :: js)
          | inr e => inr e
          end
      end
  end.

(** [for p in range(parallel)]: the points of every input file, in the
    order of the copies. *)
Fixpoint files (size : nat) (offset : Z) (ws : list Z) : list (list nat) + exn :=
  match ws with
  | [] => inl []
  | w :: rest =>
      match file_points size (range offset (offset + w)) with
      | inr e => inr e
      | inl js =>
          match files size (offset + w) rest with
          | inl fs => inl (js :: fs)
          | inr e => inr e
          end
      end
  end.

Definition input_files (size : nat) (parallel : positive)
  : list (list nat) + exn :=
  files size 0 (widths size parallel).

End CariInput.

(** ** The window of the merged record, lines 184-200 of [read_raw_log] *)

Module MergeWindow.

Record window : Type := mkWindow {
  cnt_1mn : list Z;
  cnt_5sc : list Z;
  time_offset : Z;
  time : list Z
}.

(** [idx_range = slice(device_takeoff_idx, device_landing_idx+1)]; the
    counts and times of the device are cut to it,
    [time_offset = int((takeoff - device_time[device_takeoff_idx])
    .total_seconds())], and the times are moved to start at the takeoff
    of the flight: [data['time'] - data['time'][0] + data['takeoff']]. *)
Definition merge (device_cnt_1mn device_cnt_5sc device_time : list Z)
  (device_takeoff_idx device_landing_idx : nat) (takeoff : Z) : window + exn :=
  let lo := device_takeoff_idx in
  let hi := (device_landing_idx + 1)%nat in
  match nth_error device_time device_takeoff_idx with
  | None => inr IndexError
  | Some t_takeoff =>
      let times := slice device_time lo hi in
      match times with
      | [] => inr IndexError
      | t0 :: _ =>
          inl (mkWindow (slice device_cnt_1mn lo hi)
                        (slice device_cnt_5sc lo hi)
                        (takeoff - t_takeoff)
                        (map (fun t => t - t0 + takeoff) times))
      end
  end.

End MergeWindow.

(** ** Flight data from positions alone: [recover_flight] *)

Module RecoverFlight.

Import String.

(** An entry of [airportsdata.load('ICAO')]; the key of an entry is its
    ICAO code. *)
Record airport : Type := mkAirport {
  icao : string;
  airport_lat : Q;
  airport_lon : Q;
  city : string
}.

(** One index of the arrays [data['time']], [data['lat']], [data['lon']]
    and [data['alt']], which have one length; a position is a rational
    or [np.nan] ([None]). *)
Record sample : Type := mkSample {
  time_of : Z;
  lat_of : option Q;
  lon_of : option Q;
  alt_of : option Q
}.

Record flight (date : Type) : Type := mkFlight {
  flight_number : string;
  origin : string;
  destination : string;
  origin_ICAO : string;
  destination_ICAO : string;
  date_of_flight : date;
  takeoff : Z;
  landing : Z;
  time : list Z;
  lat : list (option Q);
  lon : list (option Q);
  alt : list (option Q)
}.

Arguments mkFlight {date}.
Arguments flight_number {date}.
Arguments origin {date}.
Arguments destination {date}.
Arguments origin_ICAO {date}.
Arguments destination_ICAO {date}.
Arguments date_of_flight {date}.
Arguments takeoff {date}.
Arguments landing {date}.
Arguments time {date}.
Arguments lat {date}.
Arguments lon {date}.
Arguments alt {date}.

(** [np.argmin]: the first index of the smallest entry, a nan counting
    as smaller than every number. *)
Definition less (x best : option Q) : bool :=
  match x, best with
  | _, None => false
  | None, Some _ => true
  | Some a, Some b => Qltb a b
  end.

Fixpoint argmin_from (best_i : nat) (best : option Q) (i : nat)
  (l : list (option Q)) : nat :=
  match l with
  | [] => best_i
  | x :: r =>
      if less x best then argmin_from i x (S i) r
      else argmin_from best_i best (S i) r
  end.

Definition argmin (l : list (option Q)) : nat + exn :=
  match l with
  | [] => inr ValueError
  | x :: r => inl (argmin_from 0 x 1 r)
  end.

Section Model.

Variable date : Type.
Variable date_of : Z -> date.                (* [datetime.date()] *)
Variable airports : list airport.            (* in the order of the keys *)

(** [lat_lon_dist(lat1, lon1, lat2, lon2)] on floats *)
Variable lat_lon_dist : option Q -> option Q -> option Q -> option Q -> option Q.

(** [np.logical_not(np.isnan(lat + lon + alt))], restricted to the
    times from [takeoff] and up to [landing] where these are given *)
Definition valid (takeoff landing : option Z) (s : sample) : bool :=
  match lat_of s, lon_of s, alt_of s with
  | Some _, Some _, Some _ => true
  | _, _, _ => false
  end
  && match takeoff with Some t => t <=? time_of s | None => true end
  && match landing with Some t => time_of s <=? t | None => true end.

(** [airports.get(code)['city']] *)
Definition city_of (code : string) : string + exn :=
  match find (fun a => String.eqb (icao a) code) airports with
  | Some a => inl (city a)
  | None => inr TypeError
  end.

(** [icao[np.argmin(lat_lon_dist(lat0, lon0, lat, lon))]], the codes
    being stored in an array of dtype [U4], which keeps four characters
    of each *)
Definition nearest (lat0 lon0 : option Q) : string + exn :=
  match argmin (map (fun a => lat_lon_dist lat0 lon0 (Some (airport_lat a))
                                           (Some (airport_lon a)))
                    airports) with
  | inr e => inr e
  | inl i =>
      match nth_error airports i with
      | Some a => inl (substring 0 4 (icao a))
      | None => inr IndexError
      end
  end.

(** [recover_flight(data, takeoff, landing, flight_number)] *)
Definition recover_flight (data : list sample) (takeoff landing : option Z)
  (flight_number : string) : flight date + exn :=
  let kept := filter (valid takeoff landing) data in
  match kept with
  | [] => inr IndexError                     (* [flight_data['lat'][0]] *)
  | first :: _ =>
      let final := last kept first in
      match nearest (lat_of first) (lon_of first) with
      | inr e => inr e
      | inl origin_ICAO =>
          match nearest (lat_of final) (lon_of final) with
          | inr e => inr e
          | inl destination_ICAO =>
              match city_of origin_ICAO with
              | inr e => inr e
              | inl origin =>
                  match city_of destination_ICAO with
                  | inr e => inr e
                  | inl destination =>
                      inl (mkFlight flight_number origin destination
                                    origin_ICAO destination_ICAO
                                    (date_of (time_of first))
                                    (time_of first) (time_of final)
                                    (map time_of kept) (map lat_of kept)
                                    (map lon_of kept) (map alt_of kept))
                  end
              end
          end
      end
  end.

End Model.

(** An instance for witnesses: two airports, and the sum of the
    differences in latitude and longitude for a distance. *)
Definition example_airports : list airport :=
  [mkAirport "EGLL" 51 0 "London"; mkAirport "KJFK" 41 (-74) "New York"].

Definition example_dist (lat1 lon1 lat2 lon2 : option Q) : option Q :=
  match lat1, lon1, lat2, lon2 with
  | Some a, Some b, Some c, Some d => Some (Qabs (a - c) + Qabs (b - d))%Q
  | _, _, _, _ => None
  end.

Definition example_data : list sample :=
  [mkSample 10 None None None;
   mkSample 20 (Some 51%Q) (Some (-1)%Q) (Some 100%Q);
   mkSample 30 (Some 45%Q) (Some (-40)%Q) (Some 11000%Q);
   mkSample 40 (Some 41%Q) (Some (-73)%Q) (Some 50%Q);
   mkSample 50 (Some 41%Q) (Some (-74)%Q) (Some 10%Q)].

Definition example_flight : flight Z :=
  mkFlight "" "London" "New York" "EGLL" "KJFK" 0 20 40
           [20; 30; 40]
           [Some 51%Q; Some 45%Q; Some 41%Q]
           [Some (-1)%Q; Some (-40)%Q; Some (-73)%Q]
           [Some 100%Q; Some 11000%Q; Some 50%Q].

End RecoverFlight.

(** ** Links to Drive files: [extract_drive_id] of
       [coa_automation_script.py] *)

Module DriveLink.

Import String Ascii.
Local Open Scope string_scope.

(** The highest index at which [pat] occurs in [s], counted from [i] at
    the head of [s]. *)
Fixpoint rfind_from (pat s : string) (i : nat) : option nat :=
  match s with
  | EmptyString => if prefix pat s then Some i else None
  | String _ r =>
      match rfind_from pat r (S i) with
      | Some j => Some j
      | None => if prefix pat s then Some i else None
      end
  end.

(** How often the character [c] occurs in [s]. *)
Fixpoint occurrences (c : ascii) (s : string) : nat :=
  match s with
  | EmptyString => 0
  | String a r => (if Ascii.eqb a c then 1 else 0) + occurrences c r
  end.

(** [s.rfind(pat)]: -1 when [pat] does not occur *)
Definition rfind (pat s : string) : Z :=
  match rfind_from pat s 0 with
  | Some j => Z.of_nat j
  | None => (-1)%Z
  end.

(** A bound of a slice of a string of [n] characters: a negative bound
    counts from the end, and the result is clamped to [0, n]. *)
Definition bound (n : nat) (i : Z) : nat :=
  let j := if Z.ltb i 0 then Z.add i (Z.of_nat n) else i in
  Z.to_nat (Z.min (Z.max j 0) (Z.of_nat n)).

(** [s[start:stop]] and [s[start:]] *)
Definition slice (s : string) (start stop : Z) : string :=
  let lo := bound (String.length s) start in
  let hi := bound (String.length s) stop in
  substring lo (hi - lo) s.

Definition slice_from (s : string) (start : Z) : string :=
  let lo := bound (String.length s) start in
  substring lo (String.length s - lo) s.

(** [extract_drive_id(url)] *)
Definition extract_drive_id (url : string) : string :=
  let drive_id := url in
  let drive_id :=
    if ProcessedLog.contains "id=" url
    then slice_from url (Z.add (rfind "=" url) 1)
    else drive_id in
  let drive_id :=
    if ProcessedLog.contains "file/d" url
    then slice url (Z.add (rfind "file/d/" url) 7) (rfind "/view" url)
    else drive_id in
  drive_id.

End DriveLink.

(** *** [read_safecast_log]: the [$BNRDD] sentences of a Safecast log *)

Module SafecastLog.

Import String Device.
Local Open Scope string_scope.

(** Float arithmetic with nan. *)
Definition fadd (a b : option Q) : option Q :=
  match a, b with
  | Some x, Some y => Some (x + y)%Q
  | _, _ => None
  end.

Definition fdiv60 (a : option Q) : option Q :=
  option_map (fun x => (x / 60)%Q) a.

Definition fneg (a : option Q) : option Q := option_map Qopp a.

Section Reader.

(** [datetime.strptime(s, '%Y-%m-%dT%H:%M:%SZ')], [int(s)] and
    [float(s)], a number or nan; [None] is their ValueError. *)
Variable strptime : string -> option Z.
Variable py_int : string -> option Z.
Variable py_float : string -> option (option Q).

(** [s[k:]] *)
Definition drop (k : nat) (s : string) : string :=
  substring k (String.length s - k) s.

(** The position of a valid sentence: degrees and minutes of latitude
    and longitude with their hemispheres, and the altitude. *)
Definition position (row : list string)
  : option Q * option Q * option Q + exn :=
  let r7 := nth 7 row "" in
  let r9 := nth 9 row "" in
  match py_float (substring 0 2 r7), py_float (drop 2 r7),
        py_float (substring 0 3 r9), py_float (drop 3 r9),
        py_float (nth 11 row "") with
  | Some d1, Some m1, Some d2, Some m2, Some a =>
      let lat := fadd d1 (fdiv60 m1) in
      let lon := fadd d2 (fdiv60 m2) in
      let lat := if String.eqb (nth 8 row "") "S" then fneg lat else lat in
      let lon := if String.eqb (nth 10 row "") "W" then fneg lon else lon in
      inl (lat, lon, a)
  | _, _, _, _, _ => inr ValueError
  end.

(** The body of [for line in f]. *)
Definition sentence (line : string) (d : data) : data + exn :=
  if negb (prefix "$BNRDD" line) then inl d
  else
    let row := ProcessedLog.split_comma line in
    match nth_error row 6 with
    | None => inr IndexError
    | Some r6 =>
        if negb (ProcessedLog.contains "A" r6) then inl d
        else
          let id := "Safecast " ++ ProcessedLog.strip (nth 1 row "") in
          match strptime (ProcessedLog.strip (nth 2 row "")),
                py_int (nth 3 row ""), py_int (nth 4 row "") with
          | Some t, Some c1, Some c5 =>
              match nth_error row 12 with
              | None => inr IndexError
              | Some r12 =>
                  let gps :=
                    if String.eqb r12 "A" then position row
                    else inl (None, None, None) in
                  match gps with
                  | inr e => inr e
                  | inl (la, lo, al) =>
                      inl (mkData id (cnt_1mn d ++ [c1]) (cnt_5sc d ++ [c5])
                                  (time d ++ [t]) (lat d ++ [la])
                                  (lon d ++ [lo]) (alt d ++ [al]))
                  end
              end
          | _, _, _ => inr ValueError
          end
    end.

Fixpoint sentences (lines : list string) (d : data) : data + exn :=
  match lines with
  | [] => inl d
  | line :: rest =>
      match sentence line d with
      | inl d' => sentences rest d'
      | inr e => inr e
      end
  end.

(** [read_safecast_log], on the lines of the file *)
Definition read_safecast_log (lines : list string) : data + exn :=
  sentences lines (mkData "" [] [] [] [] [] []).

(** A line the reader passes over: not a [$BNRDD] sentence, or one
    whose device status (field 6) holds no ["A"]. *)
Definition passed_over (line : string) : bool :=
  negb (prefix "$BNRDD" line)
  || match nth_error (ProcessedLog.split_comma line) 6 with
     | Some r6 => negb (ProcessedLog.contains "A" r6)
     | None => false
     end.

End Reader.

(** An instance for witnesses: timestamps and numbers are decimal
    integers. *)
Definition example_float (s : string) : option (option Q) :=
  option_map (fun z => Some (inject_Z z)) (ProcessedLog.int_of_str s).

Definition example_lines : list string :=
  ["# format=1.3.6";
   "$BNRDD,1083,1700000000,31,2,100,A,5130,N,00015,W,35,A,9,89";
   "$BNRDD,1083,1700000005,30,1,101,V,5130,N,00015,W,35,A,9,89";
   "$BNRDD,1083,1700000010,29,3,104,A,5130,N,00015,W,35,V,9,89"].

Definition example_data : data :=
  mkData "Safecast 1083" [31; 29] [2; 3] [1700000000; 1700000010]
         [Some (3090 # 60)%Q; None] [Some (-15 # 60)%Q; None]
         [Some 35%Q; None].

End SafecastLog.

(** *** [read_otherdata_csv]: the logs of GMC, Radiacode and Rium counters *)

Module CsvLog.

Import String Ascii Device.
Local Open Scope string_scope.

(** What ends [read_otherdata_csv] other than a return: the exception of
    a file of no known format, and the OverflowError of [int] on an
    infinite rate, which the [except] clauses of the loops do not
    catch. *)
Inductive failure : Type :=
| UnknownFormat
| Overflow.

(** The two counts of a row, [int(temp_cnt)] and [int(temp_cnt)//12] of
    a GMC counter or [int(float(temp_cnt)*60)] and
    [int(float(temp_cnt)*5)] of the others; the ValueError of a text
    that is no number (or is nan); the OverflowError of an infinite
    one. *)
Inductive conversion : Type :=
| Counts (cnt_1mn cnt_5sc : Z)
| NoNumber
| TooLarge.

(** [s.split(sep)] *)
Fixpoint split (sep : ascii) (s : string) : list string :=
  match s with
  | EmptyString => [EmptyString]
  | String c r =>
      if Ascii.eqb c sep
      then EmptyString :: split sep r
      else
        match split sep r with
        | f :: fs => String c f :: fs
        | [] => [String c EmptyString]
        end
  end.

(** What tells the three loops of the reader apart: the device id, the
    separator of the columns, the timestamp of a row ([None] when
    computing it raises the ValueError or IndexError that the loop
    catches), the column of the count and its conversion. *)
Record dialect : Type := mkDialect {
  id : string;
  separator : ascii;
  time_of : list string -> option Z;
  column : nat;
  convert : string -> conversion
}.

(** The body of the [try] of a loop: nothing is appended for a row
    without timestamp, without the column of the count or with an empty
    count; the timestamp is appended before the count is converted, and
    stays when the conversion raises ValueError. *)
Definition row_step (dl : dialect) (row : list string) (d : data)
  : data + failure :=
  match time_of dl row with
  | None => inl d
  | Some temp_time =>
      match nth_error row (column dl) with
      | None => inl d
      | Some temp_cnt =>
          if String.eqb temp_cnt "" then inl d
          else
            let time' := (time d ++ [temp_time])%list in
            match convert dl temp_cnt with
            | NoNumber =>
                inl (mkData (device_id d) (cnt_1mn d) (cnt_5sc d) time'
                            (lat d) (lon d) (alt d))
            | TooLarge => inr Overflow
            | Counts c1 c5 =>
                inl (mkData (device_id d) (cnt_1mn d ++ [c1])
                            (cnt_5sc d ++ [c5]) time'
                            (lat d ++ [None]) (lon d ++ [None])
                            (alt d ++ [None]))
            end
      end
  end.

(** [for line in f] *)
Fixpoint rows (dl : dialect) (lines : list string) (d : data)
  : data + failure :=
  match lines with
  | [] => inl d
  | line :: rest =>
      match row_step dl (split (separator dl) line) d with
      | inl d' => rows dl rest d'
      | inr e => inr e
      end
  end.

Section Reader.

(** [datetime.strptime] with each of the four formats of the reader
    ([None] is its ValueError), [int(s)], and the counts
    [int(float(s)*60)] and [int(float(s)*5)]. *)
Variable strptime_dash : string -> option Z.     (* "%Y-%m-%d %H:%M" *)
Variable strptime_slash : string -> option Z.    (* "%Y/%m/%d %H:%M" *)
Variable strptime_seconds : string -> option Z.  (* "%Y-%m-%d %H:%M:%S" *)
Variable strptime_rium : string -> option Z.     (* "%d/%m/%Y %H:%M:%S" *)
Variable py_int : string -> option Z.
Variable rate_counts : string -> conversion.

(** GMC: both formats are tried in turn, the later success wins. *)
Definition gmc_time (row : list string) : option Z :=
  let text := ProcessedLog.strip (nth 0 row "") in
  match strptime_slash text with
  | Some t => Some t
  | None => strptime_dash text
  end.

(** [int(temp_cnt)] and [int(temp_cnt)//12] *)
Definition gmc_counts (temp_cnt : string) : conversion :=
  match py_int temp_cnt with
  | Some c => Counts c (c / 12)
  | None => NoNumber
  end.

(** Radiacode: [row[0].strip()[:18]] *)
Definition radiacode_time (row : list string) : option Z :=
  strptime_seconds (substring 0 18 (ProcessedLog.strip (nth 0 row ""))).

(** Rium: [row[0].strip() + " " + row[1].strip()] *)
Definition rium_time (row : list string) : option Z :=
  match nth_error row 1 with
  | None => None
  | Some r1 =>
      strptime_rium (ProcessedLog.strip (nth 0 row "") ++ " "
                     ++ ProcessedLog.strip r1)
  end.

Definition gmc : dialect := mkDialect "GMC" "," gmc_time 3 gmc_counts.
Definition radiacode : dialect :=
  mkDialect "Radiacode" ";" radiacode_time 3 rate_counts.
Definition rium : dialect := mkDialect "Rium" "," rium_time 2 rate_counts.

(** The [if ... elif ... elif ... else] on the first line and the file
    name. *)
Definition dialect_of (data_filename line1 : string) : option dialect :=
  if ProcessedLog.contains "GQ Electronics LLC" line1 then Some gmc
  else if ProcessedLog.contains "Time;Timestamp;" line1 then Some radiacode
  else if ProcessedLog.contains "rium" (ProcessedLog.lower data_filename)
  then Some rium
  else None.

(** [read_otherdata_csv(data_filename)], on the name and the lines of
    the file. *)
Definition read_otherdata_csv (data_filename : string) (lines : list string)
  : data + failure :=
  match dialect_of data_filename (hd "" lines) with
  | None => inr UnknownFormat
  | Some dl => rows dl (tl lines) (mkData (id dl) [] [] [] [] [] [])
  end.

End Reader.

(** A row whose timestamp is appended and whose count is not. *)
Definition unmatched (dl : dialect) (line : string) : bool :=
  let row := split (separator dl) line in
  match time_of dl row, nth_error row (column dl) with
  | Some _, Some temp_cnt =>
      negb (String.eqb temp_cnt "")
      && match convert dl temp_cnt with NoNumber => true | _ => false end
  | _, _ => false
  end.

(** An instance for witnesses: timestamps and counts are decimal
    integers. *)
Definition example_rate (s : string) : conversion :=
  match ProcessedLog.int_of_str s with
  | Some c => Counts (c * 60) (c * 5)
  | None => NoNumber
  end.

Definition example_read : string -> list string -> data + failure :=
  read_otherdata_csv ProcessedLog.int_of_str ProcessedLog.int_of_str
                     ProcessedLog.int_of_str ProcessedLog.int_of_str
                     ProcessedLog.int_of_str example_rate.

Definition example_lines : list string :=
  ["GQ Electronics LLC, GMC-500";
   "1700000000,Every Minute,CPM,31,x";
   "1700000060,Every Minute,CPM,n/a,x";
   "comment";
   "1700000120,Every Minute,CPM,29,x"].

Definition example_data : data :=
  mkData "GMC" [31; 29] [2; 2] [1700000000; 1700000060; 1700000120]
         [None; None] [None; None] [None; None].

End CsvLog.

(** ** The smoothing of [plotly_plot] *)

(** [plotly_plot] smooths the counts of every record with
    [moving_average]; when no width is given ([-1]) it takes the number
    of samples in about ten minutes, made odd. *)
Module PlotlyPlot.

(** [time = np.array([(t - d['takeoff']).total_seconds() for t in
    d['time']])] and [average_dt = np.average(time[1:] - time[:-1])]:
    the mean of the consecutive deltas, which the takeoff does not
    enter, and nan ([None]) when there is no delta. *)
Definition average_dt (time : list Z) : option Q :=
  match diffs time with
  | [] => None
  | dt => Some (inject_Z (Zsum dt) / inject_Z (Z.of_nat (length dt)))%Q
  end.

(** [if average_dt <= 0: average_dt = 1e-9], then
    [moving_average_width[i] = int(600 / average_dt)] and
    [moving_average_width[i] += (moving_average_width[i] % 2 == 0)];
    [int] raises ValueError on a nan. *)
Definition default_width (time : list Z) : Z + exn :=
  match average_dt time with
  | None => inr ValueError
  | Some average_dt =>
      let average_dt :=
        if Qle_bool average_dt 0 then (1 # 1000000000)%Q else average_dt in
      let width := Qtrunc (600 / average_dt) in
      inl (width + (if width mod 2 =? 0 then 1 else 0))
  end.

(** [if moving_average_width[i] == -1: ...] *)
Definition width (moving_average_width : Z) (time : list Z) : Z + exn :=
  if moving_average_width =? -1 then default_width time
  else inl moving_average_width.

Section Model.

Variable X : Type.
Variable average : Z -> list X -> X.

(** [cpm_average = moving_average(cpm, moving_average_width[i])] *)
Definition cpm_average (cpm : list X) (moving_average_width : Z)
  (time : list Z) : list X + exn :=
  match width moving_average_width time with
  | inr e => inr e
  | inl w => MovingAverage.moving_average X average cpm w
  end.

End Model.

End PlotlyPlot.

(** ** Flight tracks: [read_flight_csv] *)

Module FlightCsv.

Import String Ascii RecoverFlight.
Local Open Scope string_scope.

(** [c.isdecimal()], on ASCII characters *)
Definition isdecimal (c : ascii) : bool :=
  let n := nat_of_ascii c in Nat.leb 48 n && Nat.leb n 57.

(** [line.replace] of every double quote by nothing *)
Fixpoint remove_quotes (s : string) : string :=
  match s with
  | EmptyString => EmptyString
  | String c r =>
      if Ascii.eqb c (ascii_of_nat 34) then remove_quotes r
      else String c (remove_quotes r)
  end.

(** [float(line[5]) * 0.3048], feet to metres *)
Definition metres (feet : option Q) : option Q :=
  option_map (fun x => x * (3048 # 10000))%Q feet.

Section Reader.

(** [datetime.strptime(s, "%Y-%m-%dT%H:%M:%SZ")] and [float(s)], a
    number or nan; [None] is their ValueError. *)
Variable strptime : string -> option Z.
Variable py_float : string -> option (option Q).

(** What [recover_flight] works with. *)
Variable date : Type.
Variable date_of : Z -> date.
Variable airports : list airport.
Variable lat_lon_dist : option Q -> option Q -> option Q -> option Q -> option Q.

(** The body of [for line in f], on the samples read so far and the
    flight number. *)
Definition row (line : string) (st : list sample * string)
  : list sample * string + exn :=
  match line with
  | EmptyString => inr IndexError                         (* [line[0]] *)
  | String c _ =>
      if negb (isdecimal c) then inl st
      else
        let line := ProcessedLog.split_comma (remove_quotes line) in
        match nth_error line 1 with
        | None => inr IndexError
        | Some l1 =>
        match strptime (ProcessedLog.strip l1) with
        | None => inr ValueError
        | Some t =>
        match nth_error line 2 with
        | None => inr IndexError
        | Some l2 =>
        match nth_error line 3 with
        | None => inr IndexError
        | Some l3 =>
        match py_float l3 with
        | None => inr ValueError
        | Some la =>
        match nth_error line 4 with
        | None => inr IndexError
        | Some l4 =>
        match py_float l4 with
        | None => inr ValueError
        | Some lo =>
        match nth_error line 5 with
        | None => inr IndexError
        | Some l5 =>
        match py_float l5 with
        | None => inr ValueError
        | Some al =>
            inl ((fst st ++ [mkSample t la lo (metres al)])%list,
                 ProcessedLog.strip l2)
        end end end end end end end end end
  end.

Fixpoint rows (lines : list string) (st : list sample * string)
  : list sample * string + exn :=
  match lines with
  | [] => inl st
  | line :: rest =>
      match row line st with
      | inl st' => rows rest st'
      | inr e => inr e
      end
  end.

(** [read_flight_csv(csv_filename)], on the lines of the file: the
    track is handed to [recover_flight] with no takeoff and no landing
    time. *)
Definition read_flight_csv (lines : list string) : flight date + exn :=
  match rows lines ([], "") with
  | inr e => inr e
  | inl (samples, number) =>
      recover_flight date date_of airports lat_lon_dist samples None None number
  end.

End Reader.

(** A line that is read as a sample: one whose first character is a
    decimal digit. *)
Definition data_row (line : string) : bool :=
  match line with
  | EmptyString => true
  | String c _ => isdecimal c
  end.

(** [line[2].strip()] of a data row *)
Definition number_of (line : string) : string :=
  ProcessedLog.strip (nth 2 (ProcessedLog.split_comma (remove_quotes line)) "").

(** An instance for witnesses: timestamps, positions and altitudes are
    decimal integers. *)
Definition example_read : list string -> flight Z + exn :=
  read_flight_csv ProcessedLog.int_of_str SafecastLog.example_float Z
                  (fun t => t) example_airports example_dist.

Definition example_lines : list string :=
  ["Timestamp,UTC,Callsign,Position,Altitude,Speed,Direction";
   "1700000000,1700000000,BAW117,51,-1,1000,150,270";
   "1700000030,1700000030, BAW117 ,45,-40,36000,480,270";
   "# end of climb";
   "1700000060,1700000060,BAW117,41,-73,500,160,200"].

Definition example_flight : flight Z :=
  mkFlight "BAW117" "London" "New York" "EGLL" "KJFK" 1700000000
           1700000000 1700000060
           [1700000000; 1700000030; 1700000060]
           [Some 51%Q; Some 45%Q; Some 41%Q]
           [Some (-1)%Q; Some (-40)%Q; Some (-73)%Q]
           [Some (3048000 # 10000)%Q; Some (109728000 # 10000)%Q;
            Some (1524000 # 10000)%Q].

End FlightCsv.

(** ** Predicates of the specification *)

(** Equal outcomes of a float computation: both nan, or equal numbers. *)
Definition same_value (a b : option Q) : Prop :=
  match a, b with
  | Some x, Some y => (x == y)%Q
  | None, None => True
  | _, _ => False
  end.

(** The sum, the R2 of a window of a scan. *)
Definition score {V : Type} (w : nat * nat * V) : V := snd w.
Definition start_of {V : Type} (w : nat * nat * V) : nat := fst (fst w).
Definition end_of {V : Type} (w : nat * nat * V) : nat := snd (fst w).

(** [T[i+1] > T[i]] for every index [i] *)
Definition strictly_increasing (T : list Z) : Prop :=
  forall i a b, nth_error T i = Some a -> nth_error T (S i) = Some b -> a < b.

(** A float that is a whole number. *)
Definition integral (q : Q) : Prop := exists z : Z, (q == inject_Z z)%Q.

(** A result whose rebuilt array is moved by [d0] seconds. *)
Definition shift_result (d0 : Z) (r : FixTimes.result) : FixTimes.result :=
  match r with
  | FixTimes.NewArray t => FixTimes.NewArray (map (Z.add d0) t)
  | other => other
  end.

(** The best window of [align_time] so far lies within the data. *)
Definition align_contained (R : Type) (size : nat) (st : AlignTime.state R) : Prop :=
  (AlignTime.takeoff_idx st <= AlignTime.landing_idx st < size)%nat.

(** What the loop of [estimate_takeoff] keeps true between passes: the
    best window lies within the data, the window start is at most one
    past the window stop, and a window stop beyond the data comes with a
    stale [dt <= 0]. *)
Definition estimate_inv (size : nat) (st : EstimateTakeoff.state) : Prop :=
  (EstimateTakeoff.takeoff_idx st <= EstimateTakeoff.landing_idx st < size)%nat
  /\ (EstimateTakeoff.window_start st <= EstimateTakeoff.window_stop st + 1)%nat
  /\ ((EstimateTakeoff.window_stop st <= size - 1)%nat
      \/ exists d, EstimateTakeoff.dt st = Some d /\ d <= 0).

(** The update [if this_sum >= max_sum] of [estimate_takeoff] on the
    triple [(max_sum, takeoff_idx, landing_idx)]. *)
Definition estimate_update (best : Z * nat * nat) (w : nat * nat * Z)
  : Z * nat * nat :=
  if fst (fst best) <=? score w then (score w, start_of w, end_of w) else best.

Definition estimate_best (st : EstimateTakeoff.state) : Z * nat * nat :=
  (EstimateTakeoff.max_sum st, EstimateTakeoff.takeoff_idx st,
   EstimateTakeoff.landing_idx st).

(** The update [if R2 > max_R2] of [align_time] on the triple
    [(max_R2, takeoff_idx, landing_idx)]: the start stored is the one
    already incremented. *)
Definition align_update (best : Q * nat * nat) (w : nat * nat * Q)
  : Q * nat * nat :=
  if Qltb (fst (fst best)) (score w)
  then (score w, (start_of w + 1)%nat, end_of w) else best.

Definition align_best (st : AlignTime.state Q) : Q * nat * nat :=
  (AlignTime.max_R2 st, AlignTime.takeoff_idx st, AlignTime.landing_idx st).

(** An array that never decreases. *)
Definition nondecreasing (a : list Z) : Prop :=
  forall i j x y, (i <= j)%nat ->
    nth_error a i = Some x -> nth_error a j = Some y -> x <= y.

(** What holds at the head of the loop of [estimate_takeoff] while the
    window stop is short of the last index. *)
Definition scanning (time : list Z) (flight_duration : Z) (size : nat)
  (st : EstimateTakeoff.state) : Prop :=
  (EstimateTakeoff.window_stop st + 1 < size)%nat
  /\ (EstimateTakeoff.window_start st <= EstimateTakeoff.window_stop st + 1)%nat
  /\ (EstimateTakeoff.window_start st = (EstimateTakeoff.window_stop st + 1)%nat ->
      flight_duration <= nth (EstimateTakeoff.window_stop st + 1) time 0
                         - nth (EstimateTakeoff.window_stop st) time 0).

(** The window stop has stepped over the last index, with a stale
    [dt <= 0]. *)
Definition overshot (size : nat) (st : EstimateTakeoff.state) : Prop :=
  (size - 1 < EstimateTakeoff.window_stop st)%nat
  /\ EstimateTakeoff.window_stop st = (EstimateTakeoff.window_start st + 1)%nat
  /\ exists d, EstimateTakeoff.dt st = Some d /\ d <= 0.

(** Consecutive entries at most half a turn apart. *)
Definition half_turn_steps (u : list Q) : Prop :=
  forall i a b, nth_error u i = Some a -> nth_error u (S i) = Some b ->
                (-180 <= b - a <= 180)%Q.

(** The range [ravel_lon] maps into: [-180, 180). *)
Definition canonical (x : Q) : Prop := (-180 <= x < 180)%Q.

(** * Properties *)

Import FixTimes.

(** ** Timestamp repair *)

Lemma diffs_offsets (data_time : list Z) :
  diffs (offsets data_time) = diffs data_time.
Proof.
  destruct data_time as [|d0 r]; [reflexivity|].
  unfold offsets. generalize d0 at 1 as c. revert d0.
  induction r as [|y r IH]; intros d0 c; [reflexivity|].
  specialize (IH y c). cbn [map diffs] in *. rewrite IH. f_equal. lia.
Qed.

Lemma np_all_valid_mask (max_dt : Z) (dt : list Z) :
  np_all (valid_mask max_dt dt) = true <-> (forall d, In d dt -> 0 < d <= max_dt).
Proof.
  unfold np_all, valid_mask. rewrite forallb_forall. split.
  - intros H d Hd. specialize (H _ (in_map _ _ _ Hd)). cbn in H.
    apply andb_true_iff in H. lia.
  - intros H b Hb. apply in_map_iff in Hb. destruct Hb as [d [<- Hd]].
    specialize (H d Hd). apply andb_true_iff. lia.
Qed.

Lemma np_any_valid_mask (max_dt : Z) (dt : list Z) :
  np_any (valid_mask max_dt dt) = true <-> (exists d, In d dt /\ 0 < d <= max_dt).
Proof.
  unfold np_any, valid_mask. rewrite existsb_exists. split.
  - intros [b [Hb Ht]]. apply in_map_iff in Hb. destruct Hb as [d [<- Hd]].
    exists d. split; [exact Hd|]. apply andb_true_iff in Ht. lia.
  - intros [d [Hd Hv]]. exists ((0 <? d) && (d <=? max_dt)). split.
    + apply in_map_iff. exists d. split; [reflexivity | exact Hd].
    + apply andb_true_iff. lia.
Qed.

Lemma strictly_increasing_diffs (T : list Z) :
  (forall d, In d (diffs T) -> 0 < d) -> strictly_increasing T.
Proof.
  induction T as [|x T IH]; intros H i a b Ha Hb.
  - destruct i; discriminate.
  - destruct T as [|y T]; [destruct i; discriminate|].
    destruct i as [|i].
    + cbn in Ha, Hb. injection Ha as Ha. injection Hb as Hb. subst a b.
      assert (0 < y - x) by (apply H; left; reflexivity). lia.
    + apply (IH (fun d Hd => H d (or_intror Hd)) i a b); assumption.
Qed.

(** The fast path is taken exactly on the fully valid sequences. *)
Lemma fix_times_same_object_iff (data_time : list Z) (delta : Q) (max_dt : Z) :
  fix_times data_time delta max_dt = SameObject
  <-> (forall d, In d (diffs data_time) -> 0 < d <= max_dt).
Proof.
  unfold fix_times. rewrite diffs_offsets. split.
  - destruct (np_all _) eqn:E; [intros _; apply np_all_valid_mask, E|].
    destruct (_ && _); [discriminate|].
    destruct (loop _ _ _ _ _) as [[? ?]|?]; discriminate.
  - intros H. apply np_all_valid_mask in H. rewrite H. reflexivity.
Qed.

(** C9.  A sequence whose consecutive deltas all satisfy
    [0 < dt <= max_dt] comes back as the very object that was passed
    (the fast path [return data_time]), whatever [delta] is. *)
Theorem fix_times_identity_fast_path (data_time : list Z) (delta : Q) (max_dt : Z) :
  (forall d, In d (diffs data_time) -> 0 < d <= max_dt) ->
  fix_times data_time delta max_dt = SameObject
  /\ returned data_time (fix_times data_time delta max_dt) = Some data_time.
Proof.
  intros H.
  pose proof (proj2 (fix_times_same_object_iff data_time delta max_dt) H) as E.
  rewrite E. split; reflexivity.
Qed.

Lemma fix_times_identity_fast_path_witness :
  fix_times [1000; 1060; 1120; 1185] default_delta default_max_dt = SameObject
  /\ returned [1000; 1060; 1120; 1185]
       (fix_times [1000; 1060; 1120; 1185] default_delta default_max_dt)
     = Some [1000; 1060; 1120; 1185].
Proof.
  apply (fix_times_identity_fast_path [1000; 1060; 1120; 1185]).
  intros d Hd. simpl in Hd. unfold default_max_dt. intuition lia.
Defined.

(** A result of the fast path is strictly increasing. *)
Lemma fix_times_fast_path_increasing (data_time : list Z) (delta : Q) (max_dt : Z) :
  fix_times data_time delta max_dt = SameObject -> strictly_increasing data_time.
Proof.
  intros H. pose proof (proj1 (fix_times_same_object_iff _ _ _) H) as V.
  apply strictly_increasing_diffs. intros d Hd. apply V in Hd. lia.
Qed.

Lemma offsets_shift (d0 : Z) (data_time : list Z) :
  offsets (map (Z.add d0) data_time) = offsets data_time.
Proof.
  destruct data_time as [|x r]; [reflexivity|].
  unfold offsets. cbn [map]. f_equal; [lia|].
  rewrite map_map. apply map_ext. intros a. lia.
Qed.

Lemma fix_times_shift (d0 : Z) (data_time : list Z) (delta : Q) (max_dt : Z) :
  fix_times (map (Z.add d0) data_time) delta max_dt
  = shift_result d0 (fix_times data_time delta max_dt).
Proof.
  destruct data_time as [|x r]; [reflexivity|].
  unfold fix_times. rewrite offsets_shift.
  destruct (np_all _); [reflexivity|].
  destruct (_ && _); [reflexivity|].
  destruct (loop _ _ _ _ _) as [[dt errors]|e]; [|reflexivity].
  cbn [shift_result]. f_equal. rewrite map_map.
  apply map_ext. intros a. cbn [map nth]. lia.
Qed.

(** C2 (amended).  On the offsets [0, 60, 60, 180, 240], from any start
    [d0], with the default [delta] (so the implied delta is the median 60)
    and [max_dt = 1800], [fix_times] returns the offsets
    [0, 60, 120, 240, 300]: the duplicate becomes a step of 60 and the
    following gap of 120 s, a valid delta, is kept as it is. *)
Theorem fix_times_duplicate_scenario (d0 : Z) :
  fix_times (map (Z.add d0) [0; 60; 60; 180; 240]) default_delta default_max_dt
  = NewArray (map (Z.add d0) [0; 60; 120; 240; 300]).
Proof.
  rewrite fix_times_shift.
  replace (fix_times [0; 60; 60; 180; 240] default_delta default_max_dt)
    with (NewArray [0; 60; 120; 240; 300]) by (vm_compute; reflexivity).
  reflexivity.
Qed.

(** C2 as stated fails: the result is not [0, 60, 120, 180, 240]. *)
Lemma fix_times_duplicate_not_folded :
  fix_times [0; 60; 60; 180; 240] default_delta default_max_dt
  <> NewArray [0; 60; 120; 180; 240].
Proof. vm_compute. intros H. discriminate H. Qed.

(** C1 (the code departs from it).  With valid deltas 1 and 2 the implied
    delta is the median 1.5; the gap of 1803 s is recorded as the error
    1801.5, which then repairs the step of -1801 s to 0.5 s, a value
    [valid] accepts and the [int64] array stores as 0: the array returned
    repeats a timestamp. *)
Theorem fix_times_returns_repeated_timestamp :
  returned [0; 1; 3; 1806; 5]
           (fix_times [0; 1; 3; 1806; 5] default_delta default_max_dt)
  = Some [0; 1; 3; 4; 4]
  /\ ~ strictly_increasing [0; 1; 3; 4; 4].
Proof.
  split; [vm_compute; reflexivity|].
  intros H. specialize (H 3%nat 4 4 eq_refl eq_refl). lia.
Qed.

(** The loop raises nothing but the IndexError of [errors[-1]]. *)
Lemma loop_raises_index_error (delta : Q) (max_dt : Z) (valid_dt : list bool)
  (indices : list nat) (st : list Z * list Q) (e : exn) :
  loop delta max_dt valid_dt indices st = inr e -> e = IndexError.
Proof.
  revert st. induction indices as [|i rest IH]; intros st; cbn [loop];
    [discriminate|].
  destruct (body delta max_dt valid_dt i st) as [st'|e'] eqn:B; [apply IH|].
  intros H. injection H as ->. revert B. unfold body.
  destruct st as [dt errors].
  repeat match goal with
         | |- context [if ?c then _ else _] => destruct c
         | |- context [match ?c with _ => _ end] => destruct c
         end; congruence.
Qed.

(** X1.  [fix_times] raises its exception "Completely unrecoverable time
    axis" exactly when no positive [delta] is given, some consecutive
    delta of the sequence is invalid and none is valid; the repair loop
    never raises it. *)
Lemma fix_times_unrecoverable_iff (data_time : list Z) (delta : Q) (max_dt : Z) :
  fix_times data_time delta max_dt = Raise Unrecoverable
  <-> (delta <= 0)%Q
      /\ ~ (forall d, In d (diffs data_time) -> 0 < d <= max_dt)
      /\ ~ (exists d, In d (diffs data_time) /\ 0 < d <= max_dt).
Proof.
  unfold fix_times. rewrite diffs_offsets.
  rewrite <- np_all_valid_mask, <- np_any_valid_mask, <- Qle_bool_iff.
  destruct (np_all _); [split; [discriminate | intros (_ & H & _); tauto]|].
  assert (L : forall r, match loop (used_delta delta (valid_mask max_dt (diffs data_time))
                                               (diffs data_time))
                                   max_dt (valid_mask max_dt (diffs data_time))
                                   (seq 0 (length (diffs data_time)))
                                   (diffs data_time, [])
                        with
                        | inl (dt, _) => NewArray (r dt)
                        | inr e => Raise e
                        end <> Raise Unrecoverable).
  { intros r. destruct (loop _ _ _ _ _) as [[? ?]|e] eqn:E; [discriminate|].
    apply loop_raises_index_error in E. subst e. discriminate. }
  destruct (Qle_bool delta 0), (np_any _); cbn [andb negb].
  - split; [intros H; exfalso; exact (L _ H) | intros (_ & _ & H); tauto].
  - split; [intros _; repeat split; congruence | reflexivity].
  - split; [intros H; exfalso; exact (L _ H) | intros (H & _); discriminate].
  - split; [intros H; exfalso; exact (L _ H) | intros (H & _); discriminate].
Qed.

(** C5 (the code departs from it).  Here the delta of 60 s is valid, so
    the implied delta is its median 60; the first duplicate leaves the
    error -60, which repairs the gap of 1860 s and is deleted; the second
    duplicate then follows an invalid delta and subtracts from
    [errors[-1]] of an empty list. *)
Theorem fix_times_raises_with_valid_delta :
  (exists d, In d (diffs [0; 0; 1860; 1860; 1920]) /\ 0 < d <= default_max_dt)
  /\ fix_times [0; 0; 1860; 1860; 1920] default_delta default_max_dt
     = Raise IndexError.
Proof.
  split; [exists 60; cbn; unfold default_max_dt; intuition lia|].
  vm_compute. reflexivity.
Qed.

(** *** Repair with a whole delta

    When the delta in use is a whole number of seconds (a whole [delta]
    given, or a median that is whole), every error is whole, nothing is
    lost when a repaired delta is stored, and the array rebuilt is
    strictly increasing. *)

Lemma Qtrunc_inject (q : Q) (z : Z) : (q == inject_Z z)%Q -> Qtrunc q = z.
Proof.
  unfold Qeq, Qtrunc. cbn [Qnum Qden inject_Z]. intros H.
  rewrite Z.mul_1_r in H. rewrite H. apply Z.quot_mul. discriminate.
Qed.

Lemma integral_plus (a b : Q) : integral a -> integral b -> integral (a + b).
Proof.
  intros [x Hx] [y Hy]. exists (x + y). rewrite inject_Z_plus, Hx, Hy. reflexivity.
Qed.

Lemma integral_minus (a b : Q) : integral a -> integral b -> integral (a - b).
Proof.
  intros [x Hx] [y Hy]. exists (x - y). unfold Z.sub.
  rewrite inject_Z_plus, inject_Z_opp, Hx, Hy. reflexivity.
Qed.

Lemma integral_opp (a : Q) : integral a -> integral (- a).
Proof. intros [x Hx]. exists (- x). rewrite inject_Z_opp, Hx. reflexivity. Qed.

Lemma integral_inject (z : Z) : integral (inject_Z z).
Proof. exists z. reflexivity. Qed.

Lemma integral_Qsum (l : list Q) : Forall integral l -> integral (Qsum l).
Proof.
  intros H. assert (G : forall a, integral a -> integral (fold_left Qplus l a)).
  { induction H as [|x l Hx _ IH]; intros a Ha; cbn [fold_left]; [exact Ha|].
    apply IH, integral_plus; assumption. }
  destruct (G 0%Q (integral_inject 0)) as [z Hz]. exists z.
  unfold Qsum. rewrite Qred_correct. exact Hz.
Qed.

Lemma select_Forall {A : Type} (P : A -> Prop) (mask : list bool) (l : list A) :
  Forall P l -> Forall P (select mask l).
Proof.
  intros H. revert mask. induction H as [|x l Hx _ IH]; intros [|b m]; cbn [select];
    try constructor.
  destruct b; [constructor; [exact Hx | apply IH] | apply IH].
Qed.

Lemma sub_last_integral (errors errors' : list Q) (delta : Q) :
  Forall integral errors -> integral delta ->
  sub_last errors delta = Some errors' -> Forall integral errors'.
Proof.
  intros He Hd. unfold sub_last.
  destruct (rev errors) as [|e r] eqn:R; [discriminate|].
  intros H. injection H as <-.
  assert (Hr : Forall integral (e :: r)) by (rewrite <- R; apply Forall_rev, He).
  apply Forall_cons_iff in Hr. destruct Hr as [H1 H2].
  change (Forall integral (rev r ++ [(e - delta)%Q])).
  apply Forall_app. split; [apply Forall_rev, H2|].
  constructor; [apply integral_minus; assumption | constructor].
Qed.

Lemma set_nth_length {A : Type} (l : list A) (i : nat) (v : A) :
  length (set_nth l i v) = length l.
Proof.
  revert i. induction l as [|x l IH]; intros [|i]; cbn [set_nth length];
    try reflexivity. rewrite IH. reflexivity.
Qed.

Lemma nth_set_nth (l : list Z) (i j : nat) (v : Z) :
  (i < length l)%nat ->
  nth j (set_nth l i v) 0 = if Nat.eqb j i then v else nth j l 0.
Proof.
  revert i j. induction l as [|x l IH]; intros i j Hi; [cbn in Hi; lia|].
  destruct i as [|i], j as [|j]; cbn [set_nth nth Nat.eqb]; try reflexivity.
  apply IH. cbn in Hi. lia.
Qed.

Lemma diffs_cumsum (acc : Z) (l : list Z) : diffs (acc :: cumsum_from acc l) = l.
Proof.
  revert acc. induction l as [|x l IH]; intros acc; [reflexivity|].
  cbn [cumsum_from]. specialize (IH (acc + x)). cbn [diffs] in *.
  rewrite IH. f_equal. lia.
Qed.

Lemma diffs_shift (d0 : Z) (l : list Z) :
  diffs (map (fun t => d0 + t) l) = diffs l.
Proof.
  induction l as [|x l IH]; [reflexivity|].
  destruct l as [|y l]; [reflexivity|]. cbn [map diffs] in *.
  rewrite IH. f_equal. lia.
Qed.

(* ---------- frame ---------- *)

Lemma nth_set_nth_other (l : list Z) (i j : nat) (v : Z) :
  j <> i -> nth j (set_nth l i v) 0 = nth j l 0.
Proof.
  revert i j. induction l as [|x l IH]; intros i j Hj; [destruct i; reflexivity|].
  destruct i as [|i], j as [|j]; cbn [set_nth nth]; try reflexivity;
    [congruence | apply IH; congruence].
Qed.

(** One pass of the loop changes no entry but its own, and leaves its own
    alone when the delta there is valid. *)
Lemma body_frame (delta : Q) (max_dt : Z) (valid_dt : list bool) (i : nat)
  (dt : list Z) (errors : list Q) (dt' : list Z) (errors' : list Q) :
  body delta max_dt valid_dt i (dt, errors) = inl (dt', errors') ->
  length dt' = length dt
  /\ (forall j, j <> i -> nth j dt' 0 = nth j dt 0)
  /\ (nth i valid_dt true = true -> nth i dt 0 <> 0 ->
      nth i dt' 0 = nth i dt 0).
Proof.
  unfold body.
  assert (S : forall v, length (set_nth dt i v) = length dt
                        /\ (forall j, j <> i -> nth j (set_nth dt i v) 0 = nth j dt 0))
    by (intros v; split; [apply set_nth_length | intros j; apply nth_set_nth_other]).
  destruct (nth i dt 0 =? 0) eqn:Z0.
  - apply Z.eqb_eq in Z0.
    destruct (Nat.ltb 1 i && negb (nth (i - 1) valid_dt true)).
    + destruct (sub_last errors delta); [|discriminate].
      intros H. injection H as <- <-. destruct (S (Qtrunc delta)). tauto.
    + intros H. injection H as <- <-. destruct (S (Qtrunc delta)). tauto.
  - destruct (negb (nth i valid_dt true)) eqn:V.
    + apply negb_true_iff in V.
      match goal with
      | |- match ?f with _ => _ end = _ -> _ => destruct f as [[d errs]|]
      end; intros H; injection H as <- <-;
        [destruct (S d) | destruct (S (Qtrunc delta))];
        (repeat split; [assumption | assumption | congruence]).
    + intros H. injection H as <- <-. tauto.
Qed.

Lemma loop_frame (delta : Q) (max_dt : Z) (valid_dt : list bool)
  (n i0 : nat) (dt : list Z) (errors : list Q) (dt' : list Z) (errors' : list Q) :
  loop delta max_dt valid_dt (seq i0 n) (dt, errors) = inl (dt', errors') ->
  length dt' = length dt
  /\ (forall j, (j < i0)%nat -> nth j dt' 0 = nth j dt 0)
  /\ (forall j, nth j valid_dt true = true -> nth j dt 0 <> 0 ->
                nth j dt' 0 = nth j dt 0).
Proof.
  revert i0 dt errors. induction n as [|n IH]; intros i0 dt errors; cbn [seq loop].
  - intros H. injection H as <- <-. auto.
  - destruct (body delta max_dt valid_dt i0 (dt, errors)) as [[dt1 errs1]|e] eqn:B;
      [|discriminate].
    apply body_frame in B. destruct B as (L1 & O1 & K1).
    intros H. apply IH in H. destruct H as (L2 & O2 & K2).
    split; [congruence|]. split.
    + intros j Hj. rewrite O2 by lia. apply O1. lia.
    + intros j Hv Hz. destruct (Nat.eq_dec j i0) as [->|Hne].
      * rewrite O2 by lia. apply K1; assumption.
      * rewrite K2; [apply O1, Hne | exact Hv | rewrite O1; assumption].
Qed.

Lemma diffs_length (l : list Z) : length (diffs l) = (length l - 1)%nat.
Proof.
  induction l as [|x l IH]; [reflexivity|].
  destruct l as [|y l]; [reflexivity|].
  change (diffs (x :: y :: l)) with ((y - x) :: diffs (y :: l)).
  cbn [length] in *. lia.
Qed.

Lemma cumsum_from_length (acc : Z) (l : list Z) :
  length (cumsum_from acc l) = length l.
Proof.
  revert acc. induction l as [|x l IH]; intros acc; cbn [cumsum_from length];
    [reflexivity | rewrite IH; reflexivity].
Qed.

Lemma valid_mask_nth_true (max_dt : Z) (dt : list Z) (i : nat) :
  0 < nth i dt 0 <= max_dt -> nth i (valid_mask max_dt dt) true = true.
Proof.
  revert i. induction dt as [|x dt IH]; intros i; [destruct i; cbn; lia|].
  destruct i as [|i]; cbn [valid_mask map nth].
  - intros H. apply andb_true_iff. lia.
  - apply IH.
Qed.

(** The shape of every array [fix_times] rebuilds. *)
Lemma fix_times_rebuilt (data_time : list Z) (delta : Q) (max_dt : Z) (T : list Z) :
  fix_times data_time delta max_dt = NewArray T ->
  exists dt' errors',
    loop (used_delta delta (valid_mask max_dt (diffs data_time)) (diffs data_time))
         max_dt (valid_mask max_dt (diffs data_time))
         (seq 0 (length (diffs data_time))) (diffs data_time, [])
    = inl (dt', errors')
    /\ T = map (fun t => nth 0 data_time 0 + t) (0 :: cumsum_from 0 dt')
    /\ diffs T = dt'.
Proof.
  unfold fix_times. rewrite diffs_offsets.
  destruct (np_all _); [discriminate|].
  destruct (_ && _); [discriminate|].
  destruct (loop _ _ _ _ _) as [[dt' errors']|e] eqn:L; [|discriminate].
  intros H. injection H as <-. exists dt', errors'.
  split; [reflexivity|]. split; [reflexivity|].
  change (diffs (map (fun t => nth 0 data_time 0 + t) (0 :: cumsum_from 0 dt')) = dt').
  rewrite diffs_shift. apply diffs_cumsum.
Qed.

(** X2.  A repaired sequence has the length and the first timestamp of
    the one passed, and every delta that was valid
    ([0 < dt <= max_dt]) is the delta at the same place of the result:
    only invalid deltas are rewritten. *)
Theorem fix_times_keeps_valid_deltas (data_time : list Z) (delta : Q) (max_dt : Z)
  (T : list Z) :
  fix_times data_time delta max_dt = NewArray T ->
  length T = length data_time
  /\ nth_error T 0 = nth_error data_time 0
  /\ (forall i, 0 < nth i (diffs data_time) 0 <= max_dt ->
                nth i (diffs T) 0 = nth i (diffs data_time) 0).
Proof.
  intros H.
  assert (Hne : data_time <> []).
  { intros ->. vm_compute in H. discriminate. }
  apply fix_times_rebuilt in H. destruct H as (dt' & errors' & L & -> & D).
  apply loop_frame in L. destruct L as (Len & _ & K).
  split; [|split].
  - rewrite length_map. cbn [length]. rewrite cumsum_from_length, Len, diffs_length.
    destruct data_time; [congruence | cbn [length]; lia].
  - destruct data_time as [|d0 r]; [congruence|]. cbn. f_equal. lia.
  - intros i Hi. rewrite D. apply K; [apply valid_mask_nth_true, Hi | lia].
Qed.

Lemma fix_times_keeps_valid_deltas_witness :
  length [0; 60; 120; 240; 300] = length [0; 60; 60; 180; 240]
  /\ nth_error [0; 60; 120; 240; 300] 0 = nth_error [0; 60; 60; 180; 240] 0
  /\ (forall i, 0 < nth i (diffs [0; 60; 60; 180; 240]) 0 <= default_max_dt ->
                nth i (diffs [0; 60; 120; 240; 300]) 0
                = nth i (diffs [0; 60; 60; 180; 240]) 0).
Proof.
  apply (fix_times_keeps_valid_deltas [0; 60; 60; 180; 240] default_delta
           default_max_dt [0; 60; 120; 240; 300]).
  vm_compute. reflexivity.
Defined.

(* ---------- no duplicates: no IndexError ---------- *)

Lemma body_without_duplicate (delta : Q) (max_dt : Z) (valid_dt : list bool)
  (i : nat) (st : list Z * list Q) :
  nth i (fst st) 0 <> 0 -> exists st', body delta max_dt valid_dt i st = inl st'.
Proof.
  destruct st as [dt errors]. cbn [fst]. intros H. unfold body.
  apply Z.eqb_neq in H. rewrite H.
  destruct (negb _); [|eexists; reflexivity].
  match goal with
  | |- exists _, match ?f with _ => _ end = _ => destruct f as [[d errs]|]
  end; eexists; reflexivity.
Qed.

Lemma loop_without_duplicate (delta : Q) (max_dt : Z) (valid_dt : list bool)
  (n i0 : nat) (dt : list Z) (errors : list Q) :
  (forall j, (i0 <= j < i0 + n)%nat -> nth j dt 0 <> 0) ->
  exists st', loop delta max_dt valid_dt (seq i0 n) (dt, errors) = inl st'.
Proof.
  revert i0 dt errors. induction n as [|n IH]; intros i0 dt errors H; cbn [seq loop].
  - eexists; reflexivity.
  - destruct (body_without_duplicate delta max_dt valid_dt i0 (dt, errors))
      as [[dt1 errs1] B]; [apply H; lia|].
    rewrite B. apply IH. intros j Hj.
    apply body_frame in B. destruct B as (_ & O & _).
    rewrite O by lia. apply H. lia.
Qed.

(** X3.  On a sequence without repeated consecutive timestamps
    [fix_times] returns, raising nothing, as soon as a positive [delta]
    is given or one delta of the sequence is valid: the IndexError of
    the repair comes from the branch of duplicates only. *)
Theorem fix_times_without_duplicates (data_time : list Z) (delta : Q) (max_dt : Z) :
  (forall d, In d (diffs data_time) -> d <> 0) ->
  (0 < delta)%Q \/ (exists d, In d (diffs data_time) /\ 0 < d <= max_dt) ->
  exists T, returned data_time (fix_times data_time delta max_dt) = Some T.
Proof.
  intros Hnz Hd. unfold fix_times. rewrite diffs_offsets.
  destruct (np_all _); [eexists; reflexivity|].
  replace (Qle_bool delta 0 && negb (np_any (valid_mask max_dt (diffs data_time))))
    with false.
  - destruct (loop_without_duplicate
                (used_delta delta (valid_mask max_dt (diffs data_time)) (diffs data_time))
                max_dt (valid_mask max_dt (diffs data_time))
                (length (diffs data_time)) 0 (diffs data_time) [])
      as [[dt' errors'] L].
    + intros j Hj. apply Hnz, nth_In. lia.
    + rewrite L. eexists; reflexivity.
  - symmetry. apply andb_false_iff. destruct Hd as [Hd|Hd].
    + left. destruct (Qle_bool delta 0) eqn:E; [|reflexivity].
      apply Qle_bool_iff in E. exfalso. apply (Qlt_not_le _ _ Hd E).
    + right. apply np_any_valid_mask in Hd. rewrite Hd. reflexivity.
Qed.

Lemma fix_times_without_duplicates_witness :
  exists T, returned [0; 60; 4000; 4060]
              (fix_times [0; 60; 4000; 4060] default_delta default_max_dt) = Some T.
Proof.
  apply (fix_times_without_duplicates [0; 60; 4000; 4060]).
  - intros d H. cbn in H. intuition lia.
  - right. exists 60. split; [cbn; tauto | unfold default_max_dt; lia].
Defined.

(* ---------- whole delta ---------- *)

Lemma valid_range (max_dt : Z) (q : Q) :
  valid max_dt q = true -> (0 < q <= inject_Z max_dt)%Q.
Proof.
  unfold valid, Qltb. destruct (Qle_bool q 0) eqn:E; [discriminate|].
  destruct (Qle_bool q (inject_Z max_dt)) eqn:F; [|discriminate]. intros _.
  split; [|apply Qle_bool_iff, F].
  apply Qnot_le_lt. intros L. apply Qle_bool_iff in L. congruence.
Qed.

Lemma search_valid (n : nat) (max_dt : Z) (arr : list bool) (errors : list Q)
  (dt_i d : Z) (errors' : list Q) :
  Forall integral errors ->
  search n max_dt arr errors dt_i = Some (d, errors') ->
  0 < d <= max_dt /\ Forall integral errors'.
Proof.
  intros He. revert arr. induction n as [|n IH]; intros arr; cbn [search];
    [discriminate|].
  destruct (Nat.leb _ _ && valid _ _) eqn:E; [|apply IH].
  apply andb_true_iff in E. destruct E as [_ V]. apply valid_range in V.
  intros H. injection H as <- <-.
  split; [|apply select_Forall, He].
  destruct (integral_plus _ _ (integral_inject dt_i)
              (integral_Qsum _ (select_Forall integral arr errors He))) as [z Hz].
  rewrite (Qtrunc_inject _ _ Hz). rewrite Hz in V.
  rewrite !Zlt_Qlt, Zle_Qle. exact V.
Qed.

Lemma body_repaired (delta : Q) (k max_dt : Z) (valid_dt : list bool) (i : nat)
  (dt : list Z) (errors : list Q) (dt' : list Z) (errors' : list Q) :
  (delta == inject_Z k)%Q -> 1 <= k ->
  (i < length dt)%nat ->
  (nth i valid_dt true = true -> 0 < nth i dt 0 <= max_dt) ->
  Forall integral errors ->
  body delta max_dt valid_dt i (dt, errors) = inl (dt', errors') ->
  0 < nth i dt' 0
  /\ (k <= max_dt -> nth i dt' 0 <= max_dt)
  /\ Forall integral errors'.
Proof.
  intros Hd Hk Hi Hv He. unfold body.
  assert (Hdi : integral delta) by (exists k; exact Hd).
  assert (Hset : forall v errs, 0 < v -> (k <= max_dt -> v <= max_dt) ->
            Forall integral errs ->
            0 < nth i (set_nth dt i v) 0
            /\ (k <= max_dt -> nth i (set_nth dt i v) 0 <= max_dt)
            /\ Forall integral errs).
  { intros v errs Hp Hm Hf.
    rewrite (nth_set_nth _ _ _ _ Hi), Nat.eqb_refl. auto. }
  assert (Hq : Qtrunc delta = k) by apply (Qtrunc_inject _ _ Hd).
  destruct (nth i dt 0 =? 0) eqn:Z0.
  - destruct (Nat.ltb 1 i && negb (nth (i - 1) valid_dt true)).
    + destruct (sub_last errors delta) as [errs|] eqn:S; [|discriminate].
      intros H. injection H as <- <-. apply Hset; [lia | lia |].
      apply (sub_last_integral _ _ _ He Hdi S).
    + intros H. injection H as <- <-. apply Hset; [lia | lia |].
      apply Forall_app. split; [exact He|].
      constructor; [apply integral_opp, Hdi | constructor].
  - destruct (negb (nth i valid_dt true)) eqn:V.
    + match goal with
      | |- match ?f with _ => _ end = _ -> _ => destruct f as [[d errs]|] eqn:F
      end.
      * intros H. injection H as <- <-.
        assert (F' : exists n arr, search n max_dt arr errors (nth i dt 0)
                                   = Some (d, errs)).
        { destruct errors; [discriminate|]. eexists. eexists. exact F. }
        destruct F' as (n & arr & F').
        destruct (search_valid _ _ _ _ _ _ _ He F') as [Hp Hf].
        apply Hset; [lia | lia | exact Hf].
      * intros H. injection H as <- <-. apply Hset; [lia | lia |].
        apply Forall_app. split; [exact He|].
        constructor; [|constructor].
        apply integral_minus; [apply integral_inject | exact Hdi].
    + intros H. injection H as <- <-. apply negb_false_iff in V.
      specialize (Hv V). split; [lia|]. split; [lia | exact He].
Qed.

Lemma loop_repaired (delta : Q) (k max_dt : Z) (valid_dt : list bool)
  (n i0 : nat) (dt : list Z) (errors : list Q) (dt' : list Z) (errors' : list Q) :
  (delta == inject_Z k)%Q -> 1 <= k ->
  length dt = (i0 + n)%nat ->
  (forall j, (i0 <= j < length dt)%nat ->
             nth j valid_dt true = true -> 0 < nth j dt 0 <= max_dt) ->
  Forall integral errors ->
  loop delta max_dt valid_dt (seq i0 n) (dt, errors) = inl (dt', errors') ->
  forall j, (i0 <= j < i0 + n)%nat ->
            0 < nth j dt' 0 /\ (k <= max_dt -> nth j dt' 0 <= max_dt).
Proof.
  intros Hd Hk. revert i0 dt errors.
  induction n as [|n IH]; intros i0 dt errors Hlen Hv He; cbn [seq loop].
  - intros _ j Hj. lia.
  - destruct (body delta max_dt valid_dt i0 (dt, errors)) as [[dt1 errs1]|e] eqn:B;
      [|discriminate].
    destruct (body_repaired delta k max_dt valid_dt i0 dt errors dt1 errs1
                Hd Hk ltac:(lia) (Hv i0 ltac:(lia)) He B) as (P1 & M1 & E1).
    destruct (body_frame _ _ _ _ _ _ _ _ B) as (L1 & O1 & _).
    intros H j Hj. destruct (Nat.eq_dec j i0) as [->|Hne].
    + destruct (loop_frame _ _ _ _ _ _ _ _ _ H) as (_ & O2 & _).
      rewrite O2 by lia. auto.
    + apply (IH (S i0) dt1 errs1); [lia | | exact E1 | exact H | lia].
      intros j' Hj' Hvj. rewrite (O1 j') by lia. apply Hv; [lia | exact Hvj].
Qed.

Lemma valid_mask_nth (max_dt : Z) (dt : list Z) (j : nat) :
  (j < length dt)%nat -> nth j (valid_mask max_dt dt) true = true ->
  0 < nth j dt 0 <= max_dt.
Proof.
  revert j. induction dt as [|x dt IH]; intros j Hj; [cbn in Hj; lia|].
  destruct j as [|j]; cbn [valid_mask map nth].
  - intros H. apply andb_true_iff in H. lia.
  - apply IH. cbn in Hj. lia.
Qed.

Lemma fix_times_whole_delta (data_time : list Z) (delta : Q) (max_dt k : Z)
  (T : list Z) :
  (used_delta delta (valid_mask max_dt (diffs data_time)) (diffs data_time)
   == inject_Z k)%Q ->
  1 <= k ->
  fix_times data_time delta max_dt = NewArray T ->
  forall d, In d (diffs T) -> 0 < d /\ (k <= max_dt -> d <= max_dt).
Proof.
  intros Hd Hk H. apply fix_times_rebuilt in H.
  destruct H as (dt' & errors' & L & _ & ->).
  destruct (loop_frame _ _ _ _ _ _ _ _ _ L) as (Len & _ & _).
  intros d Hin. apply In_nth with (d := 0) in Hin. destruct Hin as (j & Hj & <-).
  apply (loop_repaired _ k max_dt _ _ 0 _ [] dt' errors' Hd Hk) with (j := j) in L;
    [exact L | reflexivity | | constructor | lia].
  intros j' Hj'. apply valid_mask_nth. lia.
Qed.

(** X4.  When the delta in use (the one given, or the median of the
    valid deltas) is a whole number of seconds of at least 1, every
    repaired sequence is strictly increasing: the repeated timestamps
    that [fix_times] can return need a fractional delta. *)
Theorem fix_times_increasing_with_whole_delta (data_time : list Z) (delta : Q)
  (max_dt k : Z) (T : list Z) :
  (used_delta delta (valid_mask max_dt (diffs data_time)) (diffs data_time)
   == inject_Z k)%Q ->
  1 <= k ->
  fix_times data_time delta max_dt = NewArray T ->
  strictly_increasing T.
Proof.
  intros Hd Hk H. apply strictly_increasing_diffs. intros d Hin.
  apply (fix_times_whole_delta _ _ _ _ _ Hd Hk H d Hin).
Qed.

Lemma fix_times_increasing_with_whole_delta_witness :
  strictly_increasing [0; 60; 120; 240; 300].
Proof.
  apply (fix_times_increasing_with_whole_delta [0; 60; 60; 180; 240] default_delta
           default_max_dt 60 [0; 60; 120; 240; 300]).
  - vm_compute. reflexivity.
  - lia.
  - vm_compute. reflexivity.
Defined.

(** X5.  When the delta in use is a whole number of seconds between 1
    and [max_dt], a repaired sequence is valid: [fix_times] applied to
    it again, with any delta, hands it back unchanged. *)
Theorem fix_times_repair_is_stable (data_time : list Z) (delta : Q)
  (max_dt k : Z) (T : list Z) (delta' : Q) :
  (used_delta delta (valid_mask max_dt (diffs data_time)) (diffs data_time)
   == inject_Z k)%Q ->
  1 <= k <= max_dt ->
  fix_times data_time delta max_dt = NewArray T ->
  fix_times T delta' max_dt = SameObject.
Proof.
  intros Hd Hk H. apply fix_times_same_object_iff. intros d Hin.
  destruct (fix_times_whole_delta _ _ _ _ _ Hd ltac:(lia) H d Hin). lia.
Qed.

Lemma fix_times_repair_is_stable_witness :
  fix_times [0; 60; 120; 240; 300] default_delta default_max_dt = SameObject.
Proof.
  apply (fix_times_repair_is_stable [0; 60; 60; 180; 240] default_delta
           default_max_dt 60 [0; 60; 120; 240; 300]).
  - vm_compute. reflexivity.
  - unfold default_max_dt. lia.
  - vm_compute. reflexivity.
Defined.

(* ---------- the implied delta ---------- *)

Lemma insert_sorted_Forall (P : Z -> Prop) (x : Z) (l : list Z) :
  P x -> Forall P l -> Forall P (insert_sorted x l).
Proof.
  intros Hx H. induction H as [|y l Hy H IH]; cbn [insert_sorted].
  - constructor; [exact Hx | constructor].
  - destruct (x <=? y); repeat constructor; assumption.
Qed.

Lemma sort_Forall (P : Z -> Prop) (l : list Z) : Forall P l -> Forall P (sort l).
Proof.
  intros H. induction H as [|x l Hx H IH]; [constructor|].
  cbn [sort fold_right]. apply insert_sorted_Forall; assumption.
Qed.

Lemma insert_sorted_length (x : Z) (l : list Z) :
  length (insert_sorted x l) = S (length l).
Proof.
  induction l as [|y l IH]; [reflexivity|]. cbn [insert_sorted].
  destruct (x <=? y); cbn [length]; [reflexivity | rewrite IH; reflexivity].
Qed.

Lemma sort_length (l : list Z) : length (sort l) = length l.
Proof.
  induction l as [|x l IH]; [reflexivity|].
  cbn [sort fold_right]. rewrite insert_sorted_length. cbn [length]. f_equal. exact IH.
Qed.

Lemma median_between (a b : Z) (l : list Z) :
  l <> [] -> Forall (fun x => a <= x <= b) l ->
  (inject_Z a <= median l <= inject_Z b)%Q.
Proof.
  intros Hne H. apply sort_Forall in H. unfold median.
  assert (Hn : (0 < length (sort l))%nat).
  { rewrite sort_length. destruct l; [congruence | cbn; lia]. }
  set (s := sort l) in *. set (n := length s) in *.
  rewrite Forall_forall in H.
  assert (Hhi : a <= nth (n / 2) s 0 <= b).
  { apply H, nth_In. apply Nat.Div0.div_lt_upper_bound; lia. }
  assert (Hlo : a <= nth (n / 2 - 1) s 0 <= b).
  { apply H, nth_In. assert (n / 2 < n)%nat by (apply Nat.Div0.div_lt_upper_bound; lia). lia. }
  destruct (Nat.even n).
  - destruct Hhi as [H1 H2], Hlo as [H3 H4].
    rewrite Zle_Qle in H1, H2, H3, H4.
    split.
    + apply Qle_shift_div_l; [reflexivity|]. lra.
    + apply Qle_shift_div_r; [reflexivity|]. lra.
  - rewrite <- !Zle_Qle. exact Hhi.
Qed.

Lemma select_valid (max_dt : Z) (dt : list Z) :
  Forall (fun d => 1 <= d <= max_dt) (select (valid_mask max_dt dt) dt).
Proof.
  induction dt as [|x dt IH]; cbn [valid_mask map select]; [constructor|].
  destruct ((0 <? x) && (x <=? max_dt)) eqn:E; [|exact IH].
  apply andb_true_iff in E. constructor; [lia | exact IH].
Qed.

Lemma select_valid_nonempty (max_dt : Z) (dt : list Z) :
  (exists d, In d dt /\ 0 < d <= max_dt) -> select (valid_mask max_dt dt) dt <> [].
Proof.
  intros (d & Hin & Hd). induction dt as [|x dt IH]; [destruct Hin|].
  cbn [valid_mask map select].
  destruct ((0 <? x) && (x <=? max_dt)) eqn:E; [discriminate|].
  destruct Hin as [->|Hin]; [|apply IH, Hin].
  exfalso. apply andb_false_iff in E. lia.
Qed.

(** X6.  When no positive [delta] is given and one delta of the sequence
    is valid, the delta [fix_times] works with, the median of the valid
    deltas, lies between 1 s and [max_dt]. *)
Theorem fix_times_implied_delta_is_valid (data_time : list Z) (delta : Q)
  (max_dt : Z) :
  (delta <= 0)%Q ->
  (exists d, In d (diffs data_time) /\ 0 < d <= max_dt) ->
  (1 <= used_delta delta (valid_mask max_dt (diffs data_time)) (diffs data_time)
     <= inject_Z max_dt)%Q.
Proof.
  intros Hd Hv. unfold used_delta.
  apply Qle_bool_iff in Hd. rewrite Hd.
  apply (median_between 1 max_dt);
    [apply select_valid_nonempty, Hv | apply select_valid].
Qed.

Lemma fix_times_implied_delta_is_valid_witness :
  let dt := diffs [0; 1; 3; 1806; 5] in
  (1 <= used_delta default_delta (valid_mask default_max_dt dt) dt
     <= inject_Z default_max_dt)%Q.
Proof.
  apply (fix_times_implied_delta_is_valid [0; 1; 3; 1806; 5]).
  - vm_compute. discriminate.
  - exists 1. split; [cbn; tauto | unfold default_max_dt; lia].
Defined.

(** ** Window containment *)

Section AlignContainment.

Variable R : Type.
Variable fit : nat -> nat -> AlignTime.fitted R.
Variable gt : R -> R -> bool.
Variable time : list Z.
Variable flight_duration : Z.
Variable size : nat.

Lemma find_end_bound (indices : list nat) (start we : nat) :
  (0 < size)%nat ->
  (forall i, In i indices -> (0 < i < size)%nat) ->
  AlignTime.find_end time flight_duration size indices start = inl we ->
  (we < size)%nat.
Proof.
  intros Hs. induction indices as [|i rest IH]; intros Hin; cbn [AlignTime.find_end].
  - intros H. injection H as <-. lia.
  - destruct (nth_error time i); [|discriminate].
    destruct (nth_error time start); [|discriminate].
    destruct (flight_duration <? z - z0).
    + intros H. injection H as <-. specialize (Hin i (or_introl eq_refl)). lia.
    + apply IH. intros j Hj. apply Hin. right. exact Hj.
Qed.

Lemma align_iteration_contained (st st' : AlignTime.state R) :
  (0 < size)%nat -> align_contained R size st ->
  AlignTime.iteration R fit gt time flight_duration size st = inl st' ->
  align_contained R size st'.
Proof.
  intros Hs Hc. unfold align_contained in Hc. unfold AlignTime.iteration.
  destruct (AlignTime.find_end _ _ _ _ _) as [we|e] eqn:F; [|discriminate].
  assert (Hwe : (we < size)%nat).
  { apply (find_end_bound _ _ _ Hs) in F; [exact F|].
    intros i Hi. apply in_seq in Hi. lia. }
  destruct (nth_error time we); [|discriminate].
  destruct (nth_error time (AlignTime.window_start st)); [|discriminate].
  destruct (2 * (z - z0) <? flight_duration); cbn [orb].
  - intros H. injection H as <-. exact Hc.
  - destruct (Z.of_nat we - Z.of_nat (AlignTime.window_start st) <? 5) eqn:W.
    + intros H. injection H as <-. exact Hc.
    + apply Z.ltb_ge in W.
      destruct (fit _ _) as [|R2|e]; [| |discriminate].
      * intros H. injection H as <-. exact Hc.
      * destruct (gt _ _); intros H; injection H as <-; [|exact Hc].
        unfold align_contained. cbn. lia.
Qed.

Lemma align_while_contained (fuel : nat) (st : AlignTime.state R) (t l : nat) (m : R) :
  (0 < size)%nat -> align_contained R size st ->
  AlignTime.while R fit gt time flight_duration size fuel st
  = AlignTime.Returned t l m ->
  (t <= l < size)%nat.
Proof.
  intros Hs. revert st.
  induction fuel as [|f IH]; intros st Hc; cbn [AlignTime.while].
  - destruct (Nat.eqb _ _); [|discriminate].
    intros H. injection H as <- <- _. exact Hc.
  - destruct (Nat.eqb _ _).
    + intros H. injection H as <- <- _. exact Hc.
    + destruct (AlignTime.iteration _ _ _ _ _ _ _) as [st'|e] eqn:I; [|discriminate].
      apply IH. apply (align_iteration_contained st st' Hs Hc I).
Qed.

End AlignContainment.

(** Whenever the sliding-window loop of [align_time] returns, whatever
    the regression does, the indices it returns satisfy
    [0 <= takeoff_idx <= landing_idx < n]. *)
Lemma align_run_contained (R : Type) (fit : nat -> nat -> AlignTime.fitted R)
  (gt : R -> R -> bool) (time : list Z) (flight_duration : Z) (size fuel : nat)
  (R0 : R) (t l : nat) (m : R) :
  AlignTime.run R fit gt time flight_duration size fuel R0
  = AlignTime.Returned t l m ->
  (t <= l < size)%nat.
Proof.
  unfold AlignTime.run. destruct size as [|n]; [discriminate|].
  apply align_while_contained; unfold align_contained; cbn; lia.
Qed.

(** A device array of two samples: the first pass rejects the window (it
    has fewer than 5 samples) and sets [window_end = 2], which steps over
    the exit value [size - 1 = 1]; the third pass indexes [time[2]]. *)
Lemma align_time_two_samples_raise (fuel : nat) (t0 t1 : Z) (cnt_1mn : list Z)
  (takeoff landing : Z) (flight_time : list Z) (reference : list Q) :
  AlignTime.align_time (3 + fuel) [t0; t1] cnt_1mn takeoff landing
                       flight_time reference
  = AlignTime.Raised IndexError.
Proof.
  unfold AlignTime.align_time, AlignTime.run. cbn [length Nat.add].
  cbn [AlignTime.while AlignTime.window_end Nat.eqb Nat.sub].
  unfold AlignTime.iteration at 1.
  cbn [AlignTime.window_end AlignTime.window_start AlignTime.range Nat.add
       Nat.sub seq AlignTime.find_end nth_error].
  assert (W : forall a b, (a <= 1)%nat ->
             (b || (Z.of_nat a - Z.of_nat 0 <? 5)) = true).
  { intros a b Ha. apply orb_true_iff. right. apply Z.ltb_lt. lia. }
  destruct (landing - takeoff <? t1 - t0);
    cbn [Nat.sub nth_error]; rewrite W by lia;
    cbn [AlignTime.window_end Nat.eqb Nat.add];
    unfold AlignTime.iteration at 1;
    cbn [AlignTime.window_end AlignTime.window_start AlignTime.range Nat.add
         Nat.sub seq AlignTime.find_end nth_error];
    replace (2 * (t1 - t1) <? landing - takeoff) with (0 <? landing - takeoff)
      by (f_equal; lia);
    (replace (Z.of_nat 1 - Z.of_nat 1 <? 5) with true by reflexivity);
    rewrite orb_true_r;
    cbn [AlignTime.window_end Nat.eqb Nat.add];
    unfold AlignTime.iteration at 1;
    cbn [AlignTime.window_end AlignTime.window_start AlignTime.range Nat.add
         Nat.sub seq AlignTime.find_end nth_error];
    reflexivity.
Qed.

Section EstimateContainment.

Import EstimateTakeoff.

Variable time : list Z.
Variable flight_duration : Z.
Variable cumsum_arr : list Z.
Variable size : nat.

Hypothesis positive_duration : 0 < flight_duration.

Lemma scan_stop (indices : list nat) (start stop stop' : nat) (d d' : option Z) :
  scan time flight_duration indices start stop d = inl (stop', d') ->
  (stop' = stop \/ In stop' indices) /\ (indices = [] -> d' = d).
Proof.
  revert stop d. induction indices as [|i rest IH]; intros stop d; cbn [scan].
  - intros H. injection H as <- <-. split; [left; reflexivity | reflexivity].
  - destruct (nth_error time i); [|discriminate].
    destruct (nth_error time start); [|discriminate].
    destruct (z - z0 <? flight_duration).
    + intros H. apply IH in H. destruct H as [[-> | H] _].
      * split; [right; left; reflexivity | discriminate].
      * split; [right; right; exact H | discriminate].
    + intros H. injection H as <- <-. split; [left; reflexivity | discriminate].
Qed.

Lemma scan_from_start (rest : list nat) (start stop stop' : nat) (d d' : option Z) :
  scan time flight_duration (start :: rest) start stop d = inl (stop', d') ->
  In stop' (start :: rest).
Proof.
  cbn [scan]. destruct (nth_error time start); [|discriminate].
  replace (z - z <? flight_duration) with true by (symmetry; apply Z.ltb_lt; lia).
  intros H. apply scan_stop in H. destruct H as [[-> | H] _].
  - left; reflexivity.
  - right; exact H.
Qed.

Lemma scan_window_bounds (st : state) (stop' : nat) (d' : Z) :
  window_stop st <> (size - 1)%nat -> estimate_inv size st ->
  scan time flight_duration (range (window_stop st + 1) size)
       (window_start st) (window_stop st) (dt st) = inl (stop', Some d') ->
  0 < d' ->
  (window_start st <= stop' <= size - 1)%nat.
Proof.
  intros Hne (Hc & Hb & Hd) Hscan D. unfold range in Hscan.
  assert (Hlt : (window_stop st < size - 1)%nat).
  { destruct (Nat.le_gt_cases (window_stop st) (size - 1)) as [Hle|Hgt]; [lia|].
    exfalso. destruct Hd as [Hd|[d [Hd Hneg]]]; [lia|].
    replace (size - (window_stop st + 1))%nat with 0%nat in Hscan by lia.
    apply scan_stop in Hscan. destruct Hscan as [_ Hscan].
    specialize (Hscan eq_refl). rewrite Hd in Hscan. injection Hscan as ->. lia. }
  destruct (Nat.eq_dec (window_start st) (window_stop st + 1)) as [E|E].
  - replace (size - (window_stop st + 1))%nat
      with (S (size - (window_stop st + 1) - 1)) in Hscan by lia.
    cbn [seq] in Hscan. rewrite <- E in Hscan.
    pose proof (scan_from_start _ _ _ _ _ _ Hscan) as HI.
    destruct HI as [<- | HI]; [lia|]. apply in_seq in HI. lia.
  - apply scan_stop in Hscan. destruct Hscan as [[-> | HI] _]; [lia|].
    apply in_seq in HI. lia.
Qed.

Lemma estimate_iteration_inv (st st' : state) :
  window_stop st <> (size - 1)%nat -> estimate_inv size st ->
  iteration time flight_duration cumsum_arr size st = inl st' ->
  estimate_inv size st'.
Proof.
  intros Hne Hi. pose proof Hi as (Hc & Hb & Hd). unfold iteration.
  destruct (scan _ _ _ _ _ _) as [[stop' [d'|]]|e] eqn:Hscan;
    [| discriminate | discriminate].
  destruct (d' <=? 0) eqn:D.
  - intros H. injection H as <-. unfold estimate_inv. cbn.
    split; [exact Hc|]. split; [lia|]. right. exists d'. split; [reflexivity|lia].
  - apply Z.leb_gt in D.
    pose proof (scan_window_bounds st stop' d' Hne Hi Hscan D) as Hstop.
    destruct (nth_error cumsum_arr stop'); [|discriminate].
    destruct (nth_error cumsum_arr (window_start st)); [|discriminate].
    destruct (max_sum st <=? z - z0); intros H; injection H as <-;
      unfold estimate_inv; cbn; repeat split; try lia.
Qed.

Lemma estimate_while_contained (fuel : nat) (st : state) (t l : nat) :
  estimate_inv size st ->
  while time flight_duration cumsum_arr size fuel st = Returned t l ->
  (t <= l < size)%nat.
Proof.
  revert st. induction fuel as [|f IH]; intros st Hi; cbn [while].
  - destruct (Nat.eqb _ _); [|discriminate].
    intros H. injection H as <- <-. apply Hi.
  - destruct (Nat.eqb _ _) eqn:E.
    + intros H. injection H as <- <-. apply Hi.
    + apply Nat.eqb_neq in E.
      destruct (iteration _ _ _ _ _) as [st'|e] eqn:I; [|discriminate].
      apply IH. apply (estimate_iteration_inv st st' E Hi I).
Qed.

(** A pass moves the window start by one and updates the best window
    with the window it compared. *)
Lemma estimate_iteration_best (st st' : state) :
  iteration time flight_duration cumsum_arr size st = inl st' ->
  window_start st' = (window_start st + 1)%nat
  /\ estimate_best st'
     = match compared time flight_duration cumsum_arr size st with
       | Some w => estimate_update (estimate_best st) w
       | None => estimate_best st
       end.
Proof.
  unfold iteration, compared.
  destruct (scan _ _ _ _ _ _) as [[stop' [d'|]]|e]; [| discriminate | discriminate].
  destruct (d' <=? 0).
  - intros H. injection H as <-. split; reflexivity.
  - destruct (nth_error cumsum_arr stop'); [|discriminate].
    destruct (nth_error cumsum_arr (window_start st)); [|discriminate].
    unfold estimate_update, estimate_best, score, start_of, end_of. cbn [fst snd].
    destruct (max_sum st <=? z - z0); intros H; injection H as <-;
      split; reflexivity.
Qed.

Lemma compared_bounds (st : state) (w : nat * nat * Z) :
  window_stop st <> (size - 1)%nat -> estimate_inv size st ->
  nondecreasing cumsum_arr ->
  compared time flight_duration cumsum_arr size st = Some w ->
  start_of w = window_start st /\ 0 <= score w.
Proof.
  intros Hne Hi Hmono. unfold compared.
  destruct (scan _ _ _ _ _ _) as [[stop' [d'|]]|e] eqn:Hscan; try discriminate.
  destruct (d' <=? 0) eqn:D; [discriminate|]. apply Z.leb_gt in D.
  pose proof (scan_window_bounds st stop' d' Hne Hi Hscan D) as Hstop.
  destruct (nth_error cumsum_arr stop') eqn:E1; [|discriminate].
  destruct (nth_error cumsum_arr (window_start st)) eqn:E2; [|discriminate].
  intros H. injection H as <-. unfold start_of, score. cbn [fst snd].
  split; [reflexivity|].
  pose proof (Hmono _ _ _ _ (proj1 Hstop) E2 E1). lia.
Qed.

(** The result of the loop is the fold of the update over the windows
    compared. *)
Lemma estimate_while_fold (fuel : nat) (st : state) (t l : nat) :
  while time flight_duration cumsum_arr size fuel st = Returned t l ->
  exists m,
    fold_left estimate_update
              (windows time flight_duration cumsum_arr size fuel st)
              (estimate_best st) = (m, t, l).
Proof.
  revert st. induction fuel as [|f IH]; intros st; cbn [while windows].
  - destruct (Nat.eqb _ _); [|discriminate].
    intros H. injection H as <- <-. exists (max_sum st). reflexivity.
  - destruct (Nat.eqb _ _).
    + intros H. injection H as <- <-. exists (max_sum st). reflexivity.
    + destruct (iteration _ _ _ _ _) as [st'|e] eqn:I; [|discriminate].
      intros H. apply IH in H. destruct H as [m H]. exists m.
      apply estimate_iteration_best in I. destruct I as [_ I].
      destruct (compared _ _ _ _ _) as [w|]; cbn [fold_left]; rewrite <- I; exact H.
Qed.

(** The windows compared start at or after the current window start, at
    strictly increasing starts, and their sums are not negative. *)
Lemma windows_increasing (fuel : nat) (st : state) :
  estimate_inv size st -> nondecreasing cumsum_arr ->
  Forall (fun w => (window_start st <= start_of w)%nat /\ 0 <= score w)
         (windows time flight_duration cumsum_arr size fuel st)
  /\ StronglySorted (fun a b => (start_of a < start_of b)%nat)
                    (windows time flight_duration cumsum_arr size fuel st).
Proof.
  intros Hi Hmono. revert st Hi.
  induction fuel as [|f IH]; intros st Hi; cbn [windows].
  - destruct (Nat.eqb _ _); split; constructor.
  - destruct (Nat.eqb _ _) eqn:E; [split; constructor|].
    apply Nat.eqb_neq in E.
    destruct (iteration _ _ _ _ _) as [st'|e] eqn:I; [|split; constructor].
    pose proof (estimate_iteration_inv st st' E Hi I) as Hi'.
    pose proof (estimate_iteration_best st st' I) as [Hs _].
    destruct (IH st' Hi') as [HF HS].
    assert (HF' : Forall (fun w => (window_start st < start_of w)%nat /\ 0 <= score w)
                         (windows time flight_duration cumsum_arr size f st')).
    { eapply Forall_impl; [|exact HF]. cbn. intros w [H1 H2]. split; lia. }
    destruct (compared _ _ _ _ _) as [w|] eqn:C.
    + destruct (compared_bounds st w E Hi Hmono C) as [Hw Hp]. split.
      * constructor; [split; lia|].
        eapply Forall_impl; [|exact HF']. cbn. intros w' [H1 H2]. split; lia.
      * constructor; [exact HS|].
        eapply Forall_impl; [|exact HF']. cbn. intros w' [H1 H2]. lia.
    + split; [|exact HS].
      eapply Forall_impl; [|exact HF']. cbn. intros w' [H1 H2]. split; lia.
Qed.

End EstimateContainment.

(** Once [window_stop] has stepped over [size - 1] with a stale
    [dt <= 0], every further pass finds an empty range, takes the
    [continue] branch and moves [window_stop] further away: the loop of
    [estimate_takeoff] never exits. *)
Lemma estimate_overshoot_diverges (time : list Z) (flight_duration : Z)
  (cumsum_arr : list Z) (size fuel : nat) (st : EstimateTakeoff.state) (d : Z) :
  (size - 1 < EstimateTakeoff.window_stop st)%nat ->
  EstimateTakeoff.window_stop st = (EstimateTakeoff.window_start st + 1)%nat ->
  EstimateTakeoff.dt st = Some d -> d <= 0 ->
  EstimateTakeoff.while time flight_duration cumsum_arr size fuel st
  = EstimateTakeoff.OutOfFuel.
Proof.
  intros Hover Hstop Hdt Hd. revert st Hover Hstop Hdt.
  induction fuel as [|f IH]; intros st Hover Hstop Hdt;
    cbn [EstimateTakeoff.while];
    replace (Nat.eqb (EstimateTakeoff.window_stop st) (size - 1)) with false
      by (symmetry; apply Nat.eqb_neq; lia); [reflexivity|].
  unfold EstimateTakeoff.iteration, EstimateTakeoff.range.
  replace (size - (EstimateTakeoff.window_stop st + 1))%nat with 0%nat by lia.
  cbn [seq EstimateTakeoff.scan]. rewrite Hdt.
  replace (d <=? 0) with true by (symmetry; apply Z.leb_le; exact Hd).
  apply IH; cbn; try lia. reflexivity.
Qed.

(** Whenever [estimate_takeoff] returns, for a positive flight duration,
    the indices it returns satisfy [0 <= takeoff_idx <= landing_idx < n]. *)
Lemma estimate_takeoff_contained (fuel : nat) (cnt_5sc time : list Z)
  (flight_duration max_diff : Z) (t l : nat) :
  0 < flight_duration ->
  EstimateTakeoff.estimate_takeoff fuel cnt_5sc time flight_duration max_diff
  = EstimateTakeoff.Returned t l ->
  (t <= l < length cnt_5sc)%nat.
Proof.
  intros HD. unfold EstimateTakeoff.estimate_takeoff.
  destruct cnt_5sc as [|c r]; [discriminate|].
  apply estimate_while_contained; [exact HD|].
  unfold estimate_inv. cbn. repeat split; try lia.
Qed.

(** Three samples 100 s apart and a flight of 50 s: the third pass scans
    the last sample alone, finds [dt = 0] and takes the [continue]
    branch with [window_stop = 4 > size - 1]. *)
Lemma estimate_takeoff_never_returns (fuel : nat) :
  EstimateTakeoff.estimate_takeoff fuel [1; 1; 1] [0; 100; 200] 50
                                   EstimateTakeoff.default_max_diff
  = EstimateTakeoff.OutOfFuel.
Proof.
  destruct fuel as [|[|[|f]]]; try (vm_compute; reflexivity).
  unfold EstimateTakeoff.estimate_takeoff.
  change (EstimateTakeoff.while [0; 100; 200] 50
            (cumsum (EstimateTakeoff.clipped_counts
                       EstimateTakeoff.default_max_diff [1; 1; 1]))
            3 f (EstimateTakeoff.mkState 3 4 (Some 0) 0 1 1)
          = EstimateTakeoff.OutOfFuel).
  apply estimate_overshoot_diverges with (d := 0); cbn; try lia; reflexivity.
Qed.

(** C4 (the code departs from it).  [align_time] raises IndexError on
    every device array of two samples, whatever the flight and reference
    data; [estimate_takeoff] never returns on three samples 100 s apart
    with a flight duration of 50 s: no number of passes of its loop is
    enough. *)
Theorem window_search_without_result :
  (forall (fuel : nat) (t0 t1 : Z) (cnt_1mn : list Z) (takeoff landing : Z)
          (flight_time : list Z) (reference : list Q),
      AlignTime.align_time (3 + fuel) [t0; t1] cnt_1mn takeoff landing
                           flight_time reference
      = AlignTime.Raised IndexError)
  /\ (forall fuel : nat,
        EstimateTakeoff.estimate_takeoff fuel [1; 1; 1] [0; 100; 200] 50
                                         EstimateTakeoff.default_max_diff
        = EstimateTakeoff.OutOfFuel).
Proof.
  split.
  - intros. apply align_time_two_samples_raise.
  - apply estimate_takeoff_never_returns.
Qed.

(** ** Which window wins *)

(** A fold of the non-strict update ends on the last window that reaches
    the maximal sum. *)
Lemma estimate_fold_last_max (ws : list (nat * nat * Z)) (best : Z * nat * nat)
  (m : Z) (t l : nat) :
  fold_left estimate_update ws best = (m, t, l) ->
  (best = (m, t, l) /\ forall w, In w ws -> score w < m)
  \/ exists pre post,
       ws = pre ++ (t, l, m) :: post
       /\ (forall w, In w pre -> score w <= m)
       /\ fst (fst best) <= m
       /\ (forall w, In w post -> score w < m).
Proof.
  revert best. induction ws as [|w r IH]; intros best; cbn [fold_left].
  - intros ->. left. split; [reflexivity | intros w []].
  - intros H. apply IH in H. unfold estimate_update in H.
    destruct (fst (fst best) <=? score w) eqn:E.
    + apply Z.leb_le in E. cbn [fst] in H.
      destruct H as [[H Hr] | (pre & post & -> & Hpre & Hm & Hpost)].
      * right. exists [], r. injection H as <- <- <-.
        destruct w as [[s e] v]. cbn in *.
        repeat split; [intros w [] | lia | exact Hr].
      * right. exists (w :: pre), post. repeat split; [|lia|exact Hpost].
        intros w' [<- | Hw']; [exact Hm | apply Hpre, Hw'].
    + apply Z.leb_gt in E.
      destruct H as [[H Hr] | (pre & post & -> & Hpre & Hm & Hpost)].
      * left. split; [exact H|]. subst best. cbn [fst] in E.
        intros w' [<- | Hw']; [exact E | apply Hr, Hw'].
      * right. exists (w :: pre), post. repeat split; [|exact Hm|exact Hpost].
        intros w' [<- | Hw']; [lia | apply Hpre, Hw'].
Qed.

Lemma sorted_split {A : Type} (lt : A -> A -> Prop) (pre post : list A) (x : A) :
  StronglySorted lt (pre ++ x :: post) ->
  (forall y, In y pre -> lt y x) /\ (forall y, In y post -> lt x y).
Proof.
  induction pre as [|a pre IH]; cbn [app]; intros H.
  - apply StronglySorted_inv in H. destruct H as [_ H].
    split; [intros y [] | intros y Hy; rewrite Forall_forall in H; apply H, Hy].
  - apply StronglySorted_inv in H. destruct H as [Hs Ha].
    destruct (IH Hs) as [H1 H2]. split; [|exact H2].
    intros y [<- | Hy]; [|apply H1, Hy].
    rewrite Forall_forall in Ha. apply Ha, in_elt.
Qed.

Lemma rebuild_nonnegative (prev : Z) (delta : list Z) :
  Forall (fun c => 0 <= c) (EstimateTakeoff.rebuild prev delta).
Proof.
  revert prev. induction delta as [|d r IH]; intros prev; cbn [EstimateTakeoff.rebuild].
  - constructor.
  - constructor; [destruct (prev + d <? 0) eqn:E; [lia | apply Z.ltb_ge in E; lia]|].
    apply IH.
Qed.

Lemma cumsum_from_nondecreasing (acc : Z) (l : list Z) :
  Forall (fun c => 0 <= c) l ->
  nondecreasing (acc :: cumsum_from acc l).
Proof.
  revert acc. induction l as [|c r IH]; intros acc H i j x y Hij Hx Hy.
  - destruct i as [|[|i]], j as [|[|j]]; cbn in Hx, Hy; try discriminate.
    injection Hx as <-. injection Hy as <-. lia.
  - apply Forall_cons_iff in H. destruct H as [Hc Hr].
    specialize (IH (acc + c) Hr). cbn [cumsum_from] in *.
    destruct i as [|i], j as [|j]; cbn [nth_error] in Hx, Hy.
    + injection Hx as <-. injection Hy as <-. lia.
    + injection Hx as <-.
      assert (acc + c <= y) by (apply (IH 0%nat j); [lia | reflexivity | exact Hy]).
      lia.
    + lia.
    + apply (IH i j); [lia | exact Hx | exact Hy].
Qed.

Lemma clipped_cumsum_nondecreasing (max_diff : Z) (cnt_5sc : list Z) :
  nondecreasing (cumsum (EstimateTakeoff.clipped_counts max_diff cnt_5sc)).
Proof.
  destruct cnt_5sc as [|c0 r]; cbn [EstimateTakeoff.clipped_counts].
  - intros [|i] j x y _ Hx; discriminate.
  - unfold cumsum. cbn [cumsum_from]. apply cumsum_from_nondecreasing.
    apply rebuild_nonnegative.
Qed.

(** Of the windows [estimate_takeoff] compares, the one it returns is the
    last, and so the one of largest start, that reaches the maximal sum. *)
Lemma estimate_takeoff_last_max (fuel : nat) (cnt_5sc time : list Z)
  (flight_duration max_diff : Z) (t l : nat) :
  0 < flight_duration ->
  EstimateTakeoff.estimate_takeoff fuel cnt_5sc time flight_duration max_diff
  = EstimateTakeoff.Returned t l ->
  EstimateTakeoff.candidate_windows fuel cnt_5sc time flight_duration max_diff
  <> [] ->
  exists pre m post,
    EstimateTakeoff.candidate_windows fuel cnt_5sc time flight_duration max_diff
    = pre ++ (t, l, m) :: post
    /\ (forall w, In w pre -> score w <= m /\ (start_of w < t)%nat)
    /\ (forall w, In w post -> score w < m /\ (t < start_of w)%nat).
Proof.
  intros HD. unfold EstimateTakeoff.estimate_takeoff, EstimateTakeoff.candidate_windows.
  destruct cnt_5sc as [|c0 r]; [discriminate|].
  set (size := length (c0 :: r)).
  set (cs := cumsum (EstimateTakeoff.clipped_counts max_diff (c0 :: r))).
  set (st0 := EstimateTakeoff.mkState 0 0 None 0 0 (size - 1)).
  intros Hret Hne.
  assert (Hi : estimate_inv size st0).
  { unfold estimate_inv, st0, size. cbn. repeat split; try lia. }
  pose proof (clipped_cumsum_nondecreasing max_diff (c0 :: r)) as Hmono.
  fold cs in Hmono.
  destruct (windows_increasing time flight_duration cs size HD fuel st0 Hi Hmono)
    as [HF HS].
  apply estimate_while_fold in Hret. destruct Hret as [m Hfold].
  apply estimate_fold_last_max in Hfold.
  destruct Hfold as [[Hb Hlt] | (pre & post & E & Hpre & _ & Hpost)].
  - exfalso. injection Hb as <- _ _.
    destruct (EstimateTakeoff.windows _ _ _ _ _ _) as [|w ws]; [congruence|].
    apply Forall_inv in HF. specialize (Hlt w (or_introl eq_refl)). lia.
  - exists pre, m, post. split; [exact E|]. rewrite E in HS.
    apply sorted_split in HS. destruct HS as [H1 H2].
    split; intros w Hw; split; auto.
Qed.

Lemma Qltb_lt (a b : Q) : Qltb a b = true <-> (a < b)%Q.
Proof.
  unfold Qltb. rewrite negb_true_iff. split.
  - intros H. apply Qnot_le_lt. intros L. apply Qle_bool_iff in L. congruence.
  - intros H. destruct (Qle_bool b a) eqn:E; [|reflexivity].
    apply Qle_bool_iff in E. exfalso. exact (Qlt_not_le _ _ H E).
Qed.

Lemma Qltb_ge (a b : Q) : Qltb a b = false <-> (b <= a)%Q.
Proof.
  unfold Qltb. rewrite negb_false_iff. apply Qle_bool_iff.
Qed.

Section AlignTrace.

Import AlignTime.

Variable fit : nat -> nat -> fitted Q.
Variable time : list Z.
Variable flight_duration : Z.
Variable size : nat.

(** A pass moves the window start by one and updates the best window
    with the window it fitted. *)
Lemma align_iteration_best (st st' : state Q) :
  iteration Q fit better time flight_duration size st = inl st' ->
  window_start st' = (window_start st + 1)%nat
  /\ align_best st'
     = match fitted_window Q fit time flight_duration size st with
       | Some w => align_update (align_best st) w
       | None => align_best st
       end.
Proof.
  unfold iteration, fitted_window.
  destruct (find_end _ _ _ _ _) as [we|e]; [|discriminate].
  destruct (nth_error time we); [|discriminate].
  destruct (nth_error time (window_start st)); [|discriminate].
  destruct (_ || _).
  - intros H. injection H as <-. split; reflexivity.
  - destruct (fit _ _) as [|R2|e]; [| |discriminate].
    + intros H. injection H as <-. split; reflexivity.
    + unfold align_update, align_best, score, start_of, end_of, better. cbn [fst snd].
      destruct (Qltb (max_R2 st) R2); intros H; injection H as <-;
        split; reflexivity.
Qed.

Lemma fitted_window_start (st : state Q) (w : nat * nat * Q) :
  fitted_window Q fit time flight_duration size st = Some w ->
  start_of w = window_start st.
Proof.
  unfold fitted_window.
  destruct (find_end _ _ _ _ _) as [we|e]; [|discriminate].
  destruct (nth_error time we); [|discriminate].
  destruct (nth_error time (window_start st)); [|discriminate].
  destruct (_ || _); [discriminate|].
  destruct (fit _ _) as [|R2|e]; try discriminate.
  intros H. injection H as <-. reflexivity.
Qed.

(** The result of the loop is the fold of the update over the windows
    fitted. *)
Lemma align_while_fold (fuel : nat) (st : state Q) (t l : nat) (m : Q) :
  while Q fit better time flight_duration size fuel st = Returned t l m ->
  fold_left align_update (fits Q fit better time flight_duration size fuel st)
            (align_best st) = (m, t, l).
Proof.
  revert st. induction fuel as [|f IH]; intros st; cbn [while fits].
  - destruct (Nat.eqb _ _); [|discriminate].
    intros H. injection H as <- <- <-. reflexivity.
  - destruct (Nat.eqb _ _).
    + intros H. injection H as <- <- <-. reflexivity.
    + destruct (iteration _ _ _ _ _ _ _) as [st'|e] eqn:I; [|discriminate].
      intros H. apply IH in H.
      apply align_iteration_best in I. destruct I as [_ I].
      destruct (fitted_window _ _ _ _ _ _) as [w|]; cbn [fold_left];
        rewrite <- I; exact H.
Qed.

Lemma fits_increasing (fuel : nat) (st : state Q) :
  Forall (fun w => (window_start st <= start_of w)%nat)
         (fits Q fit better time flight_duration size fuel st)
  /\ StronglySorted (fun a b => (start_of a < start_of b)%nat)
                    (fits Q fit better time flight_duration size fuel st).
Proof.
  revert st. induction fuel as [|f IH]; intros st; cbn [fits].
  - destruct (Nat.eqb _ _); split; constructor.
  - destruct (Nat.eqb _ _); [split; constructor|].
    destruct (iteration _ _ _ _ _ _ _) as [st'|e] eqn:I; [|split; constructor].
    pose proof (align_iteration_best st st' I) as [Hs _].
    destruct (IH st') as [HF HS]. rewrite Hs in HF.
    destruct (fitted_window _ _ _ _ _ _) as [w|] eqn:C.
    + apply fitted_window_start in C. split.
      * constructor; [lia|].
        eapply Forall_impl; [|exact HF]. cbn. intros w' H1. lia.
      * constructor; [exact HS|].
        eapply Forall_impl; [|exact HF]. cbn. intros w' H1. lia.
    + split; [|exact HS].
      eapply Forall_impl; [|exact HF]. cbn. intros w' H1. lia.
Qed.

End AlignTrace.

(** A fold of the strict update ends on the first window that reaches
    the maximal R2, if any window beats the initial value. *)
Lemma align_fold_first_max (ws : list (nat * nat * Q)) (best : Q * nat * nat)
  (m : Q) (t l : nat) :
  fold_left align_update ws best = (m, t, l) ->
  (best = (m, t, l) /\ forall w, In w ws -> (score w <= m)%Q)
  \/ exists pre s e post,
       ws = pre ++ (s, e, m) :: post
       /\ t = (s + 1)%nat /\ l = e
       /\ (forall w, In w pre -> (score w < m)%Q)
       /\ (fst (fst best) < m)%Q
       /\ (forall w, In w post -> (score w <= m)%Q).
Proof.
  revert best. induction ws as [|w r IH]; intros best; cbn [fold_left].
  - intros ->. left. split; [reflexivity | intros w []].
  - intros H. apply IH in H. unfold align_update in H.
    destruct (Qltb (fst (fst best)) (score w)) eqn:E.
    + apply Qltb_lt in E. cbn [fst] in H.
      destruct H as [[H Hr] | (pre & s & e & post & -> & Ht & Hl & Hpre & Hm & Hpost)].
      * right. exists [], (start_of w), (end_of w), r. injection H as <- <- <-.
        destruct w as [[s e] v]. cbn in *.
        repeat split; [intros w [] | exact E | exact Hr].
      * right. exists (w :: pre), s, e, post.
        repeat split; [exact Ht | exact Hl | | | exact Hpost].
        -- intros w' [<- | Hw']; [exact Hm | apply Hpre, Hw'].
        -- apply (Qlt_trans _ _ _ E Hm).
    + apply Qltb_ge in E.
      destruct H as [[H Hr] | (pre & s & e & post & -> & Ht & Hl & Hpre & Hm & Hpost)].
      * left. split; [exact H|]. subst best. cbn [fst] in E.
        intros w' [<- | Hw']; [exact E | apply Hr, Hw'].
      * right. exists (w :: pre), s, e, post.
        repeat split; [exact Ht | exact Hl | | exact Hm | exact Hpost].
        intros w' [<- | Hw']; [apply (Qle_lt_trans _ _ _ E Hm) | apply Hpre, Hw'].
Qed.

(** Of the windows [align_time] fits, the one behind its result is the
    first, and so the one of smallest start, that reaches the maximal R2:
    the end index returned is that window's, the start index returned is
    that window's plus one. *)
Lemma align_time_first_max (fuel : nat) (time cnt_1mn : list Z)
  (takeoff landing : Z) (flight_time : list Z) (reference : list Q)
  (t l : nat) (m : Q) :
  AlignTime.align_time fuel time cnt_1mn takeoff landing flight_time reference
  = AlignTime.Returned t l m ->
  (0 < m)%Q ->
  exists pre s e post,
    AlignTime.fitted_windows fuel time cnt_1mn takeoff landing flight_time reference
    = pre ++ (s, e, m) :: post
    /\ t = (s + 1)%nat /\ l = e
    /\ (forall w, In w pre -> (score w < m)%Q /\ (start_of w < s)%nat)
    /\ (forall w, In w post -> (score w <= m)%Q /\ (s < start_of w)%nat).
Proof.
  unfold AlignTime.align_time, AlignTime.fitted_windows, AlignTime.run.
  destruct (length time) as [|n] eqn:En; [discriminate|].
  intros Hret Hm. apply align_while_fold in Hret.
  apply align_fold_first_max in Hret.
  destruct Hret as [[Hb _] | (pre & s & e & post & E & Ht & Hl & Hpre & _ & Hpost)].
  - exfalso. injection Hb as <- _ _. exact (Qlt_irrefl _ Hm).
  - exists pre, s, e, post. split; [exact E|].
    destruct (fits_increasing
                (AlignTime.fit_window time cnt_1mn
                   (map (fun t0 => inject_Z (t0 - takeoff)) flight_time) reference)
                time (landing - takeoff) (S n) fuel
                (AlignTime.mkState 0 0 0 (S n - 1) 0%Q)) as [_ HS].
    rewrite E in HS. apply sorted_split in HS. destruct HS as [H1 H2].
    repeat split; auto.
Qed.


(** ** The regression on a window *)

Lemma fold_Qplus_acc (l : list Q) (a : Q) :
  (fold_left Qplus l a == a + fold_left Qplus l 0)%Q.
Proof.
  revert a. induction l as [|x r IH]; intros a; cbn [fold_left].
  - lra.
  - rewrite (IH (a + x)%Q), (IH (0 + x)%Q). lra.
Qed.

Lemma Qsum_nil : (Qsum [] == 0)%Q.
Proof. reflexivity. Qed.

Lemma Qsum_cons (x : Q) (l : list Q) : (Qsum (x :: l) == x + Qsum l)%Q.
Proof.
  unfold Qsum. rewrite !Qred_correct. cbn [fold_left].
  rewrite fold_Qplus_acc. lra.
Qed.

Lemma Qsq_nonneg (x : Q) : (0 <= Qsq x)%Q.
Proof. unfold Qsq. nra. Qed.

Lemma Qsum_squares_nonneg {A : Type} (f : A -> Q) (l : list A) :
  (0 <= Qsum (map (fun a => Qsq (f a)) l))%Q.
Proof.
  induction l as [|a r IH]; cbn [map].
  - rewrite Qsum_nil. lra.
  - rewrite Qsum_cons. pose proof (Qsq_nonneg (f a)). lra.
Qed.

(** The reference is exactly twice the counts, element by element. *)
Lemma doubled_sums (counts : list Z) (reference : list Q) :
  Forall2 (fun r c => (r == 2 * inject_Z c)%Q) reference counts ->
  (Qsum (map2 Qmult (map inject_Z counts) reference)
   == 2 * Qsum (map Qsq (map inject_Z counts)))%Q
  /\ (Qsum (map Qsq reference) == 4 * Qsum (map Qsq (map inject_Z counts)))%Q.
Proof.
  induction 1 as [|r c rs cs Hrc _ [IH1 IH2]]; cbn [map map2].
  - rewrite !Qsum_nil. split; lra.
  - rewrite !Qsum_cons, IH1, IH2. unfold Qsq. rewrite Hrc. split; ring.
Qed.

Lemma doubled_residuals (counts : list Z) (reference : list Q) (beta : Q) :
  Forall2 (fun r c => (r == 2 * inject_Z c)%Q) reference counts ->
  (beta == 1 # 2)%Q ->
  (Qsum (map Qsq (map2 (fun m r => (m - beta * r)%Q)
                       (map inject_Z counts) reference)) == 0)%Q.
Proof.
  intros H Hb. induction H as [|r c rs cs Hrc _ IH]; cbn [map map2].
  - apply Qsum_nil.
  - rewrite Qsum_cons, IH. unfold Qsq. rewrite Hrc, Hb. ring.
Qed.

(** On a window whose reference is exactly twice the counts, a regression
    that reaches R2 has the slope 1/2 and R2 = 1. *)
Lemma regression_of_doubled (counts : list Z) (reference : list Q) (R2 : Q) :
  Forall2 (fun r c => (r == 2 * inject_Z c)%Q) reference counts ->
  AlignTime.regression counts reference = AlignTime.Fit R2 ->
  same_value (AlignTime.beta_hat counts reference) (Some (1 # 2)%Q)
  /\ (R2 == 1)%Q.
Proof.
  intros H. unfold AlignTime.regression, AlignTime.beta_hat, slope.
  destruct (doubled_sums counts reference H) as [Hnum Hden].
  destruct (Qeq_bool (Qsum (map Qsq reference)) 0) eqn:E; [discriminate|].
  apply Qeq_bool_neq in E.
  set (beta := (Qsum (map2 Qmult (map inject_Z counts) reference)
                / Qsum (map Qsq reference))%Q).
  assert (Hb : (beta == 1 # 2)%Q).
  { unfold beta. rewrite Hnum. rewrite Hden in E |- *. field. lra. }
  destruct (Qltb beta 0); [discriminate|].
  destruct (Qeq_bool _ 0) eqn:T; [discriminate|].
  apply Qeq_bool_neq in T.
  intros F. injection F as <-. split; [exact Hb|].
  rewrite (doubled_residuals counts reference beta H Hb). field. exact T.
Qed.

(** R2 never exceeds 1. *)
Lemma regression_at_most_one (counts : list Z) (reference : list Q) (R2 : Q) :
  AlignTime.regression counts reference = AlignTime.Fit R2 -> (R2 <= 1)%Q.
Proof.
  unfold AlignTime.regression.
  destruct (AlignTime.beta_hat counts reference) as [beta|]; [|discriminate].
  destruct (Qltb beta 0); [discriminate|].
  set (ESS := Qsum (map Qsq _)).
  set (TSS := Qsum (map (fun m => Qsq _) _)).
  destruct (Qeq_bool TSS 0) eqn:T; [discriminate|].
  apply Qeq_bool_neq in T. intros F. injection F as <-.
  assert (HE : (0 <= ESS)%Q).
  { unfold ESS. rewrite <- (map_id (map2 _ _ _)) at 1.
    rewrite map_map. apply (Qsum_squares_nonneg (fun x => x)). }
  assert (HT : (0 < TSS)%Q).
  { assert (0 <= TSS)%Q by apply Qsum_squares_nonneg.
    destruct (Qlt_le_dec 0 TSS) as [L|L]; [exact L|].
    exfalso. apply T. lra. }
  assert (0 <= ESS / TSS)%Q.
  { apply Qle_shift_div_l; [exact HT|]. lra. }
  lra.
Qed.

(** Every window of the trace was fitted with the R2 recorded for it. *)
Lemma fits_fit (fit : nat -> nat -> AlignTime.fitted Q) (time : list Z)
  (flight_duration : Z) (size fuel : nat) (st : AlignTime.state Q)
  (s e : nat) (R2 : Q) :
  In (s, e, R2)
     (AlignTime.fits Q fit AlignTime.better time flight_duration size fuel st) ->
  fit s e = AlignTime.Fit R2.
Proof.
  revert st. induction fuel as [|f IH]; intros st; cbn [AlignTime.fits].
  - destruct (Nat.eqb _ _); intros [].
  - destruct (Nat.eqb _ _); [intros []|].
    destruct (AlignTime.iteration _ _ _ _ _ _ _) as [st'|ex]; [|intros []].
    destruct (AlignTime.fitted_window _ _ _ _ _ _) as [w|] eqn:W; [|apply IH].
    intros [Hw | H]; [subst w|apply (IH _ H)].
    revert W. unfold AlignTime.fitted_window.
    destruct (AlignTime.find_end _ _ _ _ _) as [we|ex]; [|discriminate].
    destruct (nth_error time we); [|discriminate].
    destruct (nth_error time (AlignTime.window_start st)); [|discriminate].
    destruct (_ || _); [discriminate|].
    destruct (fit (AlignTime.window_start st) we) as [|r|ex] eqn:F;
      try discriminate.
    intros H. injection H as H1 H2 H3. subst. exact F.
Qed.

(** C3 (amended).  Let the scan of [align_time] fit a window [s..e] over
    which the interpolated reference is exactly twice the device counts.
    Then the zero-intercept slope of the counts on the reference there is
    1/2, the R2 of the window is 1, and [align_time] returns the R2 1; when
    no window of smaller start fits as well, the end index it returns is
    [e]. *)
Theorem align_time_doubled_reference (fuel : nat) (time cnt_1mn : list Z)
  (takeoff landing : Z) (flight_time : list Z) (reference : list Q)
  (s e : nat) (R2 : Q) (reference_adjusted : list Q) (t l : nat) (m : Q) :
  AlignTime.align_time fuel time cnt_1mn takeoff landing flight_time reference
  = AlignTime.Returned t l m ->
  In (s, e, R2)
     (AlignTime.fitted_windows fuel time cnt_1mn takeoff landing
                               flight_time reference) ->
  AlignTime.window_reference
    time (map (fun x => inject_Z (x - takeoff)) flight_time) reference s e
  = inl reference_adjusted ->
  Forall2 (fun r c => (r == 2 * inject_Z c)%Q)
          reference_adjusted (AlignTime.window_counts cnt_1mn s e) ->
  same_value (AlignTime.beta_hat (AlignTime.window_counts cnt_1mn s e)
                                 reference_adjusted)
             (Some (1 # 2)%Q)
  /\ (R2 == 1)%Q
  /\ (m == 1)%Q
  /\ ((forall w,
          In w (AlignTime.fitted_windows fuel time cnt_1mn takeoff landing
                                         flight_time reference) ->
          (start_of w < s)%nat -> (score w < 1)%Q) ->
      l = e).
Proof.
  unfold AlignTime.align_time, AlignTime.fitted_windows, AlignTime.run.
  set (rt := map (fun x => inject_Z (x - takeoff)) flight_time).
  set (fit := AlignTime.fit_window time cnt_1mn rt reference).
  destruct (length time) as [|n]; [discriminate|].
  set (st0 := AlignTime.mkState 0 0 0 (S n - 1) 0%Q).
  set (trace := AlignTime.fits Q fit AlignTime.better time (landing - takeoff)
                               (S n) fuel st0).
  intros Hret Hin Href Hdouble.
  assert (Hfit : forall s' e' r, In (s', e', r) trace -> fit s' e' = AlignTime.Fit r)
    by (intros s' e' r; apply fits_fit).
  assert (Hle1 : forall s' e' r, In (s', e', r) trace -> (r <= 1)%Q).
  { intros s' e' r Hr. apply Hfit in Hr. unfold fit, AlignTime.fit_window in Hr.
    destruct (AlignTime.window_reference time rt reference s' e');
      [|discriminate].
    apply (regression_at_most_one _ _ _ Hr). }
  pose proof (Hfit _ _ _ Hin) as Hse. unfold fit, AlignTime.fit_window in Hse.
  rewrite Href in Hse.
  destruct (regression_of_doubled _ _ _ Hdouble Hse) as [Hbeta HR2].
  split; [exact Hbeta|]. split; [exact HR2|].
  apply align_while_fold in Hret. fold trace in Hret.
  apply align_fold_first_max in Hret.
  destruct Hret as [[Hb Hall] | (pre & s' & e' & post & E & Ht & Hl & Hpre & _ & Hpost)].
  - exfalso. injection Hb as <- _ _.
    specialize (Hall _ Hin). unfold score in Hall. cbn [snd] in Hall. lra.
  - assert (Hm1 : (m == 1)%Q).
    { apply Qle_antisym.
      - apply (Hle1 s' e'). rewrite E. apply in_elt.
      - rewrite E in Hin. apply in_app_or in Hin.
        destruct Hin as [Hin | [Hin | Hin]].
        + specialize (Hpre _ Hin). unfold score in Hpre. cbn [snd] in Hpre. lra.
        + injection Hin as _ _ <-. lra.
        + specialize (Hpost _ Hin). unfold score in Hpost. cbn [snd] in Hpost. lra. }
    split; [exact Hm1|]. intros Hfirst. subst l.
    destruct (fits_increasing fit time (landing - takeoff) (S n) fuel st0) as [_ HS].
    fold trace in HS. rewrite E in HS. apply sorted_split in HS.
    destruct HS as [HS1 HS2].
    assert (Hs' : ~ (s' < s)%nat).
    { intros Hlt. specialize (Hfirst (s', e', m)). rewrite E in Hfirst.
      specialize (Hfirst (in_elt _ _ _) Hlt). unfold score in Hfirst.
      cbn [snd] in Hfirst. lra. }
    rewrite E in Hin. apply in_app_or in Hin.
    destruct Hin as [Hin | [Hin | Hin]].
    + exfalso. specialize (Hpre _ Hin). unfold score in Hpre. cbn [snd] in Hpre. lra.
    + injection Hin as _ <- _. reflexivity.
    + exfalso. specialize (HS2 _ Hin). unfold start_of in HS2. cbn [fst] in HS2. lia.
Qed.

Lemma align_time_doubled_reference_witness :
  exists reference_adjusted,
    AlignTime.window_reference
      [0; 10; 20; 30; 40; 50; 60; 70; 80; 90; 100; 110]
      (map (fun x => inject_Z (x - 0)) [0; 10; 20; 30; 40; 50; 60])
      [2; 4; 6; 8; 10; 12; 14]%Q 3 9
    = inl reference_adjusted
    /\ same_value
         (AlignTime.beta_hat
            (AlignTime.window_counts [5; 5; 5; 1; 2; 3; 4; 5; 6; 7; 9; 9] 3 9)
            reference_adjusted)
         (Some (1 # 2)%Q)
    /\ (28 # 28 == 1)%Q
    /\ 9%nat = 9%nat.
Proof.
  eexists. split; [vm_compute; reflexivity|].
  pose proof (align_time_doubled_reference
                30 [0; 10; 20; 30; 40; 50; 60; 70; 80; 90; 100; 110]
                [5; 5; 5; 1; 2; 3; 4; 5; 6; 7; 9; 9] 0 60
                [0; 10; 20; 30; 40; 50; 60] [2; 4; 6; 8; 10; 12; 14]%Q
                3 9 (28 # 28)%Q _ 4 9 (28 # 28)%Q
                ltac:(vm_compute; reflexivity)
                ltac:(vm_compute; right; right; right; left; reflexivity)
                ltac:(vm_compute; reflexivity)
                ltac:(repeat (constructor; [vm_compute; reflexivity|]); constructor))
    as (Hbeta & HR2 & _ & Hend).
  split; [exact Hbeta|]. split; [exact HR2|].
  apply Hend. intros w Hw.
  vm_compute in Hw.
  destruct Hw as [<- | [<- | [<- | [<- | [<- | [<- | []]]]]]];
    unfold start_of, score; cbn [fst snd]; intros Hs;
    try (exfalso; lia); unfold Qlt; cbn; lia.
Defined.

(** C3 as stated fails.  Device counts [1..7] at indices 3..9 against
    the reference [2, 4, .., 14]: over the window 3..9 the interpolated
    reference is exactly twice the counts, yet the takeoff index returned
    is 4 (the start is read after [window_start += 1]) and the slope of
    the counts on the reference is not 2. *)
Lemma align_time_doubled_reference_counterexample :
  exists reference_adjusted,
    AlignTime.window_reference
      [0; 10; 20; 30; 40; 50; 60; 70; 80; 90; 100; 110]
      (map (fun x => inject_Z (x - 0)) [0; 10; 20; 30; 40; 50; 60])
      [2; 4; 6; 8; 10; 12; 14]%Q 3 9
    = inl reference_adjusted
    /\ Forall2 (fun r c => (r == 2 * inject_Z c)%Q) reference_adjusted
               (AlignTime.window_counts [5; 5; 5; 1; 2; 3; 4; 5; 6; 7; 9; 9] 3 9)
    /\ AlignTime.align_time
         30 [0; 10; 20; 30; 40; 50; 60; 70; 80; 90; 100; 110]
         [5; 5; 5; 1; 2; 3; 4; 5; 6; 7; 9; 9] 0 60
         [0; 10; 20; 30; 40; 50; 60] [2; 4; 6; 8; 10; 12; 14]%Q
       = AlignTime.Returned 4 9 (28 # 28)%Q
    /\ ~ same_value
           (AlignTime.beta_hat
              (AlignTime.window_counts [5; 5; 5; 1; 2; 3; 4; 5; 6; 7; 9; 9] 3 9)
              reference_adjusted)
           (Some 2%Q).
Proof.
  eexists. split; [vm_compute; reflexivity|].
  split; [repeat (constructor; [vm_compute; reflexivity|]); constructor|].
  split; [vm_compute; reflexivity|].
  vm_compute. discriminate.
Qed.


(** In that run of [estimate_takeoff] the windows 2..5 and 3..6 both
    reach the maximal sum 150, and the later one is returned. *)
Lemma estimate_takeoff_tie_example :
  EstimateTakeoff.candidate_windows
    20 [1; 1; 1; 50; 50; 50; 50; 1; 1; 1]
    [0; 60; 120; 180; 240; 300; 360; 420; 480; 540] 240 100
  = [(0%nat, 3%nat, 52); (1%nat, 4%nat, 101); (2%nat, 5%nat, 150);
     (3%nat, 6%nat, 150); (4%nat, 7%nat, 101); (5%nat, 8%nat, 52);
     (6%nat, 9%nat, 3)]
  /\ EstimateTakeoff.estimate_takeoff
       20 [1; 1; 1; 50; 50; 50; 50; 1; 1; 1]
       [0; 60; 120; 180; 240; 300; 360; 420; 480; 540] 240 100
     = EstimateTakeoff.Returned 3 6.
Proof. split; vm_compute; reflexivity. Qed.

(** ** Whether the window searches return *)

Section AlignTermination.

Import AlignTime.

Variable R : Type.
Variable fit : nat -> nat -> fitted R.
Variable gt : R -> R -> bool.
Variable time : list Z.
Variable flight_duration : Z.
Variable size : nat.

Hypothesis time_size : length time = size.
Hypothesis fit_returns : forall s e ex, fit s e <> FitRaises ex.

Lemma nth_error_in_range (i : nat) :
  (i < size)%nat -> nth_error time i = Some (nth i time 0).
Proof. intros H. apply nth_error_nth'. lia. Qed.

Lemma find_end_returns (indices : list nat) (start : nat) :
  (start < size)%nat ->
  (forall i, In i indices -> (0 < i < size)%nat) ->
  exists we, find_end time flight_duration size indices start = inl we
             /\ (we < size)%nat.
Proof.
  intros Hs. induction indices as [|i rest IH]; intros Hin; cbn [find_end].
  - exists (size - 1)%nat. split; [reflexivity | lia].
  - rewrite (nth_error_in_range i) by (apply Hin; left; reflexivity).
    rewrite (nth_error_in_range start Hs).
    destruct (flight_duration <? _).
    + exists (i - 1)%nat. split; [reflexivity|].
      specialize (Hin i (or_introl eq_refl)). lia.
    + apply IH. intros j Hj. apply Hin. right. exact Hj.
Qed.

(** A pass that starts at least three samples before the end raises
    nothing, moves the window start by one, and either sets the window
    end to the last index or leaves three samples after the new start. *)
Lemma align_iteration_returns (st : state R) :
  (window_start st + 3 <= size)%nat ->
  exists st', iteration R fit gt time flight_duration size st = inl st'
              /\ window_start st' = (window_start st + 1)%nat
              /\ (window_end st' = (size - 1)%nat
                  \/ (window_start st' + 3 <= size)%nat).
Proof.
  intros Hs. unfold iteration.
  destruct (find_end_returns (range (window_end st + 1) size) (window_start st))
    as (we & F & Hwe); [lia | |].
  { intros i Hi. apply in_seq in Hi. lia. }
  rewrite F, (nth_error_in_range we Hwe), (nth_error_in_range (window_start st))
    by lia.
  destruct (2 * _ <? flight_duration); cbn [orb].
  - eexists. split; [reflexivity|]. cbn. lia.
  - destruct (Z.of_nat we - Z.of_nat (window_start st) <? 5) eqn:W.
    + eexists. split; [reflexivity|]. cbn. lia.
    + apply Z.ltb_ge in W.
      destruct (fit (window_start st) we) as [|R2|ex] eqn:F2.
      * eexists. split; [reflexivity|]. cbn. lia.
      * destruct (gt R2 (max_R2 st)); eexists; (split; [reflexivity|]); cbn; lia.
      * exfalso. exact (fit_returns _ _ _ F2).
Qed.

Lemma align_while_returns (fuel : nat) (st : state R) :
  window_end st = (size - 1)%nat \/ (window_start st + 3 <= size)%nat ->
  (size - 2 - window_start st <= fuel)%nat ->
  exists t l m,
    while R fit gt time flight_duration size fuel st = Returned t l m.
Proof.
  revert st. induction fuel as [|f IH]; intros st Hst Hf; cbn [while].
  - destruct (Nat.eqb _ _) eqn:E; [eexists; eexists; eexists; reflexivity|].
    apply Nat.eqb_neq in E. exfalso. destruct Hst as [H|H]; [congruence | lia].
  - destruct (Nat.eqb _ _) eqn:E; [eexists; eexists; eexists; reflexivity|].
    apply Nat.eqb_neq in E. destruct Hst as [H|H]; [congruence|].
    destruct (align_iteration_returns st H) as (st' & I & Hs' & Hst').
    rewrite I. apply IH; [exact Hst' | lia].
Qed.

End AlignTermination.

Section AlignScore.

Import AlignTime.

Variable fit : nat -> nat -> fitted Q.
Variable time : list Z.
Variable flight_duration : Z.
Variable size : nat.

Hypothesis fit_at_most_one : forall s e R2, fit s e = Fit R2 -> (R2 <= 1)%Q.

Lemma align_iteration_score (st st' : state Q) :
  (0 <= max_R2 st <= 1)%Q ->
  iteration Q fit better time flight_duration size st = inl st' ->
  (0 <= max_R2 st' <= 1)%Q.
Proof.
  intros Hm. unfold iteration.
  destruct (find_end _ _ _ _ _) as [we|e]; [|discriminate].
  destruct (nth_error time we); [|discriminate].
  destruct (nth_error time (window_start st)); [|discriminate].
  destruct (_ || _).
  - intros H. injection H as <-. exact Hm.
  - destruct (fit _ _) as [|R2|e] eqn:F; [| |discriminate].
    + intros H. injection H as <-. exact Hm.
    + destruct (better R2 (max_R2 st)) eqn:B; intros H; injection H as <-;
        [|exact Hm].
      cbn. apply Qltb_lt in B. split; [|apply (fit_at_most_one _ _ _ F)].
      apply Qlt_le_weak. apply (Qle_lt_trans _ _ _ (proj1 Hm) B).
Qed.

Lemma align_while_score (fuel : nat) (st : state Q) (t l : nat) (m : Q) :
  (0 <= max_R2 st <= 1)%Q ->
  while Q fit better time flight_duration size fuel st = Returned t l m ->
  (0 <= m <= 1)%Q.
Proof.
  revert st. induction fuel as [|f IH]; intros st Hm; cbn [while].
  - destruct (Nat.eqb _ _); [|discriminate].
    intros H. injection H as _ _ <-. exact Hm.
  - destruct (Nat.eqb _ _).
    + intros H. injection H as _ _ <-. exact Hm.
    + destruct (iteration _ _ _ _ _ _ _) as [st'|e] eqn:I; [|discriminate].
      apply IH. apply (align_iteration_score st st' Hm I).
Qed.

End AlignScore.

Lemma np_interp_returns (x xp fp : list Q) :
  length xp = length fp -> fp <> [] -> exists y, np_interp x xp fp = inl y.
Proof.
  intros Hl Hne. unfold np_interp. rewrite Hl, Nat.eqb_refl. cbn [negb].
  destruct xp as [|x0 xp], fp as [|f0 fp]; try discriminate; [congruence|].
  cbn [combine]. eexists; reflexivity.
Qed.

Lemma fit_window_returns (time cnt_1mn : list Z) (reference_times reference : list Q)
  (s e : nat) (ex : exn) :
  length reference_times = length reference -> reference <> [] ->
  AlignTime.fit_window time cnt_1mn reference_times reference s e
  <> AlignTime.FitRaises ex.
Proof.
  intros Hl Hne. unfold AlignTime.fit_window, AlignTime.window_reference.
  destruct (np_interp_returns
              (map (fun t => inject_Z (t - (nth s time 0 - nth 0 time 0)))
                   (slice (map (fun d => d - nth 0 time 0) time) s (e + 1)))
              reference_times reference Hl Hne) as [y ->].
  unfold AlignTime.regression.
  destruct (AlignTime.beta_hat _ _); [|discriminate].
  destruct (Qltb _ _); [discriminate|].
  destruct (Qeq_bool _ _); discriminate.
Qed.

Lemma fit_window_at_most_one (time cnt_1mn : list Z)
  (reference_times reference : list Q) (s e : nat) (R2 : Q) :
  AlignTime.fit_window time cnt_1mn reference_times reference s e
  = AlignTime.Fit R2 -> (R2 <= 1)%Q.
Proof.
  unfold AlignTime.fit_window.
  destruct (AlignTime.window_reference _ _ _ _ _); [|discriminate].
  apply regression_at_most_one.
Qed.

(** X9.  Whenever [align_time] returns, the indices satisfy
    [0 <= takeoff_idx <= landing_idx < n] and the R2 it returns lies
    between 0 and 1: a window is kept only when its R2 exceeds the best
    so far, which starts at 0, and no R2 exceeds 1. *)
Theorem align_time_score_in_unit_interval (fuel : nat) (time cnt_1mn : list Z)
  (takeoff landing : Z) (flight_time : list Z) (reference : list Q)
  (t l : nat) (m : Q) :
  AlignTime.align_time fuel time cnt_1mn takeoff landing flight_time reference
  = AlignTime.Returned t l m ->
  (t <= l < length time)%nat /\ (0 <= m <= 1)%Q.
Proof.
  intros H. split; [apply (align_run_contained _ _ _ _ _ _ _ _ _ _ _ H)|].
  revert H. unfold AlignTime.align_time, AlignTime.run.
  destruct (length time); [discriminate|].
  apply align_while_score.
  - intros s e R2. apply fit_window_at_most_one.
  - cbn. split; [apply Qle_refl | discriminate].
Qed.

Lemma align_time_score_in_unit_interval_witness :
  (4 <= 9 < length [0; 10; 20; 30; 40; 50; 60; 70; 80; 90; 100; 110])%nat
  /\ (0 <= 28 # 28 <= 1)%Q.
Proof.
  apply (align_time_score_in_unit_interval
           30 [0; 10; 20; 30; 40; 50; 60; 70; 80; 90; 100; 110]
           [5; 5; 5; 1; 2; 3; 4; 5; 6; 7; 9; 9] 0 60
           [0; 10; 20; 30; 40; 50; 60] [2; 4; 6; 8; 10; 12; 14]%Q).
  vm_compute. reflexivity.
Defined.



Section EstimateTermination.

Import EstimateTakeoff.

Variable time : list Z.
Variable flight_duration : Z.
Variable cumsum_arr : list Z.
Variable size : nat.

Hypothesis time_size : length time = size.
Hypothesis cumsum_size : length cumsum_arr = size.
Hypothesis positive_duration : 0 < flight_duration.

Lemma time_in_range (i : nat) :
  (i < size)%nat -> nth_error time i = Some (nth i time 0).
Proof. intros H. apply nth_error_nth'. lia. Qed.

(** The scan from [window_stop + 1] to the end of the data, for a start
    within the data: it raises nothing, and it ends either on the last
    index, every sample up to it being less than a flight duration after
    the start, or just before the first sample that is not. *)
Lemma scan_returns (len a start stop : nat) (d : option Z) :
  (a + len = size)%nat -> (0 < len)%nat -> (stop + 1 = a)%nat ->
  (start < size)%nat ->
  exists stop' d',
    scan time flight_duration (seq a len) start stop d = inl (stop', Some d')
    /\ (stop <= stop')%nat
    /\ ((stop' = (size - 1)%nat /\ d' = nth (size - 1) time 0 - nth start time 0
         /\ d' < flight_duration)
        \/ ((stop' + 1 < size)%nat /\ d' = nth (stop' + 1) time 0 - nth start time 0
            /\ flight_duration <= d')).
Proof.
  intros Ha Hlen Hstop Hs. revert a stop d Ha Hlen Hstop.
  induction len as [|len IH]; intros a stop d Ha Hlen Hstop; [lia|].
  cbn [seq scan].
  rewrite (time_in_range a) by lia. rewrite (time_in_range start Hs).
  destruct (nth a time 0 - nth start time 0 <? flight_duration) eqn:E.
  - apply Z.ltb_lt in E. destruct len as [|len'].
    + cbn [seq scan]. exists a, (nth a time 0 - nth start time 0).
      split; [reflexivity|]. split; [lia|]. left.
      replace (size - 1)%nat with a by lia. auto.
    + destruct (IH (S a) a (Some (nth a time 0 - nth start time 0))) as (stop' & d' & Hscan & Hle & Hcase);
        [lia | lia | lia |].
      exists stop', d'. split; [exact Hscan|]. split; [lia | exact Hcase].
  - apply Z.ltb_ge in E. exists stop, (nth a time 0 - nth start time 0).
    split; [reflexivity|]. split; [lia|]. right.
    replace (stop + 1)%nat with a by lia. split; [lia | auto].
Qed.

Hypothesis two_samples : (2 <= size)%nat.
Hypothesis last_is_latest : forall i, (i + 1 < size)%nat -> nth i time 0 < nth (size - 1) time 0.

Section Returns.

Hypothesis last_gap : nth (size - 1) time 0 - nth (size - 2) time 0 < flight_duration.

Lemma estimate_iteration_returns (st : state) :
  scanning time flight_duration size st ->
  exists st', iteration time flight_duration cumsum_arr size st = inl st'
              /\ window_start st' = (window_start st + 1)%nat
              /\ (window_stop st' = (size - 1)%nat \/ scanning time flight_duration size st').
Proof.
  intros (He & Hse & Hgap). unfold iteration, range.
  assert (Hs : (window_start st + 1 < size)%nat).
  { destruct (Nat.eq_dec (window_start st) (window_stop st + 1)) as [E|E]; [|lia].
    specialize (Hgap E).
    destruct (Nat.eq_dec (window_stop st + 2) size) as [E2|E2]; [|lia].
    exfalso. replace (window_stop st + 1)%nat with (size - 1)%nat in Hgap by lia.
    replace (window_stop st) with (size - 2)%nat in Hgap by lia. lia. }
  destruct (scan_returns (size - (window_stop st + 1)) (window_stop st + 1)
              (window_start st) (window_stop st) (dt st))
    as (stop' & d' & Hscan & Hle & Hcase); [lia | lia | lia | lia |].
  rewrite Hscan.
  assert (Hd : 0 < d').
  { destruct Hcase as [(_ & -> & _) | (_ & _ & H)]; [|lia].
    specialize (last_is_latest (window_start st) Hs). lia. }
  replace (d' <=? 0) with false by (symmetry; apply Z.leb_gt; exact Hd).
  assert (Hstop : (stop' < size)%nat) by (destruct Hcase as [(-> & _) | (H & _)]; lia).
  assert (Hstart : (window_start st <= stop')%nat).
  { destruct (Nat.eq_dec (window_start st) (window_stop st + 1)) as [E|E]; [|lia].
    destruct Hcase as [(-> & _) | (H1 & H2 & H3)]; [lia|].
    destruct (Nat.eq_dec stop' (window_stop st)) as [->|N]; [|lia].
    exfalso. rewrite <- E in H2. lia. }
  rewrite (nth_error_nth' cumsum_arr 0) by lia.
  rewrite (nth_error_nth' cumsum_arr 0) by lia.
  assert (Hnext : stop' = (size - 1)%nat
                  \/ scanning time flight_duration size (mkState (window_start st + 1) stop' (Some d')
                                       (max_sum st) (takeoff_idx st) (landing_idx st))).
  { destruct Hcase as [(-> & _) | (H1 & H2 & H3)]; [left; reflexivity|].
    right. unfold scanning. cbn. split; [exact H1|]. split; [lia|].
    intros E. replace stop' with (window_start st) in * by lia. lia. }
  destruct (max_sum st <=? _); eexists; (split; [reflexivity|]); cbn;
    (split; [reflexivity|]); exact Hnext.
Qed.

Lemma estimate_while_returns (fuel : nat) (st : state) :
  window_stop st = (size - 1)%nat \/ scanning time flight_duration size st ->
  (size - window_start st <= fuel)%nat ->
  exists t l, while time flight_duration cumsum_arr size fuel st = Returned t l.
Proof.
  revert st. induction fuel as [|f IH]; intros st Hst Hf; cbn [while].
  - destruct (Nat.eqb _ _) eqn:E; [eexists; eexists; reflexivity|].
    apply Nat.eqb_neq in E. exfalso.
    destruct Hst as [H|(H1 & H2 & _)]; [congruence | lia].
  - destruct (Nat.eqb _ _) eqn:E; [eexists; eexists; reflexivity|].
    apply Nat.eqb_neq in E. destruct Hst as [H|H]; [congruence|].
    destruct (estimate_iteration_returns st H) as (st' & I & Hs' & Hst').
    rewrite I. apply IH; [exact Hst' | lia].
Qed.

End Returns.

Section Diverges.

Hypothesis increasing : forall i j, (i <= j < size)%nat -> nth i time 0 <= nth j time 0.
Hypothesis last_gap : flight_duration <= nth (size - 1) time 0 - nth (size - 2) time 0.

Lemma estimate_iteration_misses (st : state) :
  scanning time flight_duration size st ->
  exists st', iteration time flight_duration cumsum_arr size st = inl st'
              /\ (scanning time flight_duration size st' \/ overshot size st').
Proof.
  intros (He & Hse & Hgap). unfold iteration, range.
  destruct (scan_returns (size - (window_stop st + 1)) (window_stop st + 1)
              (window_start st) (window_stop st) (dt st))
    as (stop' & d' & Hscan & Hle & Hcase); [lia | lia | lia | lia |].
  rewrite Hscan.
  destruct Hcase as [(-> & -> & Hlt) | (H1 & H2 & H3)].
  - assert (Hs : window_start st = (size - 1)%nat).
    { destruct (Nat.eq_dec (window_start st) (size - 1)) as [E|E]; [exact E|].
      exfalso. specialize (increasing (window_start st) (size - 2)%nat ltac:(lia)).
      lia. }
    rewrite Hs.
    replace (nth (size - 1) time 0 - nth (size - 1) time 0 <=? 0) with true
      by (symmetry; apply Z.leb_le; lia).
    eexists. split; [reflexivity|]. right. unfold overshot. cbn.
    split; [lia|]. split; [reflexivity|]. eexists. split; [reflexivity | lia].
  - replace (d' <=? 0) with false by (symmetry; apply Z.leb_gt; lia).
    assert (Hstart : (window_start st <= stop')%nat).
    { destruct (Nat.eq_dec (window_start st) (window_stop st + 1)) as [E|E]; [|lia].
      destruct (Nat.eq_dec stop' (window_stop st)) as [->|N]; [|lia].
      exfalso. rewrite <- E in H2. lia. }
    rewrite (nth_error_nth' cumsum_arr 0) by lia.
    rewrite (nth_error_nth' cumsum_arr 0) by lia.
    assert (Hnext : scanning time flight_duration size (mkState (window_start st + 1) stop' (Some d')
                                      (max_sum st) (takeoff_idx st) (landing_idx st))).
    { unfold scanning. cbn. split; [exact H1|]. split; [lia|].
      intros E. replace stop' with (window_start st) in * by lia. lia. }
    destruct (max_sum st <=? _); eexists; (split; [reflexivity|]); left; exact Hnext.
Qed.

Lemma estimate_while_never_returns (fuel : nat) (st : state) :
  scanning time flight_duration size st ->
  while time flight_duration cumsum_arr size fuel st = OutOfFuel.
Proof.
  revert st. induction fuel as [|f IH]; intros st Hst; cbn [while];
    (replace (Nat.eqb (window_stop st) (size - 1)) with false
      by (symmetry; apply Nat.eqb_neq; destruct Hst; lia)); [reflexivity|].
  destruct (estimate_iteration_misses st Hst) as (st' & I & [H|H]).
  - rewrite I. apply IH, H.
  - rewrite I. destruct H as (H1 & H2 & d & H3 & H4).
    apply estimate_overshoot_diverges with (d := d); assumption.
Qed.

End Diverges.

End EstimateTermination.

Lemma strictly_increasing_nth (T : list Z) (i j : nat) :
  strictly_increasing T -> (i < j < length T)%nat -> nth i T 0 < nth j T 0.
Proof.
  intros H [Hij Hj]. induction j as [|j IH]; [lia|].
  assert (S : nth j T 0 < nth (S j) T 0).
  { apply (H j); apply nth_error_nth'; lia. }
  destruct (Nat.eq_dec i j) as [->|N]; [exact S|].
  specialize (IH ltac:(lia) ltac:(lia)). lia.
Qed.

Lemma clipped_counts_length (max_diff : Z) (cnt : list Z) :
  length (EstimateTakeoff.clipped_counts max_diff cnt) = length cnt.
Proof.
  destruct cnt as [|c0 r]; [reflexivity|].
  unfold EstimateTakeoff.clipped_counts.
  assert (R : forall p d, length (EstimateTakeoff.rebuild p d) = length d).
  { intros p d. revert p. induction d as [|x d IH]; intros p;
      cbn [EstimateTakeoff.rebuild length]; [reflexivity | rewrite IH; reflexivity]. }
  cbn [length]. rewrite R, length_map.
  assert (D : forall l : list Z, length (diffs l) = (length l - 1)%nat).
  { induction l as [|x l IH]; [reflexivity|].
    destruct l as [|y l]; [reflexivity|].
    change (diffs (x :: y :: l)) with ((y - x) :: diffs (y :: l)).
    cbn [length] in *. lia. }
  rewrite D. cbn [length]. lia.
Qed.

(** X7.  On strictly increasing timestamps, at least two of them, and a
    positive flight duration, [estimate_takeoff] returns exactly when
    the last two samples are less than the flight duration apart: then
    it returns within [n] passes of its loop, with indices
    [0 <= takeoff_idx <= landing_idx < n]; otherwise its loop never
    exits. *)
Theorem estimate_takeoff_returns_iff_last_gap_short (cnt_5sc time : list Z)
  (flight_duration max_diff : Z) :
  length time = length cnt_5sc -> (2 <= length time)%nat ->
  strictly_increasing time -> 0 < flight_duration ->
  let n := length time in
  let last_gap := nth (n - 1) time 0 - nth (n - 2) time 0 in
  (last_gap < flight_duration ->
   exists t l,
     EstimateTakeoff.estimate_takeoff n cnt_5sc time flight_duration max_diff
     = EstimateTakeoff.Returned t l
     /\ (t <= l < n)%nat)
  /\ (flight_duration <= last_gap ->
      forall fuel,
        EstimateTakeoff.estimate_takeoff fuel cnt_5sc time flight_duration max_diff
        = EstimateTakeoff.OutOfFuel).
Proof.
  intros Hlen Hn Hinc HD n last_gap.
  assert (Hcs : length (cumsum (EstimateTakeoff.clipped_counts max_diff cnt_5sc)) = n).
  { unfold cumsum.
    assert (C : forall a l, length (cumsum_from a l) = length l).
    { intros a l. revert a. induction l as [|x l IH]; intros a;
        cbn [cumsum_from length]; [reflexivity | rewrite IH; reflexivity]. }
    rewrite C, clipped_counts_length. unfold n. lia. }
  assert (Hscan0 : scanning time flight_duration n
                     (EstimateTakeoff.mkState 0 0 None 0 0 (n - 1))).
  { unfold scanning. cbn. repeat split; try lia. }
  split.
  - intros Hgap.
    assert (E : exists t l,
               EstimateTakeoff.estimate_takeoff n cnt_5sc time flight_duration max_diff
               = EstimateTakeoff.Returned t l).
    { unfold EstimateTakeoff.estimate_takeoff.
      destruct cnt_5sc as [|c0 r] eqn:Ec; [cbn in Hlen; lia|]. rewrite <- Ec in *.
      replace (length cnt_5sc) with n by (unfold n; lia).
      apply estimate_while_returns; try assumption; try reflexivity.
      - intros i Hi. apply strictly_increasing_nth; [exact Hinc | fold n; lia].
      - right. exact Hscan0.
      - cbn. lia. }
    destruct E as (t & l & E). exists t, l. split; [exact E|].
    pose proof (estimate_takeoff_contained _ _ _ _ _ _ _ HD E). unfold n. lia.
  - intros Hgap fuel. unfold EstimateTakeoff.estimate_takeoff.
    destruct cnt_5sc as [|c0 r] eqn:Ec; [cbn in Hlen; lia|]. rewrite <- Ec in *.
    replace (length cnt_5sc) with n by (unfold n; lia).
    apply estimate_while_never_returns; try assumption; try reflexivity.
    intros i j Hij. destruct (Nat.eq_dec i j) as [->|N]; [lia|].
    apply Z.lt_le_incl, strictly_increasing_nth; [exact Hinc | fold n; lia].
Qed.

Lemma estimate_takeoff_returns_iff_last_gap_short_witness :
  let time := [0; 60; 120; 180; 240; 300; 360; 420; 480; 540] in
  let cnt := [1; 1; 1; 50; 50; 50; 50; 1; 1; 1] in
  (60 < 240 ->
   exists t l,
     EstimateTakeoff.estimate_takeoff 10 cnt time 240 100
     = EstimateTakeoff.Returned t l /\ (t <= l < 10)%nat)
  /\ (240 <= 60 ->
      forall fuel,
        EstimateTakeoff.estimate_takeoff fuel cnt time 240 100
        = EstimateTakeoff.OutOfFuel).
Proof.
  apply (estimate_takeoff_returns_iff_last_gap_short
           [1; 1; 1; 50; 50; 50; 50; 1; 1; 1]
           [0; 60; 120; 180; 240; 300; 360; 420; 480; 540] 240 100);
    [reflexivity | cbn; lia | | lia].
  apply strictly_increasing_diffs. intros d H. cbn in H. intuition lia.
Defined.

(** ** The scaling factor *)

Lemma Qmult_comm_eq (a b : Q) : Qmult a b = Qmult b a.
Proof. unfold Qmult. f_equal; [apply Z.mul_comm | apply Pos.mul_comm]. Qed.

Lemma map2_Qmult_comm (a b : list Q) : map2 Qmult a b = map2 Qmult b a.
Proof.
  revert b. induction a as [|x a IH]; intros [|y b]; cbn [map2]; try reflexivity.
  rewrite IH, Qmult_comm_eq. reflexivity.
Qed.



(** ** Longitudes *)

Import Longitude.

(** C8 (the code departs from it).  On the one-element sequence [180]
    nothing is unravelled, and [ravel_lon] maps 180 to
    (180 + 180) % 360 - 180 = -180, the same angle but outside
    (-180, 180]. *)
Theorem ravel_unravel_leaves_range (fuel : nat) :
  option_map ravel_lon (unravel_lon fuel [180%Q]) = Some [(-180)%Q]
  /\ same_angle (-180) 180
  /\ ~ in_range (-180).
Proof.
  split; [destruct fuel; vm_compute; reflexivity|]. split.
  - exists (-1). vm_compute. reflexivity.
  - unfold in_range. intros [H _]. revert H. vm_compute. discriminate.
Qed.

Lemma same_angle_refl (x : Q) : same_angle x x.
Proof. exists 0. cbn. ring. Qed.

Lemma same_angle_trans (x y z : Q) :
  same_angle x y -> same_angle y z -> same_angle x z.
Proof.
  intros [k Hk] [j Hj]. exists (k + j). rewrite inject_Z_plus.
  setoid_replace (x - z)%Q with ((x - y) + (y - z))%Q by ring.
  rewrite Hk, Hj. ring.
Qed.

Lemma lower_same_angle (fuel : nat) (prev x x' : Q) :
  lower fuel prev x = Some x' ->
  same_angle x' x /\ (x' - prev <= 180)%Q /\ (x - prev <= 180 -> x' = x)%Q.
Proof.
  revert x. induction fuel as [|f IH]; intros x; cbn [lower];
    destruct (Qltb 180 (x - prev)) eqn:E; try discriminate.
  - apply Qltb_ge in E. intros H. injection H as <-.
    split; [apply same_angle_refl|]. split; [exact E | reflexivity].
  - apply Qltb_lt in E. intros H. apply IH in H. destruct H as [[k Hk] [Hb _]].
    split; [|split; [exact Hb | intros L; lra]].
    exists (k + -1). rewrite inject_Z_plus.
    setoid_replace (x' - x)%Q with ((x' - (x - 360)) - 360)%Q by ring.
    rewrite Hk. change (inject_Z (-1)) with (-1)%Q. ring.
  - apply Qltb_ge in E. intros H. injection H as <-.
    split; [apply same_angle_refl|]. split; [exact E | reflexivity].
Qed.

Lemma lift_same_angle (fuel : nat) (prev x x' : Q) :
  (x - prev <= 180)%Q ->
  lift fuel prev x = Some x' ->
  same_angle x' x /\ (-180 <= x' - prev <= 180)%Q.
Proof.
  revert x. induction fuel as [|f IH]; intros x Hx; cbn [lift];
    destruct (Qltb (x - prev) (-180)) eqn:E; try discriminate.
  - apply Qltb_ge in E. intros H. injection H as <-.
    split; [apply same_angle_refl|]. split; [exact E | exact Hx].
  - apply Qltb_lt in E. intros H. apply IH in H; [|lra].
    destruct H as [[k Hk] Hb]. split; [|exact Hb].
    exists (k + 1). rewrite inject_Z_plus.
    setoid_replace (x' - x)%Q with ((x' - (x + 360)) + 360)%Q by ring.
    rewrite Hk. change (inject_Z 1) with 1%Q. ring.
  - apply Qltb_ge in E. intros H. injection H as <-.
    split; [apply same_angle_refl|]. split; [exact E | exact Hx].
Qed.

Lemma Qmod_360_range (x : Q) : (0 <= Qmod x 360 < 360)%Q.
Proof.
  unfold Qmod. set (q := (x / 360)%Q).
  assert (Hx : (x == 360 * q)%Q) by (unfold q; field).
  pose proof (Qfloor_le q) as H1. pose proof (Qlt_floor q) as H2.
  rewrite inject_Z_plus in H2. change (inject_Z 1) with 1%Q in H2.
  split; lra.
Qed.

Lemma ravel1_spec (x : Q) :
  same_angle (ravel1 x) x /\ (-180 <= ravel1 x < 180)%Q.
Proof.
  unfold ravel1. pose proof (Qmod_360_range (x + 180)) as H. split; [|lra].
  exists (- Qfloor ((x + 180) / 360)). unfold Qmod. rewrite inject_Z_opp. ring.
Qed.

Lemma unravel_from_same_angle (fuel : nat) (prev : Q) (rest u : list Q) :
  unravel_from fuel prev rest = Some u -> Forall2 same_angle u rest.
Proof.
  revert prev u. induction rest as [|x r IH]; intros prev u; cbn [unravel_from].
  - intros H. injection H as <-. constructor.
  - destruct (lower fuel prev x) as [x1|] eqn:L; [|discriminate].
    destruct (lift fuel prev x1) as [x2|] eqn:U; [|discriminate].
    destruct (unravel_from fuel x2 r) as [r'|] eqn:R; [|discriminate].
    intros H. injection H as <-.
    apply lower_same_angle in L. destruct L as [L1 [L2 _]].
    apply lift_same_angle in U; [|exact L2]. destruct U as [U1 _].
    constructor; [apply (same_angle_trans _ _ _ U1 L1) | apply (IH _ _ R)].
Qed.

(** What does hold of the round trip: whenever the unravelling loops
    finish, each output element of [ravel_lon(unravel_lon(x))] is the
    same angle as the input element and lies in [-180, 180). *)
Lemma ravel_unravel_half_open (fuel : nat) (lon u : list Q) :
  unravel_lon fuel lon = Some u ->
  Forall2 (fun y x => same_angle y x /\ (-180 <= y < 180)%Q) (ravel_lon u) lon.
Proof.
  intros H.
  assert (HU : Forall2 same_angle u lon).
  { destruct lon as [|x0 r]; cbn [unravel_lon] in H.
    - injection H as <-. constructor.
    - destruct (unravel_from fuel x0 r) as [r'|] eqn:R; [|discriminate].
      injection H as <-.
      constructor; [apply same_angle_refl | apply (unravel_from_same_angle _ _ _ _ R)]. }
  unfold ravel_lon. clear H. induction HU as [|y x u' lon' Hyx _ IH]; cbn [map].
  - constructor.
  - constructor; [|exact IH].
    destruct (ravel1_spec y) as [H1 H2]. split; [|exact H2].
    apply (same_angle_trans _ _ _ H1 Hyx).
Qed.

(** The unravelling loops finish: some number of passes is enough for
    every sequence of (finite, exact) longitudes, and more passes do not
    change the result. *)
Lemma archimedes (q : Q) : exists n : nat, (q <= inject_Z (Z.of_nat n))%Q.
Proof.
  exists (Z.to_nat (Qceiling q)).
  apply (Qle_trans _ _ _ (Qle_ceiling q)). rewrite <- Zle_Qle. lia.
Qed.

Lemma inject_succ (n : nat) :
  (inject_Z (Z.of_nat (S n)) == inject_Z (Z.of_nat n) + 1)%Q.
Proof. rewrite Nat2Z.inj_succ. unfold Z.succ. rewrite inject_Z_plus. reflexivity. Qed.

Lemma lower_enough (n : nat) (prev x : Q) :
  (x - prev <= 180 + 360 * inject_Z (Z.of_nat n))%Q ->
  exists x', lower n prev x = Some x'.
Proof.
  revert x. induction n as [|f IH]; intros x Hx; cbn [lower];
    destruct (Qltb 180 (x - prev)) eqn:E; try (eexists; reflexivity).
  - apply Qltb_lt in E. change (inject_Z (Z.of_nat 0)) with 0%Q in Hx. lra.
  - apply IH. rewrite inject_succ in Hx. lra.
Qed.

Lemma lift_enough (n : nat) (prev x : Q) :
  (- 180 - 360 * inject_Z (Z.of_nat n) <= x - prev)%Q ->
  exists x', lift n prev x = Some x'.
Proof.
  revert x. induction n as [|f IH]; intros x Hx; cbn [lift];
    destruct (Qltb (x - prev) (-180)) eqn:E; try (eexists; reflexivity).
  - apply Qltb_lt in E. change (inject_Z (Z.of_nat 0)) with 0%Q in Hx. lra.
  - apply IH. rewrite inject_succ in Hx. lra.
Qed.

Lemma lower_more_fuel (f f' : nat) (prev x x' : Q) :
  (f <= f')%nat -> lower f prev x = Some x' -> lower f' prev x = Some x'.
Proof.
  revert f' x. induction f as [|f IH]; intros f' x Hf; cbn [lower].
  - destruct (Qltb 180 (x - prev)) eqn:E; [discriminate|].
    intros H. destruct f'; cbn [lower]; rewrite E; exact H.
  - destruct f' as [|f']; [lia|]. cbn [lower].
    destruct (Qltb 180 (x - prev)); [|auto]. apply IH. lia.
Qed.

Lemma lift_more_fuel (f f' : nat) (prev x x' : Q) :
  (f <= f')%nat -> lift f prev x = Some x' -> lift f' prev x = Some x'.
Proof.
  revert f' x. induction f as [|f IH]; intros f' x Hf; cbn [lift].
  - destruct (Qltb (x - prev) (-180)) eqn:E; [discriminate|].
    intros H. destruct f'; cbn [lift]; rewrite E; exact H.
  - destruct f' as [|f']; [lia|]. cbn [lift].
    destruct (Qltb (x - prev) (-180)); [|auto]. apply IH. lia.
Qed.

Lemma unravel_from_more_fuel (f f' : nat) (prev : Q) (rest u : list Q) :
  (f <= f')%nat ->
  unravel_from f prev rest = Some u -> unravel_from f' prev rest = Some u.
Proof.
  intros Hf. revert prev u.
  induction rest as [|x r IH]; intros prev u; cbn [unravel_from]; [auto|].
  destruct (lower f prev x) as [x1|] eqn:L; [|discriminate].
  rewrite (lower_more_fuel f f' _ _ _ Hf L).
  destruct (lift f prev x1) as [x2|] eqn:U; [|discriminate].
  rewrite (lift_more_fuel f f' _ _ _ Hf U).
  destruct (unravel_from f x2 r) as [r'|] eqn:R; [|discriminate].
  rewrite (IH _ _ R). auto.
Qed.

Lemma unravel_from_terminates (prev : Q) (rest : list Q) :
  exists fuel u, unravel_from fuel prev rest = Some u.
Proof.
  revert prev. induction rest as [|x r IH]; intros prev.
  - exists 0%nat, []. reflexivity.
  - destruct (archimedes ((x - prev - 180) / 360)) as [n1 Hn1].
    destruct (lower_enough n1 prev x) as [x1 L].
    { apply (Qmult_le_compat_r _ _ 360) in Hn1; [|lra].
      setoid_replace ((x - prev - 180) / 360 * 360)%Q with (x - prev - 180)%Q
        in Hn1 by field.
      revert Hn1. generalize (inject_Z (Z.of_nat n1)). intros k Hk. lra. }
    destruct (archimedes ((- 180 - (x1 - prev)) / 360)) as [n2 Hn2].
    destruct (lift_enough n2 prev x1) as [x2 U].
    { apply (Qmult_le_compat_r _ _ 360) in Hn2; [|lra].
      setoid_replace ((- 180 - (x1 - prev)) / 360 * 360)%Q
        with (- 180 - (x1 - prev))%Q in Hn2 by field.
      revert Hn2. generalize (inject_Z (Z.of_nat n2)). intros k Hk. lra. }
    destruct (IH x2) as [n3 [r' R]].
    set (fuel := Nat.max n1 (Nat.max n2 n3)).
    assert (H1 : (n1 <= fuel)%nat) by (unfold fuel; lia).
    assert (H2 : (n2 <= fuel)%nat) by (unfold fuel; lia).
    assert (H3 : (n3 <= fuel)%nat) by (unfold fuel; lia).
    exists fuel, (x2 :: r'). cbn [unravel_from].
    rewrite (lower_more_fuel n1 fuel _ _ _ H1 L).
    rewrite (lift_more_fuel n2 fuel _ _ _ H2 U).
    rewrite (unravel_from_more_fuel n3 fuel _ _ _ H3 R). reflexivity.
Qed.

Lemma unravel_lon_terminates (lon : list Q) :
  exists fuel u, unravel_lon fuel lon = Some u.
Proof.
  destruct lon as [|x0 r].
  - exists 0%nat, []. reflexivity.
  - destruct (unravel_from_terminates x0 r) as [fuel [u H]].
    exists fuel, (x0 :: u). cbn [unravel_lon]. rewrite H. reflexivity.
Qed.

(** The scenario of the specification: a track crossing the date line. *)
Lemma unravel_date_line (fuel : nat) :
  unravel_lon (S fuel) [170; 175; -179; -170]%Q = Some [170; 175; 181; 190]%Q.
Proof. destruct fuel; vm_compute; reflexivity. Qed.

(** *** What unravelling and ravelling keep *)

Lemma same_angle_canonical (x y : Q) :
  same_angle x y -> canonical x -> canonical y -> (x == y)%Q.
Proof.
  intros [k Hk] [H1 H2] [H3 H4].
  assert (K : k = 0).
  { assert (A : (-1 < inject_Z k)%Q) by lra.
    assert (B : (inject_Z k < 1)%Q) by lra.
    change (-1)%Q with (inject_Z (-1)) in A. change 1%Q with (inject_Z 1) in B.
    rewrite <- Zlt_Qlt in A, B. lia. }
  subst k. change (inject_Z 0) with 0%Q in Hk. lra.
Qed.


Lemma unravel_from_steps (fuel : nat) (prev : Q) (rest u : list Q) :
  unravel_from fuel prev rest = Some u ->
  half_turn_steps (prev :: u).
Proof.
  revert prev u. induction rest as [|x r IH]; intros prev u; cbn [unravel_from].
  - intros H. injection H as <-. intros [|i] a b Ha Hb; [discriminate|].
    destruct i; discriminate.
  - destruct (lower fuel prev x) as [x1|] eqn:L; [|discriminate].
    destruct (lift fuel prev x1) as [x2|] eqn:U; [|discriminate].
    destruct (unravel_from fuel x2 r) as [r'|] eqn:R; [|discriminate].
    intros H. injection H as <-.
    apply lower_same_angle in L. destruct L as [_ [L2 _]].
    apply lift_same_angle in U; [|exact L2]. destruct U as [_ U2].
    specialize (IH _ _ R). intros [|i] a b Ha Hb.
    + cbn in Ha, Hb. injection Ha as <-. injection Hb as <-. exact U2.
    + apply (IH i a b); assumption.
Qed.

Lemma unravel_lon_more_fuel (f f' : nat) (lon u : list Q) :
  (f <= f')%nat -> unravel_lon f lon = Some u -> unravel_lon f' lon = Some u.
Proof.
  intros Hf. destruct lon as [|x0 r]; cbn [unravel_lon]; [auto|].
  destruct (unravel_from f x0 r) as [r'|] eqn:R; [|discriminate].
  rewrite (unravel_from_more_fuel f f' _ _ _ Hf R). auto.
Qed.

Lemma unravel_lon_spec (fuel : nat) (lon u : list Q) :
  unravel_lon fuel lon = Some u ->
  Forall2 same_angle u lon /\ nth_error u 0 = nth_error lon 0 /\ half_turn_steps u.
Proof.
  destruct lon as [|x0 r]; cbn [unravel_lon].
  - intros H. injection H as <-. split; [constructor|]. split; [reflexivity|].
    intros [|i] a b Ha; discriminate.
  - destruct (unravel_from fuel x0 r) as [r'|] eqn:R; [|discriminate].
    intros H. injection H as <-. split; [|split].
    + constructor; [apply same_angle_refl | apply (unravel_from_same_angle _ _ _ _ R)].
    + reflexivity.
    + apply (unravel_from_steps _ _ _ _ R).
Qed.




(** ** The processed-log round trip *)

Module ProcessedLogFacts.

Import String Ascii ProcessedLog.
Local Open Scope list_scope.
Local Open Scope string_scope.

(** *** Searching a text *)

Lemma all_chars_impl (p q : ascii -> bool) (s : string) :
  (forall c, p c = true -> q c = true) ->
  all_chars p s = true -> all_chars q s = true.
Proof.
  intros H. induction s as [|c r IH]; cbn [all_chars]; [reflexivity|].
  rewrite !andb_true_iff. intros [Hc Hr]. split; [apply H, Hc | apply IH, Hr].
Qed.

Lemma prefix_empty (s : string) : prefix "" s = true.
Proof. destruct s; reflexivity. Qed.

Lemma prefix_no_char (c : ascii) (pat v : string) :
  no_char c pat = false -> no_char c v = true -> prefix pat v = false.
Proof.
  revert pat. induction v as [|b v IH]; intros [|a p] Hp Hv; cbn [prefix];
    try reflexivity; try discriminate.
  destruct (ascii_dec a b) as [->|]; [|reflexivity].
  cbn [no_char all_chars] in Hp, Hv. apply andb_true_iff in Hv.
  destruct Hv as [Hb Hv]. rewrite Hb in Hp. apply (IH p Hp Hv).
Qed.

Lemma contains_no_char (c : ascii) (pat v : string) :
  no_char c pat = false -> no_char c v = true -> contains pat v = false.
Proof.
  intros Hp. induction v as [|b v IH]; intros Hv; cbn [contains];
    rewrite (prefix_no_char c pat _ Hp Hv); [reflexivity|].
  cbn [no_char all_chars] in Hv. apply andb_true_iff in Hv. apply IH, Hv.
Qed.

Lemma ends_with_has (c : ascii) (s : string) :
  ends_with c s = true -> no_char c s = false.
Proof.
  induction s as [|a r IH]; [discriminate|]. cbn [ends_with no_char all_chars].
  destruct r as [|b r'].
  - intros ->. reflexivity.
  - intros H. apply IH in H. unfold no_char in H. rewrite H. apply andb_false_r.
Qed.

Lemma prefix_app_no_char (c : ascii) (pat pre v : string) :
  ends_with c pat = true -> no_char c v = true ->
  prefix pat (pre ++ v) = prefix pat pre.
Proof.
  revert pat. induction pre as [|b pre IH]; intros pat Hp Hv.
  - cbn [append]. rewrite (prefix_no_char c pat v (ends_with_has _ _ Hp) Hv).
    destruct pat; [discriminate | reflexivity].
  - destruct pat as [|a p]; [discriminate|]. cbn [append prefix].
    destruct (ascii_dec a b); [|reflexivity].
    destruct p as [|a' p']; [rewrite !prefix_empty; reflexivity|].
    apply IH; assumption.
Qed.

(** A key that ends with ["="] is found in a line whose value has no
    ["="] exactly when it is found before the value. *)
Lemma contains_app_no_char (c : ascii) (pat pre v : string) :
  ends_with c pat = true -> no_char c v = true ->
  contains pat (pre ++ v) = contains pat pre.
Proof.
  intros Hp Hv. induction pre as [|b pre IH].
  - cbn [append]. rewrite (contains_no_char c pat v (ends_with_has _ _ Hp) Hv).
    destruct pat; [discriminate | reflexivity].
  - change (String b pre ++ v) with (String b (pre ++ v)). cbn [contains].
    change (String b (pre ++ v)) with (String b pre ++ v).
    rewrite (prefix_app_no_char c pat (String b pre) v Hp Hv), IH. reflexivity.
Qed.

Lemma prefix_shorter (q p2 s : string) :
  prefix (q ++ p2) s = true -> prefix q s = true.
Proof.
  revert s. induction q as [|a q IH]; intros s; [intros _; apply prefix_empty|].
  destruct s as [|b s]; cbn [append prefix]; [discriminate|].
  destruct (ascii_dec a b); [apply IH | discriminate].
Qed.

Lemma contains_shorter (q p2 s : string) :
  contains q s = false -> contains (q ++ p2) s = false.
Proof.
  induction s as [|b s IH]; cbn [contains].
  - destruct (prefix q "") eqn:E; [discriminate|]. intros _.
    destruct (prefix (q ++ p2) "") eqn:E'; [|reflexivity].
    apply prefix_shorter in E'. congruence.
  - destruct (prefix q (String b s)) eqn:E; [discriminate|]. intros H.
    destruct (prefix (q ++ p2) (String b s)) eqn:E'; [|apply IH, H].
    apply prefix_shorter in E'. congruence.
Qed.

Lemma prefix_app_true (pat pre v : string) :
  prefix pat pre = true -> prefix pat (pre ++ v) = true.
Proof.
  revert pat. induction pre as [|b pre IH]; intros [|a p]; cbn [prefix append];
    try reflexivity; try discriminate.
  - intros _. apply prefix_empty.
  - destruct (ascii_dec a b); [apply IH | discriminate].
Qed.

Lemma contains_app_true (pat pre v : string) :
  contains pat pre = true -> contains pat (pre ++ v) = true.
Proof.
  induction pre as [|b pre IH].
  - cbn [contains]. destruct (prefix pat "") eqn:E; [|discriminate].
    intros _. destruct pat; [|discriminate]. cbn [append].
    destruct v; reflexivity.
  - change (String b pre ++ v) with (String b (pre ++ v)). cbn [contains].
    change (String b (pre ++ v)) with (String b pre ++ v).
    destruct (prefix pat (String b pre)) eqn:E; intros H.
    + rewrite (prefix_app_true _ _ v E). reflexivity.
    + rewrite (IH H). destruct (prefix pat (String b pre ++ v)); reflexivity.
Qed.

(** *** Stripping *)

Lemma rstrip_no_space (s : string) :
  all_chars (fun c => negb (is_space c)) s = true -> rstrip s = s.
Proof.
  induction s as [|c r IH]; cbn [all_chars rstrip]; [reflexivity|].
  rewrite andb_true_iff, negb_true_iff. intros [Hc Hr].
  rewrite (IH Hr), Hc. destruct r; reflexivity.
Qed.

Lemma strip_no_space (s : string) :
  all_chars (fun c => negb (is_space c)) s = true -> strip s = s.
Proof.
  intros H. unfold strip.
  assert (E : lstrip s = s).
  { destruct s as [|c r]; [reflexivity|]. cbn [all_chars] in H.
    apply andb_true_iff in H. destruct H as [Hc _].
    apply negb_true_iff in Hc. cbn [lstrip]. rewrite Hc. reflexivity. }
  rewrite E. apply rstrip_no_space, H.
Qed.

Lemma strip_leading_blank (v : string) : strip (String " " v) = strip v.
Proof. reflexivity. Qed.

Lemma plain_no_space (s : string) :
  plain s = true -> all_chars (fun c => negb (is_space c)) s = true.
Proof.
  apply all_chars_impl. intros c. unfold plain_char.
  rewrite !andb_true_iff. tauto.
Qed.

Lemma plain_no_comma (s : string) : plain s = true -> no_char "," s = true.
Proof.
  apply all_chars_impl. intros c. unfold plain_char.
  rewrite !andb_true_iff. tauto.
Qed.

Lemma plain_no_eq (s : string) : plain s = true -> no_char "=" s = true.
Proof.
  apply all_chars_impl. intros c. unfold plain_char.
  rewrite !andb_true_iff. tauto.
Qed.

Lemma plain_strip (s : string) : plain s = true -> strip s = s.
Proof. intros H. apply strip_no_space, plain_no_space, H. Qed.

(** *** Integers *)

Lemma uint_plain (d : Decimal.uint) :
  plain (DecimalString.NilEmpty.string_of_uint d) = true.
Proof.
  induction d; cbn [DecimalString.NilEmpty.string_of_uint plain all_chars];
    try reflexivity; exact IHd.
Qed.

Lemma format_int_plain (n : Z) : plain (format_int n) = true.
Proof.
  unfold format_int. destruct n as [|p|p]; cbn [Z.to_int DecimalString.NilZero.string_of_int];
    [reflexivity| |];
    unfold DecimalString.NilZero.string_of_uint;
    pose proof (uint_plain (Pos.to_uint p)) as H;
    destruct (Pos.to_uint p); try reflexivity; try exact H;
    cbn [plain all_chars]; exact H.
Qed.

Lemma int_of_format (n : Z) : int_of_str (String " " (format_int n)) = Some n.
Proof.
  unfold int_of_str. rewrite strip_leading_blank, (plain_strip _ (format_int_plain n)).
  unfold format_int. rewrite DecimalString.NilZero.isi.
  - cbn [option_map]. rewrite DecimalZ.of_to. reflexivity.
  - destruct n as [|p|p]; cbn [Z.to_int]; try discriminate.
    intros H. injection H as H. exact (DecimalPos.Unsigned.to_uint_nonnil p H).
  - destruct n as [|p|p]; cbn [Z.to_int]; try discriminate.
    intros H. injection H as H. exact (DecimalPos.Unsigned.to_uint_nonnil p H).
Qed.

Lemma int_of_format_bare (n : Z) : int_of_str (format_int n) = Some n.
Proof.
  rewrite <- (int_of_format n). unfold int_of_str.
  rewrite strip_leading_blank. reflexivity.
Qed.

(** *** Splitting a row *)

Lemma split_no_comma (f : string) :
  no_char "," f = true -> split_comma f = (f :: nil)%list.
Proof.
  induction f as [|c r IH]; cbn [no_char all_chars split_comma]; [reflexivity|].
  rewrite andb_true_iff, negb_true_iff. intros [Hc Hr].
  rewrite Hc, (IH Hr). reflexivity.
Qed.

Lemma split_field (f rest : string) :
  no_char "," f = true ->
  split_comma (f ++ String "," rest) = (f :: split_comma rest)%list.
Proof.
  induction f as [|c r IH]; cbn [no_char all_chars append split_comma].
  - intros _. reflexivity.
  - rewrite andb_true_iff, negb_true_iff. intros [Hc Hr].
    rewrite Hc, (IH Hr). reflexivity.
Qed.

Lemma split_join (f : string) (fs : list string) :
  no_char "," f = true -> Forall (fun g => no_char "," g = true) fs ->
  split_comma (concat ", " (f :: fs)) = (f :: map (String " ") fs)%list.
Proof.
  intros Hf Hfs. revert f Hf. induction Hfs as [|g gs Hg _ IH]; intros f Hf.
  - cbn [concat map]. apply split_no_comma, Hf.
  - change (concat ", " (f :: g :: gs))
      with (f ++ String "," (String " " (concat ", " (g :: gs)))).
    rewrite (split_field _ _ Hf). cbn [split_comma map].
    replace (Ascii.eqb " " ",") with false by reflexivity.
    rewrite (IH g Hg). reflexivity.
Qed.

(** *** Reading what was written *)

Lemma append_assoc (a b c : string) : (a ++ b) ++ c = a ++ (b ++ c).
Proof.
  induction a as [|x a IH]; cbn [append]; [reflexivity|]. rewrite IH. reflexivity.
Qed.

Lemma after_eq_app (p r : string) :
  no_char "=" p = true -> after_eq (p ++ String "=" r) = Some r.
Proof.
  induction p as [|c p IH]; cbn [no_char all_chars append after_eq].
  - intros _. reflexivity.
  - rewrite andb_true_iff, negb_true_iff. intros [Hc Hp]. rewrite Hc. apply IH, Hp.
Qed.

(** The value of a header line ["# key = value"] is read back. *)
Lemma strip_context_value (p v : string) :
  no_char "=" p = true -> strip v = v ->
  strip_context (p ++ String "=" (String " " v)) = v.
Proof.
  intros Hp Hv. unfold strip_context. rewrite (after_eq_app _ _ Hp).
  rewrite strip_leading_blank. exact Hv.
Qed.

(** Whether a key is found in a header line is decided before the
    value. *)
Lemma key_in_line (key p v : string) (b : bool) :
  ends_with "=" key = true -> no_char "=" v = true ->
  contains key (p ++ "= ") = b ->
  contains key (p ++ String "=" (String " " v)) = b.
Proof.
  intros Hk Hv <-.
  replace (p ++ String "=" (String " " v)) with ((p ++ "= ") ++ v)
    by (rewrite append_assoc; reflexivity).
  apply (contains_app_no_char "=" key _ v Hk Hv).
Qed.

Lemma long_key_in_line (long key tail p v : string) :
  long = key ++ tail ->
  ends_with "=" key = true -> no_char "=" v = true ->
  contains key (p ++ "= ") = false ->
  contains long (p ++ String "=" (String " " v)) = false.
Proof.
  intros -> Hk Hv H. apply contains_shorter.
  apply (key_in_line key p v false Hk Hv H).
Qed.

(** Projections of a record that was just built. *)
Ltac fields :=
  cbn [device_id flight_number citizen_id origin destination origin_ICAO
       destination_ICAO flight_date takeoff landing time_offset R2
       scaling_factor timestamps cnt_1mn cnt_5sc time lat lon alt cari_total
       total_neutron].

Ltac key k p v H :=
  first [ rewrite (key_in_line k p v false eq_refl H eq_refl)
        | rewrite (key_in_line k p v true eq_refl H eq_refl) ];
  cbv iota.

(** Reading the line [p ++ "= " ++ v] of a header value [v]. *)
Ltac header_line p v Hv :=
  unfold read_line, read_comment;
  change (prefix "#" (p ++ String "=" (String " " v))) with true;
  cbv iota;
  rewrite (strip_context_value p v eq_refl (proj1 Hv));
  try key "device_id =" p v (proj1 (proj2 Hv));
  try key "reference_fit_r2 =" p v (proj1 (proj2 Hv));
  try key "reference_time_offset_s =" p v (proj1 (proj2 Hv));
  try key "origin =" p v (proj1 (proj2 Hv));
  try key "destination =" p v (proj1 (proj2 Hv));
  try key "flight_number =" p v (proj1 (proj2 Hv));
  try key "takeoff_utc =" p v (proj1 (proj2 Hv));
  try key "landing_utc =" p v (proj1 (proj2 Hv));
  try (rewrite (long_key_in_line "simulation_model = CARI-7A"
                  "simulation_model =" " CARI-7A" p v eq_refl eq_refl
                  (proj1 (proj2 Hv)) eq_refl); cbv iota);
  try key "reference_scaling_beta =" p v (proj1 (proj2 Hv));
  try key "citizen_id =" p v (proj1 (proj2 Hv));
  try key "detector_timestamps =" p v (proj1 (proj2 Hv)).

Section RoundTrip.

Variables datetime date float : Type.
Variable date_of : datetime -> date.
Variable strftime : datetime -> string.
Variable strptime : string -> option datetime.
Variables format_5f format_0f format_4e : float -> string.
Variable float_of_str : string -> option float.
Variable fsub : float -> float -> float.
Variable fzero : float.
Variable fpos : float -> bool.
Variable city : string -> option string.
Variables round_5f round_0f round_4e : float -> float.

(** What the renderings are assumed to do: they produce plain texts
    and parse back to the values named. *)
Hypothesis strftime_plain : forall t, plain (strftime t) = true.
Hypothesis strptime_strftime : forall t, strptime (strftime t) = Some t.
Hypothesis format_5f_plain : forall x, plain (format_5f x) = true.
Hypothesis format_0f_plain : forall x, plain (format_0f x) = true.
Hypothesis format_4e_plain : forall x, plain (format_4e x) = true.
Hypothesis float_of_5f : forall x, float_of_str (format_5f x) = Some (round_5f x).
Hypothesis float_of_0f : forall x, float_of_str (format_0f x) = Some (round_0f x).
Hypothesis float_of_4e : forall x, float_of_str (format_4e x) = Some (round_4e x).
Hypothesis float_of_placeholder : float_of_str "???" = None.

Local Abbreviation rd_comment :=
  (read_comment datetime date float date_of strptime float_of_str fzero city).
Local Abbreviation rd_row := (read_row datetime date float strptime float_of_str fsub).
Local Abbreviation rd_line :=
  (read_line datetime date float date_of strptime float_of_str fsub fzero city).
Local Abbreviation rd_lines :=
  (read_lines datetime date float date_of strptime float_of_str fsub fzero city).
Local Abbreviation rd :=
  (read_processed_log datetime date float date_of strptime float_of_str fsub
                      fzero city).
Local Abbreviation wr :=
  (write_newlog datetime date float strftime format_5f format_0f format_4e
                fsub fpos).
Local Abbreviation hdr := (header_lines datetime date float strftime format_4e fpos).
Local Abbreviation row :=
  (row_text datetime float strftime format_5f format_0f format_4e fsub).
Local Abbreviation expected :=
  (reread datetime date float fsub fzero fpos round_5f round_0f round_4e).
Local Abbreviation add_samples :=
  (append_samples datetime date float fsub round_5f round_0f round_4e).

Lemma plain_header_value (s : string) : plain s = true -> header_value s.
Proof.
  intros H. split; [apply plain_strip, H|]. split; [apply plain_no_eq, H|].
  revert H. apply all_chars_impl. intros c. unfold plain_char.
  rewrite !andb_true_iff, !negb_true_iff. intros [[[H _] _] _].
  destruct (Ascii.eqb_spec c "010") as [->|]; [discriminate H | reflexivity].
Qed.

Lemma read_lines_app (l1 l2 : list string) (d : merged datetime date float) :
  rd_lines (l1 ++ l2)%list d = bind (rd_lines l1 d) (rd_lines l2).
Proof.
  revert d. induction l1 as [|l l1 IH]; intros d; cbn [read_lines app bind];
    [reflexivity|].
  destruct (rd_line l d) as [d'|e]; cbn [bind]; [apply IH | reflexivity].
Qed.

Lemma read_lines_cons (l : string) (rest : list string)
  (d : merged datetime date float) :
  rd_lines (l :: rest)%list d = bind (rd_line l d) (rd_lines rest).
Proof. reflexivity. Qed.

(** The lines about the detector carry no key. *)
Lemma read_detector_lines (x : string) (d : merged datetime date float) :
  rd_lines (detector_lines x) d = inl d.
Proof.
  unfold detector_lines.
  repeat match goal with
         | |- context [if ?c then _ else _] => destruct c
         end; reflexivity.
Qed.

Section Header.

Variables device flight citizen orig dest orig_code dest_code : string.
Variables offset fit_r2 stamps : string.
Variables tk ld : datetime.
Variable factor : float.

Hypothesis device_ok : header_value device.
Hypothesis flight_ok : header_value flight.
Hypothesis citizen_ok : header_value citizen.
Hypothesis orig_ok : header_value orig_code.
Hypothesis dest_ok : header_value dest_code.
Hypothesis offset_ok : header_value offset.
Hypothesis fit_ok : header_value fit_r2.
Hypothesis stamps_ok : header_value stamps.
Hypothesis orig_city : city orig_code = Some orig.
Hypothesis dest_city : city dest_code = Some dest.

Ltac next_line :=
  rewrite read_lines_cons;
  match goal with
  | |- context [read_line _ _ _ _ _ _ _ _ _ ?l ?d] =>
      change (rd_line l d) with (@inl (merged datetime date float) exn d)
  end;
  cbn [bind]; fields.

Ltac value_line text p v Hv :=
  rewrite read_lines_cons;
  change (text ++ v) with (p ++ String "=" (String " " v));
  header_line p v Hv; cbn [bind]; fields.

Lemma read_first_lines (d : merged datetime date float) :
  rd_lines ["# format = processedCOA-v1"; "# data delimiter = comma"; "#";
            ("# device_id = " ++ device)%string; "# detector_model = ???"]%list d
  = inl (mkMerged device (flight_number d) (citizen_id d) (origin d)
           (destination d) (origin_ICAO d) (destination_ICAO d) (flight_date d)
           (takeoff d) (landing d) (time_offset d) (R2 d) (scaling_factor d)
           (timestamps d) (cnt_1mn d) (cnt_5sc d) (time d) (lat d) (lon d)
           (alt d) (cari_total d) (total_neutron d)).
Proof.
  do 3 next_line.
  value_line "# device_id = " "# device_id " device device_ok.
  next_line. reflexivity.
Qed.

Lemma read_reference_lines_some (d : merged datetime date float) :
  rd_lines
    ["#";
     "# reference_id = cari7a";
     "# reference_model = CARI-7A";
     "# reference_quantity = H*(10)_total-neutron";
     "# reference_alignment_method = time_offset_max_r2";
     ("# reference_time_offset_s = " ++ offset)%string;
     ("# reference_scaling_beta = " ++ format_4e factor)%string;
     "# reference_scaling_units = μSv/h / CPM";
     ("# reference_fit_r2 = " ++ fit_r2)%string;
     "#";
     "# simulation_model = CARI-7A";
     "# simulation_version = ???";
     "# simulation_total = H*10_total";
     "# simulation_neutron = H*10_neutron";
     "# simulation_unit = μSv/h"]%list d
  = inl (mkMerged (device_id d) (flight_number d) (citizen_id d) (origin d)
           (destination d) (origin_ICAO d) (destination_ICAO d) (flight_date d)
           (takeoff d) (landing d) offset fit_r2 (round_4e factor)
           (timestamps d) (cnt_1mn d) (cnt_5sc d) (time d) (lat d) (lon d)
           (alt d) (Some nil) (Some nil)).
Proof.
  do 5 next_line.
  value_line "# reference_time_offset_s = " "# reference_time_offset_s " offset offset_ok.
  value_line "# reference_scaling_beta = " "# reference_scaling_beta " (format_4e factor)
             (plain_header_value _ (format_4e_plain factor)).
  rewrite (plain_strip _ (format_4e_plain factor)), float_of_4e.
  next_line.
  value_line "# reference_fit_r2 = " "# reference_fit_r2 " fit_r2 fit_ok.
  next_line. reflexivity.
Qed.

Lemma read_reference_lines_none (d : merged datetime date float) :
  rd_lines
    ["#";
     "# reference_id = ???";
     "# reference_model = ???";
     "# reference_quantity = ???";
     "# reference_alignment_method = ???";
     "# reference_time_offset_s = ???";
     (if fpos factor
      then ("# reference_scaling_beta = " ++ format_4e factor)%string
      else "# reference_scaling_beta = ???");
     "# reference_scaling_units = ???";
     "# reference_fit_r2 = ???";
     "#";
     "# simulation_model = ???";
     "# simulation_version = ???";
     "# simulation_total = ???";
     "# simulation_neutron = ???";
     "# simulation_unit = ???"]%list d
  = inl (mkMerged (device_id d) (flight_number d) (citizen_id d) (origin d)
           (destination d) (origin_ICAO d) (destination_ICAO d) (flight_date d)
           (takeoff d) (landing d) "???" "???"
           (if fpos factor then round_4e factor else fzero)
           (timestamps d) (cnt_1mn d) (cnt_5sc d) (time d) (lat d) (lon d)
           (alt d) (cari_total d) (total_neutron d)).
Proof.
  do 5 next_line. rewrite read_lines_cons.
  change (rd_line "# reference_time_offset_s = ???" d)
    with (@inl (merged datetime date float) exn
            (mkMerged (device_id d) (flight_number d) (citizen_id d) (origin d)
               (destination d) (origin_ICAO d) (destination_ICAO d)
               (flight_date d) (takeoff d) (landing d) "???" (R2 d)
               (scaling_factor d) (timestamps d) (cnt_1mn d) (cnt_5sc d)
               (time d) (lat d) (lon d) (alt d) (cari_total d)
               (total_neutron d))).
  cbn [bind]. destruct (fpos factor).
  - value_line "# reference_scaling_beta = " "# reference_scaling_beta " (format_4e factor)
               (plain_header_value _ (format_4e_plain factor)).
    rewrite (plain_strip _ (format_4e_plain factor)), float_of_4e.
    next_line. reflexivity.
  - rewrite read_lines_cons. unfold read_line at 1, read_comment.
    change (strip (strip_context "# reference_scaling_beta = ???")) with "???".
    rewrite float_of_placeholder. reflexivity.
Qed.

Lemma read_last_lines (columns : string) (d : merged datetime date float) :
  (forall d', rd_line columns d' = inl d') ->
  rd_lines
    ["#";
     "# airport_code_type = ICAO";
     ("# origin = " ++ orig_code)%string;
     ("# destination = " ++ dest_code)%string;
     ("# flight_number = " ++ flight)%string;
     ("# takeoff_utc = " ++ strftime tk)%string;
     ("# landing_utc = " ++ strftime ld)%string;
     "#";
     ("# detector_timestamps = " ++ stamps)%string;
     "#";
     "# timestamp_format = UTC_ISO8601";
     "# latitude_unit = degrees";
     "# longitude_unit = degrees";
     "# altitude_unit = metres";
     "#";
     ("# citizen_id = " ++ citizen)%string;
     "#";
     columns]%list d
  = inl (mkMerged (device_id d) flight citizen orig dest orig_code dest_code
           (Some (date_of tk)) (Some tk) (Some ld) (time_offset d) (R2 d)
           (scaling_factor d) stamps (cnt_1mn d) (cnt_5sc d) (time d) (lat d)
           (lon d) (alt d) (cari_total d) (total_neutron d)).
Proof.
  intros Hcolumns. do 2 next_line.
  value_line "# origin = " "# origin " orig_code orig_ok.
  rewrite orig_city. cbn [or_raise bind]. fields.
  value_line "# destination = " "# destination " dest_code dest_ok.
  rewrite dest_city. cbn [or_raise bind]. fields.
  value_line "# flight_number = " "# flight_number " flight flight_ok.
  value_line "# takeoff_utc = " "# takeoff_utc " (strftime tk)
             (plain_header_value _ (strftime_plain tk)).
  rewrite strptime_strftime. cbn [or_raise bind]. fields.
  value_line "# landing_utc = " "# landing_utc " (strftime ld)
             (plain_header_value _ (strftime_plain ld)).
  rewrite strptime_strftime. cbn [or_raise bind]. fields.
  next_line.
  value_line "# detector_timestamps = " "# detector_timestamps " stamps stamps_ok.
  do 6 next_line.
  value_line "# citizen_id = " "# citizen_id " citizen citizen_ok.
  next_line. rewrite read_lines_cons, Hcolumns. reflexivity.
Qed.

End Header.

(** *** Rows *)

Lemma row_is_no_comment (f rest : string) :
  plain f = true -> prefix "#" (f ++ String "," rest) = false.
Proof.
  destruct f as [|c f]; [reflexivity|]. cbn [plain all_chars append prefix].
  rewrite andb_true_iff. unfold plain_char. rewrite !andb_true_iff, !negb_true_iff.
  intros [[_ Hc] _]. destruct (ascii_dec "#" c) as [<-|]; [discriminate Hc|].
  reflexivity.
Qed.

Lemma py_int_field (n : Z) : py_int (String " " (format_int n)) = inl n.
Proof. unfold py_int. rewrite int_of_format. reflexivity. Qed.

Lemma py_float_field (f : string) (y : float) :
  plain f = true -> float_of_str f = Some y ->
  py_float float float_of_str (String " " f) = inl y.
Proof.
  intros Hp Hf. unfold py_float.
  rewrite strip_leading_blank, (plain_strip _ Hp), Hf. reflexivity.
Qed.

Lemma row_fields (b : bool) (x : sample datetime float) :
  split_comma (row b x)
  = (strftime (s_time x)
     :: map (String " ")
          ([format_int (s_cnt_1mn x); format_int (s_cnt_5sc x);
            format_5f (s_lat x); format_5f (s_lon x); format_0f (s_alt x)]
           ++ (if b
               then [format_4e (s_total x);
                     format_4e (fsub (s_total x) (s_total_neutron x))]
               else [])))%list.
Proof.
  unfold row_text. cbn [app]. apply split_join.
  - apply plain_no_comma, strftime_plain.
  - repeat (apply Forall_cons;
            [apply plain_no_comma;
             first [apply format_int_plain | apply format_5f_plain
                   | apply format_0f_plain] |]).
    destruct b; repeat (apply Forall_cons;
                        [apply plain_no_comma, format_4e_plain|]);
      apply Forall_nil.
Qed.

Lemma read_row_text (b : bool) (x : sample datetime float)
  (d : merged datetime date float) :
  (if b then exists total tn, cari_total d = Some total /\ total_neutron d = Some tn
   else cari_total d = None /\ total_neutron d = None) ->
  rd_line (row b x) d = inl (add_samples d [x]%list).
Proof.
  intros Hd. unfold read_line.
  replace (prefix "#" (row b x)) with false.
  2:{ symmetry. unfold row_text. cbn [app].
      change (concat ", " (strftime (s_time x) :: ?l))
        with (strftime (s_time x) ++ String "," (String " " (concat ", " l))).
      destruct b; apply row_is_no_comment, strftime_plain. }
  unfold read_row. rewrite row_fields. cbn [map app nth].
  rewrite (plain_strip _ (strftime_plain _)), strptime_strftime.
  cbn [or_raise bind item nth_error].
  rewrite !py_int_field. cbn [bind].
  rewrite !(py_float_field _ _ (format_5f_plain _) (float_of_5f _)).
  rewrite (py_float_field _ _ (format_0f_plain _) (float_of_0f _)).
  cbn [bind]. unfold append_samples. cbn [map].
  destruct b.
  - destruct Hd as (total & tn & -> & ->).
    cbn [map item nth_error or_raise bind option_map].
    rewrite !(py_float_field _ _ (format_4e_plain _) (float_of_4e _)).
    reflexivity.
  - destruct Hd as [-> ->]. reflexivity.
Qed.

Lemma add_samples_cons (x : sample datetime float)
  (xs : list (sample datetime float)) (d : merged datetime date float) :
  add_samples (add_samples d [x]%list) xs = add_samples d (x :: xs)%list.
Proof.
  unfold append_samples. cbn [device_id flight_number citizen_id origin
    destination origin_ICAO destination_ICAO flight_date takeoff landing
    time_offset R2 scaling_factor timestamps cnt_1mn cnt_5sc time lat lon alt
    cari_total total_neutron map].
  rewrite <- !app_assoc. cbn [app].
  destruct (cari_total d), (total_neutron d); cbn [option_map];
    rewrite <- ?app_assoc; reflexivity.
Qed.

Lemma read_rows (b : bool) (xs : list (sample datetime float))
  (d : merged datetime date float) :
  (if b then exists total tn, cari_total d = Some total /\ total_neutron d = Some tn
   else cari_total d = None /\ total_neutron d = None) ->
  rd_lines (map (row b) xs) d = inl (add_samples d xs).
Proof.
  revert d. induction xs as [|x xs IH]; intros d Hd.
  - cbn [map read_lines]. unfold append_samples. cbn [map].
    rewrite !app_nil_r. destruct d as [? ? ? ? ? ? ? ? ? ? ? ? ? ? ? ? ? ? ? ? ct tn].
    cbn. destruct ct, tn; cbn; rewrite ?app_nil_r; reflexivity.
  - cbn [map]. rewrite read_lines_cons, (read_row_text b x d Hd). cbn [bind].
    rewrite IH; [rewrite add_samples_cons; reflexivity|].
    destruct b.
    + destruct Hd as (total & tn & H1 & H2). unfold append_samples.
      cbn [cari_total total_neutron]. rewrite H1, H2. cbn [option_map].
      eexists. eexists. split; reflexivity.
    + destruct Hd as [H1 H2]. unfold append_samples.
      cbn [cari_total total_neutron]. rewrite H1, H2. split; reflexivity.
Qed.

(** *** Writing *)

Lemma map2_map {A B C D : Type} (f : B -> C -> D) (g : A -> B) (h : A -> C)
  (l : list A) :
  map2 f (map g l) (map h l) = map (fun x => f (g x) (h x)) l.
Proof. induction l as [|x l IH]; cbn [map map2]; [|rewrite IH]; reflexivity. Qed.

Lemma nth_error_middle {A : Type} (pre : list A) (x : A) (xs : list A) :
  nth_error (pre ++ x :: xs)%list (List.length pre) = Some x.
Proof. induction pre as [|a pre IH]; [reflexivity | exact IH]. Qed.

Lemma data_line_of_sample (data : merged datetime date float)
  (samples : list (sample datetime float)) (i : nat) (x : sample datetime float) :
  time data = map s_time samples ->
  cnt_1mn data = map s_cnt_1mn samples ->
  cnt_5sc data = map s_cnt_5sc samples ->
  lat data = map s_lat samples ->
  lon data = map s_lon samples ->
  alt data = map s_alt samples ->
  ((cari_total data = None /\ total_neutron data = None)
   \/ (cari_total data = Some (map s_total samples)
       /\ total_neutron data = Some (map s_total_neutron samples))) ->
  nth_error samples i = Some x ->
  data_line datetime date float strftime format_5f format_0f format_4e fsub
            data i
  = inl (row (match cari_total data with Some _ => true | None => false end) x).
Proof.
  intros Ht Hc1 Hc5 Hla Hlo Hal Href Hx. unfold data_line, item.
  rewrite Ht, Hc1, Hc5, Hla, Hlo, Hal.
  rewrite !(map_nth_error _ _ _ Hx). cbn [or_raise bind].
  destruct Href as [[-> _] | [-> ->]].
  - reflexivity.
  - rewrite (map_nth_error s_total _ _ Hx). cbn [or_raise bind].
    rewrite (map_nth_error s_total_neutron _ _ Hx). cbn [or_raise bind].
    unfold row_text. cbn [app concat]. rewrite !append_assoc. reflexivity.
Qed.

Lemma data_lines_of_samples (data : merged datetime date float)
  (samples pre xs : list (sample datetime float)) :
  time data = map s_time samples ->
  cnt_1mn data = map s_cnt_1mn samples ->
  cnt_5sc data = map s_cnt_5sc samples ->
  lat data = map s_lat samples ->
  lon data = map s_lon samples ->
  alt data = map s_alt samples ->
  ((cari_total data = None /\ total_neutron data = None)
   \/ (cari_total data = Some (map s_total samples)
       /\ total_neutron data = Some (map s_total_neutron samples))) ->
  samples = (pre ++ xs)%list ->
  data_lines datetime date float strftime format_5f format_0f format_4e fsub
             data (seq (List.length pre) (List.length xs))
  = inl (map (row (match cari_total data with Some _ => true | None => false end))
             xs).
Proof.
  intros Ht Hc1 Hc5 Hla Hlo Hal Href. revert pre.
  induction xs as [|x xs IH]; intros pre E; cbn [List.length seq data_lines map].
  - reflexivity.
  - rewrite (data_line_of_sample data samples (List.length pre) x
               Ht Hc1 Hc5 Hla Hlo Hal Href)
      by (rewrite E; apply nth_error_middle).
    cbn [bind].
    specialize (IH (pre ++ [x])%list).
    rewrite length_app in IH. cbn [List.length] in IH.
    rewrite Nat.add_1_r in IH. rewrite IH by (rewrite <- app_assoc; exact E).
    reflexivity.
Qed.


End RoundTrip.



End ProcessedLogFacts.

(** ** Plot smoothing *)

Section MovingAverageFacts.

Import MovingAverage.

Variable X : Type.
Variable average : Z -> list X -> X.

Lemma odd_half (w : Z) :
  w mod 2 <> 0 -> exists k, w = 2 * k + 1 /\ w / 2 = k /\ - w / 2 + 1 = - k.
Proof.
  intros H. exists (w / 2).
  pose proof (Z.div_mod w 2 ltac:(lia)) as D.
  pose proof (Z.mod_pos_bound w 2 ltac:(lia)) as M.
  assert (w mod 2 = 1) by lia.
  split; [lia|]. split; [reflexivity|].
  replace (- w) with (- (w / 2) - 1 + (- (w / 2) - 1) + 1) by lia.
  replace (- (w / 2) - 1 + (- (w / 2) - 1) + 1)
    with (1 + (- (w / 2) - 1) * 2) by lia.
  rewrite Z.div_add by lia. cbn. lia.
Qed.

Lemma bound_low (n : nat) (k : Z) :
  0 <= k <= Z.of_nat n -> bound n k = Z.to_nat k.
Proof.
  intros H. unfold bound.
  replace (k <? 0) with false by (symmetry; apply Z.ltb_ge; lia).
  f_equal. lia.
Qed.

Lemma bound_high (n : nat) (k : Z) :
  0 < k <= Z.of_nat n -> bound n (- k) = (n - Z.to_nat k)%nat.
Proof.
  intros H. unfold bound.
  replace (- k <? 0) with true by (symmetry; apply Z.ltb_lt; lia).
  lia.
Qed.

Lemma convolve_valid_length (arr c : list X) (w : Z) :
  convolve_valid X average arr w = inl c ->
  0 < w /\ (0 < length arr)%nat
  /\ length c = (Nat.max (length arr) (Z.to_nat w)
                 - Nat.min (length arr) (Z.to_nat w) + 1)%nat.
Proof.
  unfold convolve_valid.
  destruct (w <? 0) eqn:N; [discriminate|]. apply Z.ltb_ge in N.
  destruct (Nat.eqb (length arr) 0) eqn:E0; [discriminate|].
  apply Nat.eqb_neq in E0.
  destruct (w =? 0) eqn:W0; [discriminate|]. apply Z.eqb_neq in W0.
  cbn [orb]. destruct (Nat.leb _ _) eqn:L;
    [apply Nat.leb_le in L | apply Nat.leb_gt in L];
    intros H; injection H as <-;
    rewrite ?length_map, ?length_seq, ?repeat_length; lia.
Qed.

Lemma convolve_valid_returns (arr : list X) (w : Z) :
  0 < w -> (0 < length arr)%nat ->
  exists c, convolve_valid X average arr w = inl c.
Proof.
  intros Hw Hn. unfold convolve_valid.
  replace (w <? 0) with false by (symmetry; apply Z.ltb_ge; lia).
  replace (Nat.eqb (length arr) 0) with false by (symmetry; apply Nat.eqb_neq; lia).
  replace (w =? 0) with false by (symmetry; apply Z.eqb_neq; lia).
  cbn [orb]. destruct (Nat.leb _ _); eexists; reflexivity.
Qed.

Lemma assign_slice_returns (arr values : list X) (lo hi : nat) :
  (exists out, assign_slice X arr lo hi values = inl out)
  <-> (length values = hi - lo \/ length values = 1)%nat.
Proof.
  unfold assign_slice. destruct (Nat.eqb _ _) eqn:E.
  - apply Nat.eqb_eq in E. split; [auto | intros _; eexists; reflexivity].
  - apply Nat.eqb_neq in E. destruct values as [|v [|v' r]]; cbn [length] in *.
    + split; [intros [out H]; discriminate | lia].
    + split; [auto | intros _; eexists; reflexivity].
    + split; [intros [out H]; discriminate | lia].
Qed.

Lemma slice_bounds (n : nat) (k : Z) :
  0 <= k ->
  (bound n (- k) - bound n k)%nat
  = if k =? 0 then 0%nat else (n - Z.to_nat k - Z.to_nat k)%nat.
Proof.
  intros Hk. unfold bound. destruct (k =? 0) eqn:K0.
  - apply Z.eqb_eq in K0. subst k. cbn. lia.
  - apply Z.eqb_neq in K0.
    replace (- k <? 0) with true by (symmetry; apply Z.ltb_lt; lia).
    replace (k <? 0) with false by (symmetry; apply Z.ltb_ge; lia).
    lia.
Qed.

(** The widths and arrays on which the slice assignment of
    [moving_average] is given as many values as the slice has, or one. *)
Lemma moving_average_domain (arr : list X) (w : Z) :
  (exists out, moving_average X average arr w = inl out)
  <-> w mod 2 = 1
      /\ (3 <= w <= Z.of_nat (length arr) \/ (w = 1 /\ length arr = 1%nat)).
Proof.
  unfold moving_average.
  destruct (w mod 2 =? 0) eqn:P.
  - apply Z.eqb_eq in P. split; [intros [out H]; discriminate | lia].
  - apply Z.eqb_neq in P.
    pose proof (Z.mod_pos_bound w 2 ltac:(lia)) as M.
    destruct (odd_half w P) as (k & Hw & Hlo & Hhi). rewrite Hlo, Hhi.
    clear Hlo Hhi.
    destruct (convolve_valid X average arr w) as [c|e] eqn:C.
    + apply convolve_valid_length in C. destruct C as (W & N & Lc).
      rewrite assign_slice_returns, Lc, (slice_bounds _ k) by lia.
      destruct (k =? 0) eqn:K0;
        [apply Z.eqb_eq in K0 | apply Z.eqb_neq in K0]; lia.
    + split; [intros [out H]; discriminate|]. intros [_ H]. exfalso.
      destruct (convolve_valid_returns arr w) as [c C']; [lia | lia | congruence].
Qed.

(** X14.  [moving_average] returns exactly for an odd width of at least
    3 that is at most the number of entries, and for width 1 on a single
    entry; in every other case it raises, so also for an odd width
    above the number of entries and for width 1 on two entries or
    more. *)
Theorem moving_average_returns_iff (arr : list X) (w : Z) :
  (exists out, moving_average X average arr w = inl out)
  <-> w mod 2 = 1
      /\ (3 <= w <= Z.of_nat (length arr) \/ (w = 1 /\ length arr = 1%nat)).
Proof. exact (moving_average_domain arr w). Qed.


End MovingAverageFacts.


(** ** The reader of event logs *)

Section UctFacts.

Import UctLog Device.

Lemma fold_add_acc (l : list Z) (a : Z) : fold_left Z.add l a = a + Zsum l.
Proof.
  unfold Zsum. revert a. induction l as [|x l IH]; intros a; cbn [fold_left]; [lia|].
  rewrite (IH (a + x)), (IH (0 + x)). lia.
Qed.

Lemma Zsum_app (a b : list Z) : Zsum (a ++ b) = Zsum a + Zsum b.
Proof. unfold Zsum at 1. rewrite fold_left_app. fold (Zsum a). apply fold_add_acc. Qed.

Lemma Zsum_one (x : Z) : Zsum [x] = x.
Proof. reflexivity. Qed.

Lemma py_last_snoc {A : Type} (l : list A) (x : A) : py_last (l ++ [x]) = Some x.
Proof. unfold py_last. rewrite rev_unit. reflexivity. Qed.

Lemma snoc_of_length {A : Type} (l : list A) :
  (0 < length l)%nat -> exists l0 x, l = l0 ++ [x].
Proof.
  intros H. destruct (rev l) as [|x r] eqn:E.
  - apply (f_equal (@length A)) in E. rewrite length_rev in E. cbn in E. lia.
  - exists (rev r), x. rewrite <- (rev_involutive l), E. reflexivity.
Qed.

Lemma incr_last_snoc (l : list Z) (x : Z) :
  incr_last (l ++ [x]) = Some (l ++ [x + 1]).
Proof.
  unfold incr_last. rewrite rev_unit. cbn [rev]. rewrite rev_involutive. reflexivity.
Qed.

Lemma grid_snoc (start : Z) (n : nat) :
  grid start (S n) = grid start n ++ [start + 5 * Z.of_nat n].
Proof. unfold grid. rewrite seq_S, map_app. reflexivity. Qed.

Lemma grid_length (start : Z) (n : nat) : length (grid start n) = n.
Proof. unfold grid. rewrite length_map, length_seq. reflexivity. Qed.

Lemma slice_app_left {A : Type} (a b : list A) (lo hi : nat) :
  (hi <= length a)%nat -> slice (a ++ b) lo hi = slice a lo hi.
Proof.
  intros H. unfold slice. rewrite skipn_app, firstn_app, length_skipn.
  replace (hi - lo - (length a - lo))%nat with 0%nat by lia.
  cbn [firstn]. apply app_nil_r.
Qed.

Lemma slice_to_end {A : Type} (l : list A) (lo : nat) :
  slice l lo (length l) = skipn lo l.
Proof.
  unfold slice. apply firstn_all2. rewrite length_skipn. lia.
Qed.

Lemma minute_sum_last (a : list Z) (x : Z) :
  minute_sum (a ++ [x]) (length a) = Zsum (skipn (length a - 11) a) + x.
Proof.
  unfold minute_sum.
  replace (length a + 1)%nat with (length (a ++ [x])) by (rewrite length_app; cbn; lia).
  rewrite slice_to_end, skipn_app.
  replace (length a - 11 - length a)%nat with 0%nat by lia.
  cbn [skipn]. rewrite Zsum_app, Zsum_one. reflexivity.
Qed.

Lemma minute_sum_before (a : list Z) (x : Z) (i : nat) :
  (i < length a)%nat -> minute_sum (a ++ [x]) i = minute_sum a i.
Proof. intros H. unfold minute_sum. apply f_equal, slice_app_left. lia. Qed.

Lemma append_bin_inv (start : Z) (n : nat) (d : data) :
  inv start n d ->
  exists d', append_bin d = inl d' /\ inv start n d'
             /\ length (time d') = S (length (time d)).
Proof.
  intros (Ht & Hn & H5 & H1 & Hl & Hlon & Halt & Hs & Hm & Hid).
  unfold append_bin.
  remember (length (time d)) as len eqn:Len.
  destruct len as [|m]; [lia|].
  assert (Et : time d = grid start m ++ [start + 5 * Z.of_nat m])
    by (rewrite Ht; apply grid_snoc).
  assert (P : py_last (time d) = Some (start + 5 * Z.of_nat m))
    by (rewrite Et; apply py_last_snoc).
  rewrite P.
  eexists. split; [reflexivity|]. cbn [time cnt_5sc cnt_1mn lat lon alt device_id].
  assert (L : length (time d ++ [start + 5 * Z.of_nat m + 5]) = S (S m))
    by (rewrite length_app, <- Len; cbn; lia).
  split; [|exact L].
  unfold inv. cbn [time cnt_5sc cnt_1mn lat lon alt device_id].
  rewrite L, !length_app. cbn [length].
  split; [|split; [lia|]; split; [lia|]; split; [lia|]; split; [lia|];
           split; [lia|]; split; [lia|]; split; [|split; [|exact Hid]]].
  - rewrite (grid_snoc start (S m)), <- Ht. f_equal. f_equal.
    rewrite Nat2Z.inj_succ. lia.
  - rewrite Zsum_app, Zsum_one. lia.
  - intros i Hi. destruct (Nat.eq_dec i (S m)) as [->|Hne].
    + rewrite <- H1 at 1. rewrite nth_middle.
      rewrite <- H5. rewrite minute_sum_last.
      unfold last_n. rewrite length_app. cbn [length].
      replace (length (cnt_5sc d) + 1 - 12)%nat with (length (cnt_5sc d) - 11)%nat by lia.
      rewrite skipn_app.
      replace (length (cnt_5sc d) - 11 - length (cnt_5sc d))%nat with 0%nat by lia.
      cbn [skipn]. rewrite Zsum_app, Zsum_one. reflexivity.
    + rewrite app_nth1 by lia. rewrite minute_sum_before by lia. apply Hm. lia.
Qed.

Lemma append_bins_inv (start : Z) (n k : nat) (d : data) :
  inv start n d ->
  exists d', append_bins k d = inl d' /\ inv start n d'.
Proof.
  revert d. induction k as [|k IH]; intros d H; cbn [append_bins].
  - exists d. auto.
  - destruct (append_bin_inv start n d H) as (d1 & -> & H1 & _). apply IH, H1.
Qed.

Lemma count_event_inv (start : Z) (n : nat) (d : data) :
  inv start n d ->
  exists c5 c1,
    incr_last (cnt_5sc d) = Some c5 /\ incr_last (cnt_1mn d) = Some c1
    /\ inv start (S n)
               (mkData (device_id d) c1 c5 (time d) (lat d) (lon d) (alt d)).
Proof.
  intros (Ht & Hn & H5 & H1 & Hl & Hlon & Halt & Hs & Hm & Hid).
  destruct (snoc_of_length (cnt_5sc d)) as (a & x & Ea); [lia|].
  destruct (snoc_of_length (cnt_1mn d)) as (b & y & Eb); [lia|].
  rewrite Ea, Eb, !incr_last_snoc. eexists. eexists.
  split; [reflexivity|]. split; [reflexivity|].
  rewrite Ea in H5, Hs, Hm. rewrite Eb in H1, Hm.
  rewrite length_app in H5, H1. cbn [length] in H5, H1.
  unfold inv. cbn [time cnt_5sc cnt_1mn lat lon alt device_id].
  rewrite !length_app. cbn [length].
  split; [exact Ht|]. split; [lia|]. split; [lia|]. split; [lia|].
  split; [lia|]. split; [lia|]. split; [lia|].
  split; [|split; [|exact Hid]].
  - rewrite Zsum_app, Zsum_one in *. lia.
  - intros i Hi. destruct (Nat.eq_dec i (length a)) as [->|Hne].
    + replace (length a) with (length b) at 1 by lia. rewrite nth_middle.
      rewrite minute_sum_last.
      specialize (Hm (length a) ltac:(lia)).
      replace (length a) with (length b) in Hm at 1 by lia.
      rewrite nth_middle, minute_sum_last in Hm. lia.
    + specialize (Hm i Hi).
      rewrite app_nth1 in * by lia. rewrite minute_sum_before in * by lia. exact Hm.
Qed.

Lemma event_inv (start millis : Z) (n : nat) (d : data) :
  inv start n d ->
  exists d', event start millis d = inl d' /\ inv start (S n) d'.
Proof.
  intros H. unfold event.
  destruct (snoc_of_length (time d)) as (t0 & t & Et);
    [destruct H as (_ & H & _); exact H|].
  assert (P : py_last (time d) = Some t) by (rewrite Et; apply py_last_snoc).
  rewrite P.
  assert (B : exists d1,
             (if 5000 <? 1000 * start + millis - 1000 * t
              then append_bins (Z.to_nat ((1000 * start + millis - 1000 * t) / 5000)) d
              else inl d) = inl d1 /\ inv start n d1).
  { destruct (5000 <? _); [apply (append_bins_inv start n), H | exists d; auto]. }
  destruct B as (d1 & -> & H1).
  destruct (count_event_inv start n d1 H1) as (c5 & c1 & -> & -> & H2).
  eexists. split; [reflexivity | exact H2].
Qed.

Variable strptime : String.string -> option Z.
Variable py_int : String.string -> option Z.

Lemma events_inv (start : Z) (lines : list String.string) (n : nat) (d d' : data) :
  inv start n d ->
  events py_int start lines d = inl d' ->
  inv start (n + length lines) d'.
Proof.
  revert n d. induction lines as [|line rest IH]; intros n d H; cbn [events].
  - intros E. injection E as <-. rewrite Nat.add_0_r. exact H.
  - destruct (millis_of py_int line) as [millis|]; [|discriminate].
    destruct (event_inv start millis n d H) as (d1 & -> & H1).
    intros E. apply (IH (S n)) in E; [|exact H1].
    cbn [length]. replace (n + S (length rest))%nat with (S n + length rest)%nat by lia.
    exact E.
Qed.

Lemma read_uct_data_inv (lines : list String.string) (d : data) :
  read_uct_data strptime py_int lines = inl d ->
  exists start,
    strptime (start_text lines) = Some start
    /\ inv start (length (skipn 2 lines)) d.
Proof.
  unfold read_uct_data.
  destruct (strptime _) as [start|]; [|discriminate].
  intros E. exists start. split; [reflexivity|].
  apply (events_inv start _ 0) in E; [exact E|].
  unfold inv. cbn [time cnt_5sc cnt_1mn lat lon alt device_id length].
  split; [unfold grid; cbn; f_equal; lia|]. split; [lia|].
  repeat (split; [reflexivity|]).
  split; [|reflexivity].
  intros [|i] Hi; [reflexivity | lia].
Qed.

(** X16.  The record [read_uct_data] returns: the sample times are the
    start time and every 5 s after it, the two count arrays have one
    entry per sample time, and the three position arrays one entry
    less (nothing is appended to them for the first sample). *)
Theorem read_uct_data_shape (lines : list String.string) (d : data) :
  read_uct_data strptime py_int lines = inl d ->
  exists start,
    strptime (start_text lines) = Some start
    /\ time d = grid start (length (time d))
    /\ length (cnt_5sc d) = length (time d)
    /\ length (cnt_1mn d) = length (time d)
    /\ length (time d) = S (length (lat d))
    /\ length (lon d) = length (lat d)
    /\ length (alt d) = length (lat d).
Proof.
  intros E. destruct (read_uct_data_inv lines d E) as (start & S & I).
  exists start. split; [exact S|]. unfold inv in I. tauto.
Qed.

(** X17.  [read_uct_data] counts every event line once in a 5 s bin,
    and the 1 min count of each bin is the sum of the 5 s counts of the
    last 12 bins up to it. *)
Theorem read_uct_data_counts (lines : list String.string) (d : data) :
  read_uct_data strptime py_int lines = inl d ->
  Zsum (cnt_5sc d) = Z.of_nat (length lines - 2)
  /\ (forall i, (i < length (time d))%nat ->
                nth i (cnt_1mn d) 0 = minute_sum (cnt_5sc d) i).
Proof.
  intros E. destruct (read_uct_data_inv lines d E) as (start & S & I).
  unfold inv in I. rewrite length_skipn in I. tauto.
Qed.

Lemma diffs_grid (start : Z) (n : nat) (x : Z) :
  In x (diffs (grid start n)) -> x = 5.
Proof.
  unfold grid. generalize 0%nat as a. induction n as [|n IH]; intros a; [intros []|].
  destruct n as [|n]; [intros []|].
  cbn [seq map diffs] in *. intros [<- | H]; [lia|].
  apply (IH (S a)). exact H.
Qed.

(** X18.  The sample times of [read_uct_data] need no repair:
    [fix_times] hands them back as they are, for every [max_dt] of at
    least 5 s. *)
Theorem read_uct_data_times_are_valid (lines : list String.string) (d : data)
  (delta : Q) (max_dt : Z) :
  read_uct_data strptime py_int lines = inl d ->
  5 <= max_dt ->
  FixTimes.fix_times (time d) delta max_dt = FixTimes.SameObject.
Proof.
  intros E Hmax. destruct (read_uct_data_inv lines d E) as (start & _ & I).
  apply fix_times_same_object_iff. intros x Hx.
  destruct I as (Ht & _). rewrite Ht in Hx.
  apply diffs_grid in Hx. lia.
Qed.

End UctFacts.

Lemma read_uct_data_shape_witness :
  exists start,
    UctLog.example_strptime (UctLog.start_text UctLog.example_lines) = Some start
    /\ Device.time UctLog.example_data = UctLog.grid start (length (Device.time UctLog.example_data))
    /\ length (Device.cnt_5sc UctLog.example_data) = length (Device.time UctLog.example_data)
    /\ length (Device.cnt_1mn UctLog.example_data) = length (Device.time UctLog.example_data)
    /\ length (Device.time UctLog.example_data) = S (length (Device.lat UctLog.example_data))
    /\ length (Device.lon UctLog.example_data) = length (Device.lat UctLog.example_data)
    /\ length (Device.alt UctLog.example_data) = length (Device.lat UctLog.example_data).
Proof.
  apply (read_uct_data_shape UctLog.example_strptime ProcessedLog.int_of_str UctLog.example_lines).
  vm_compute. reflexivity.
Defined.

Lemma read_uct_data_counts_witness :
  Zsum (Device.cnt_5sc UctLog.example_data) = Z.of_nat (length UctLog.example_lines - 2)
  /\ (forall i, (i < length (Device.time UctLog.example_data))%nat ->
                nth i (Device.cnt_1mn UctLog.example_data) 0
                = UctLog.minute_sum (Device.cnt_5sc UctLog.example_data) i).
Proof.
  apply (read_uct_data_counts UctLog.example_strptime ProcessedLog.int_of_str UctLog.example_lines).
  vm_compute. reflexivity.
Defined.

Lemma read_uct_data_times_are_valid_witness :
  FixTimes.fix_times (Device.time UctLog.example_data) FixTimes.default_delta
                     FixTimes.default_max_dt
  = FixTimes.SameObject.
Proof.
  apply (read_uct_data_times_are_valid UctLog.example_strptime ProcessedLog.int_of_str
           UctLog.example_lines).
  - vm_compute. reflexivity.
  - unfold FixTimes.default_max_dt. lia.
Defined.

(** ** The input files of the reference run *)

Section CariInputFacts.

Import CariInput.

Lemma Qtrunc_quotient (a : Z) (b : positive) :
  0 <= a -> Qtrunc (inject_Z a / inject_Z (Zpos b) + 1)%Q = a / Zpos b + 1.
Proof.
  intros Ha. unfold Qtrunc, Qdiv, Qinv, Qmult, Qplus, inject_Z.
  cbn [Qnum Qden].
  rewrite ?Pos.mul_1_r, ?Pos.mul_1_l, ?Z.mul_1_r, ?Z.mul_1_l.
  rewrite Z.quot_div_nonneg by lia.
  replace (a + Zpos b) with (a + 1 * Zpos b) by lia.
  rewrite Z.div_add by lia. reflexivity.
Qed.

Lemma Zsum_repeat (w : Z) (n : nat) : Zsum (repeat w n) = w * Z.of_nat n.
Proof.
  induction n as [|n IH]; [cbn; lia|].
  change (repeat w (S n)) with ([w] ++ repeat w n).
  unfold Zsum in *. rewrite fold_left_app. cbn [fold_left].
  assert (F : forall l a, fold_left Z.add l a = a + fold_left Z.add l 0).
  { induction l as [|x l IHl]; intros a0; cbn [fold_left]; [lia|].
    rewrite (IHl (a0 + x)), (IHl (0 + x)). lia. }
  rewrite F, IH. lia.
Qed.

Lemma set_nth_last {A : Type} (l : list A) (x v : A) :
  set_nth (l ++ [x]) (length (l ++ [x]) - 1) v = l ++ [v].
Proof.
  rewrite length_app. cbn [length].
  replace (length l + 1 - 1)%nat with (length l) by lia.
  induction l as [|y l IH]; [reflexivity|]. cbn [app length set_nth]. rewrite IH.
  reflexivity.
Qed.

(** The widths: [parallel - 1] times [size // parallel + 1], and what
    is left of [size]. *)
Lemma widths_eq (size : nat) (parallel : positive) :
  let w := Z.of_nat size / Zpos parallel + 1 in
  widths size parallel
  = repeat w (Pos.to_nat parallel - 1)
    ++ [Z.of_nat size - w * (Zpos parallel - 1)].
Proof.
  intros w. unfold widths. rewrite Qtrunc_quotient by lia. fold w.
  destruct (Pos.to_nat parallel) as [|m] eqn:E; [lia|].
  replace (S m - 1)%nat with m by lia.
  replace (repeat w (S m)) with (repeat w m ++ [w])
    by (rewrite <- repeat_cons; reflexivity).
  rewrite set_nth_last, removelast_last, Zsum_repeat. repeat f_equal. lia.
Qed.

Lemma range_cons (lo hi : Z) : lo < hi -> range lo hi = lo :: range (lo + 1) hi.
Proof.
  intros H. unfold range.
  replace (Z.to_nat (hi - lo)) with (S (Z.to_nat (hi - (lo + 1)))) by lia.
  cbn [seq map]. f_equal; [lia|].
  rewrite <- seq_shift, map_map. apply map_ext. intros i. lia.
Qed.

Lemma range_nil (lo hi : Z) : hi <= lo -> range lo hi = [].
Proof.
  intros H. unfold range. replace (Z.to_nat (hi - lo)) with 0%nat by lia. reflexivity.
Qed.

(** A run of indices within the data is looked up as it stands, and one
    that runs past the end of the data raises. *)
Lemma file_points_in_range (size len : nat) (lo : Z) :
  0 <= lo -> lo + Z.of_nat len <= Z.of_nat size ->
  file_points size (range lo (lo + Z.of_nat len))
  = inl (seq (Z.to_nat lo) len).
Proof.
  revert lo. induction len as [|len IH]; intros lo H0 H1.
  - rewrite range_nil by lia. reflexivity.
  - rewrite range_cons by lia. cbn [file_points seq]. unfold index.
    replace ((0 <=? lo) && (lo <? Z.of_nat size)) with true
      by (symmetry; apply andb_true_iff; split; [apply Z.leb_le | apply Z.ltb_lt]; lia).
    replace (lo + Z.of_nat (S len)) with (lo + 1 + Z.of_nat len) by lia.
    rewrite IH by lia. repeat f_equal. lia.
Qed.

Lemma file_points_within (size : nat) (lo hi : Z) :
  0 <= lo -> lo <= hi -> hi <= Z.of_nat size ->
  file_points size (range lo hi) = inl (seq (Z.to_nat lo) (Z.to_nat (hi - lo))).
Proof.
  intros H0 H1 H2.
  replace hi with (lo + Z.of_nat (Z.to_nat (hi - lo))) at 1 by lia.
  apply file_points_in_range; lia.
Qed.

Lemma file_points_past_end (size : nat) (lo hi : Z) :
  0 <= lo -> lo < hi -> Z.of_nat size < hi ->
  file_points size (range lo hi) = inr IndexError.
Proof.
  intros H0 H1 H2.
  remember (Z.to_nat (hi - lo)) as len eqn:L. revert lo H0 H1 L.
  induction len as [|len IH]; intros lo H0 H1 L; [lia|].
  rewrite range_cons by lia. cbn [file_points]. unfold index.
  destruct ((0 <=? lo) && (lo <? Z.of_nat size)) eqn:E.
  - destruct (Z.eq_dec (lo + 1) hi) as [<-|N].
    + apply andb_true_iff in E. destruct E as [_ E]. apply Z.ltb_lt in E. lia.
    + rewrite IH by lia. reflexivity.
  - replace ((- Z.of_nat size <=? lo) && (lo <? 0)) with false; [reflexivity|].
    symmetry. apply andb_false_iff. right. apply Z.ltb_ge. lia.
Qed.

Lemma files_full (size : nat) (w : Z) (m : nat) (offset : Z) :
  0 < w -> 0 <= offset ->
  offset + w * Z.of_nat m <= Z.of_nat size ->
  forall last : Z,
    0 <= last -> offset + w * Z.of_nat m + last = Z.of_nat size ->
    exists fs,
      files size offset (repeat w m ++ [last]) = inl fs
      /\ concat fs = seq (Z.to_nat offset) (size - Z.to_nat offset)
      /\ length fs = S m.
Proof.
  intros Hw. revert offset. induction m as [|m IH]; intros offset H0 H1 last Hl Hs.
  - cbn [repeat app files].
    rewrite file_points_within by lia.
    eexists. split; [reflexivity|]. cbn [concat length]. rewrite app_nil_r.
    split; [f_equal; lia | reflexivity].
  - cbn [repeat app files].
    rewrite file_points_within by lia.
    rewrite Nat2Z.inj_succ in H1, Hs.
    assert (A1 : 0 <= offset + w) by lia.
    assert (A2 : offset + w + w * Z.of_nat m <= Z.of_nat size) by lia.
    assert (A3 : offset + w + w * Z.of_nat m + last = Z.of_nat size) by lia.
    destruct (IH (offset + w) A1 A2 last Hl A3) as (fs & -> & Hc & Hn).
    eexists. split; [reflexivity|]. cbn [concat length]. rewrite Hc, Hn.
    split; [|reflexivity].
    replace (size - Z.to_nat offset)%nat
      with (Z.to_nat (offset + w - offset) + (size - Z.to_nat (offset + w)))%nat by lia.
    rewrite seq_app. repeat f_equal. lia.
Qed.

Lemma files_overrun (size : nat) (w : Z) (m : nat) (offset last : Z) :
  0 < w -> 0 <= offset <= Z.of_nat size ->
  Z.of_nat size < offset + w * Z.of_nat m ->
  files size offset (repeat w m ++ [last]) = inr IndexError.
Proof.
  intros Hw. revert offset. induction m as [|m IH]; intros offset H0 H1; [lia|].
  rewrite Nat2Z.inj_succ in H1.
  cbn [repeat app files].
  destruct (Z_lt_le_dec (Z.of_nat size) (offset + w)) as [L|L].
  - rewrite file_points_past_end by lia. reflexivity.
  - rewrite file_points_within by lia.
    rewrite IH by lia. reflexivity.
Qed.

(** X19.  When [parallel - 1] files of [size // parallel + 1] points
    fit in the data, [gen_cari_data] writes every point to exactly one
    of its [parallel] input files, in order; when they do not, which
    takes fewer than [(parallel - 1)^2] points, writing the files raises
    IndexError. *)
Theorem input_files_cover_or_raise (size : nat) (parallel : positive) :
  let w := Z.of_nat size / Zpos parallel + 1 in
  (w * (Zpos parallel - 1) <= Z.of_nat size ->
   exists fs, input_files size parallel = inl fs
              /\ concat fs = seq 0 size
              /\ length fs = Pos.to_nat parallel)
  /\ (Z.of_nat size < w * (Zpos parallel - 1) ->
      input_files size parallel = inr IndexError
      /\ Z.of_nat size < (Zpos parallel - 1) * (Zpos parallel - 1)).
Proof.
  intros w. unfold input_files. rewrite widths_eq. fold w.
  assert (Hw : 0 < w).
  { unfold w. pose proof (Z.div_pos (Z.of_nat size) (Zpos parallel)). lia. }
  assert (Ep : Z.of_nat (Pos.to_nat parallel - 1) = Zpos parallel - 1) by lia.
  split; intros H.
  - destruct (files_full size w (Pos.to_nat parallel - 1) 0 Hw (Z.le_refl 0))
      with (last := Z.of_nat size - w * (Zpos parallel - 1))
      as (fs & E & Hc & Hn); rewrite ?Ep; try lia.
    exists fs. split; [exact E|]. split; [|lia].
    rewrite Hc. cbn. f_equal. lia.
  - split; [apply files_overrun; rewrite ?Ep; lia|].
    unfold w in H. clear w Hw Ep.
    set (p := Zpos parallel) in *. set (n := Z.of_nat size) in *.
    pose proof (Z.div_mod n p ltac:(lia)) as D.
    pose proof (Z.mod_pos_bound n p ltac:(lia)) as M.
    assert (Hq : 0 <= n / p) by (apply Z.div_pos; lia).
    nia.
Qed.

End CariInputFacts.

Lemma input_files_cover_or_raise_witness :
  (exists fs, CariInput.input_files 25 6 = inl fs
              /\ concat fs = seq 0 25 /\ length fs = 6%nat)
  /\ CariInput.input_files 24 6 = inr IndexError
  /\ 24 < (6 - 1) * (6 - 1).
Proof.
  split.
  - apply (input_files_cover_or_raise 25 6). vm_compute. discriminate.
  - apply (input_files_cover_or_raise 24 6). vm_compute. reflexivity.
Defined.

(** ** The merged window *)

Lemma slice_length {A : Type} (l : list A) (lo hi : nat) :
  (hi <= length l)%nat -> length (slice l lo hi) = (hi - lo)%nat.
Proof. intros H. unfold slice. rewrite length_firstn, length_skipn. lia. Qed.

Lemma slice_nth (l : list Z) (lo hi i : nat) :
  (lo + i < hi)%nat -> nth i (slice l lo hi) 0 = nth (lo + i) l 0.
Proof.
  intros H. unfold slice. rewrite nth_firstn.
  replace (Nat.ltb i (hi - lo)) with true by (symmetry; apply Nat.ltb_lt; lia).
  rewrite nth_skipn. reflexivity.
Qed.

Lemma clip_within (max_diff d : Z) :
  0 <= max_diff ->
  - max_diff <= EstimateTakeoff.clip max_diff d <= max_diff
  /\ (- max_diff <= d <= max_diff -> EstimateTakeoff.clip max_diff d = d).
Proof.
  intros Hm. unfold EstimateTakeoff.clip.
  destruct (max_diff <? d) eqn:E1; [apply Z.ltb_lt in E1 | apply Z.ltb_ge in E1].
  - replace (max_diff <? - max_diff) with false by (symmetry; apply Z.ltb_ge; lia).
    lia.
  - destruct (d <? - max_diff) eqn:E2;
      [apply Z.ltb_lt in E2 | apply Z.ltb_ge in E2]; lia.
Qed.

Lemma rebuild_steps (max_diff prev : Z) (deltas : list Z) :
  0 <= max_diff -> 0 <= prev ->
  (forall c, In c (EstimateTakeoff.rebuild prev (map (EstimateTakeoff.clip max_diff) deltas)) ->
             0 <= c)
  /\ (forall d,
        In d (diffs (prev :: EstimateTakeoff.rebuild
                               prev (map (EstimateTakeoff.clip max_diff) deltas))) ->
        - max_diff <= d <= max_diff).
Proof.
  intros Hm. revert prev. induction deltas as [|x r IH]; intros prev Hp.
  - cbn. split; tauto.
  - cbn [map EstimateTakeoff.rebuild].
    destruct (clip_within max_diff x Hm) as [Hd _].
    set (d := EstimateTakeoff.clip max_diff x) in *.
    set (c := if prev + d <? 0 then 0 else prev + d).
    assert (Hc : 0 <= c /\ - max_diff <= c - prev <= max_diff).
    { unfold c. destruct (prev + d <? 0) eqn:E;
        [apply Z.ltb_lt in E | apply Z.ltb_ge in E]; lia. }
    destruct (IH c (proj1 Hc)) as [I1 I2]. split.
    + intros y [<-|Hy]; [apply Hc | apply I1, Hy].
    + change (diffs (prev :: c :: EstimateTakeoff.rebuild
                                    c (map (EstimateTakeoff.clip max_diff) r)))
        with ((c - prev)
              :: diffs (c :: EstimateTakeoff.rebuild
                               c (map (EstimateTakeoff.clip max_diff) r))).
      intros y [<-|Hy]; [apply Hc | apply I2, Hy].
Qed.

Lemma rebuild_identity (max_diff x : Z) (r : list Z) :
  0 <= max_diff ->
  (forall c, In c r -> 0 <= c) ->
  (forall d, In d (diffs (x :: r)) -> - max_diff <= d <= max_diff) ->
  EstimateTakeoff.rebuild x (map (EstimateTakeoff.clip max_diff) (diffs (x :: r))) = r.
Proof.
  intros Hm. revert x. induction r as [|y r IH]; intros x Hc Hd; [reflexivity|].
  change (diffs (x :: y :: r)) with ((y - x) :: diffs (y :: r)) in *.
  cbn [map EstimateTakeoff.rebuild].
  destruct (clip_within max_diff (y - x) Hm) as [_ E].
  rewrite E by (apply Hd; left; reflexivity).
  replace (x + (y - x)) with y by lia.
  replace (y <? 0) with false
    by (symmetry; apply Z.ltb_ge, Hc; left; reflexivity).
  f_equal. apply IH.
  - intros c H. apply Hc. right. exact H.
  - intros d H. apply Hd. right. exact H.
Qed.



Section MergeFacts.

Import MergeWindow.

(** For indices [takeoff_idx <= landing_idx < n] the merged window holds
    the samples [takeoff_idx .. landing_idx], its first timestamp is the
    takeoff of the flight, and every timestamp is the device's plus
    [time_offset]. *)
Lemma merge_moves_times_to_takeoff
  (device_cnt_1mn device_cnt_5sc device_time : list Z)
  (takeoff_idx landing_idx : nat) (takeoff : Z) :
  length device_cnt_1mn = length device_time ->
  length device_cnt_5sc = length device_time ->
  (takeoff_idx <= landing_idx < length device_time)%nat ->
  exists w,
    merge device_cnt_1mn device_cnt_5sc device_time takeoff_idx landing_idx takeoff
    = inl w
    /\ length (time w) = (landing_idx - takeoff_idx + 1)%nat
    /\ length (cnt_1mn w) = length (time w)
    /\ length (cnt_5sc w) = length (time w)
    /\ nth 0 (time w) 0 = takeoff
    /\ (forall i, (i <= landing_idx - takeoff_idx)%nat ->
                  nth i (time w) 0
                  = nth (takeoff_idx + i) device_time 0 + time_offset w
                  /\ nth i (cnt_1mn w) 0 = nth (takeoff_idx + i) device_cnt_1mn 0
                  /\ nth i (cnt_5sc w) 0 = nth (takeoff_idx + i) device_cnt_5sc 0).
Proof.
  intros H1 H5 Hi. unfold merge.
  rewrite (nth_error_nth' device_time 0) by lia.
  assert (Hl : length (slice device_time takeoff_idx (landing_idx + 1))
               = (landing_idx - takeoff_idx + 1)%nat)
    by (rewrite slice_length; lia).
  assert (Hn : forall i, (i <= landing_idx - takeoff_idx)%nat ->
                         nth i (slice device_time takeoff_idx (landing_idx + 1)) 0
                         = nth (takeoff_idx + i) device_time 0)
    by (intros i Hle; apply slice_nth; lia).
  destruct (slice device_time takeoff_idx (landing_idx + 1)) as [|t0 ts] eqn:E;
    [cbn in Hl; lia|].
  assert (Ht0 : t0 = nth takeoff_idx device_time 0).
  { specialize (Hn 0%nat ltac:(lia)). cbn in Hn. rewrite Nat.add_0_r in Hn. exact Hn. }
  eexists. split; [reflexivity|]. cbn [time cnt_1mn cnt_5sc time_offset].
  rewrite length_map, !slice_length by lia.
  split; [exact Hl|]. split; [lia|]. split; [lia|].
  split; [cbn; lia|].
  intros i Hle. split; [|split].
  - rewrite (nth_indep _ 0 ((fun t => t - t0 + takeoff) 0))
      by (rewrite length_map, Hl; lia).
    rewrite (map_nth (fun t => t - t0 + takeoff)), Hn by lia. lia.
  - apply slice_nth. lia.
  - apply slice_nth. lia.
Qed.

(** X20.  With the indices that [estimate_takeoff] or [align_time]
    returned, the merge that follows in [read_raw_log] raises nothing:
    the window holds the samples [takeoff_idx .. landing_idx] of the
    device, its counts unchanged, its first timestamp is the takeoff of
    the flight, and [time_offset] is the shift of every timestamp. *)
Theorem merge_after_window_search
  (device_cnt_1mn device_cnt_5sc device_time : list Z)
  (fuel : nat) (flight_duration max_diff : Z)
  (takeoff landing : Z) (flight_time : list Z) (reference : list Q)
  (t l : nat) :
  length device_cnt_1mn = length device_time ->
  length device_cnt_5sc = length device_time ->
  (0 < flight_duration
   /\ EstimateTakeoff.estimate_takeoff fuel device_cnt_5sc device_time
                                       flight_duration max_diff
      = EstimateTakeoff.Returned t l)
  \/ (exists R2,
        AlignTime.align_time fuel device_time device_cnt_1mn takeoff landing
                             flight_time reference
        = AlignTime.Returned t l R2) ->
  exists w,
    merge device_cnt_1mn device_cnt_5sc device_time t l takeoff = inl w
    /\ length (time w) = (l - t + 1)%nat
    /\ length (cnt_1mn w) = length (time w)
    /\ length (cnt_5sc w) = length (time w)
    /\ nth 0 (time w) 0 = takeoff
    /\ (forall i, (i <= l - t)%nat ->
                  nth i (time w) 0 = nth (t + i) device_time 0 + time_offset w
                  /\ nth i (cnt_1mn w) 0 = nth (t + i) device_cnt_1mn 0
                  /\ nth i (cnt_5sc w) 0 = nth (t + i) device_cnt_5sc 0).
Proof.
  intros H1 H5 H. apply merge_moves_times_to_takeoff; [exact H1 | exact H5 |].
  destruct H as [[HD H] | [R2 H]].
  - pose proof (estimate_takeoff_contained _ _ _ _ _ _ _ HD H). lia.
  - apply (align_run_contained _ _ _ _ _ _ _ _ _ _ _ H).
Qed.

End MergeFacts.

Lemma merge_after_window_search_witness :
  exists w,
    MergeWindow.merge [1; 1; 1; 50; 50; 50; 50; 1; 1; 1]
                      [1; 1; 1; 50; 50; 50; 50; 1; 1; 1]
                      [0; 60; 120; 180; 240; 300; 360; 420; 480; 540]
                      3 6 1000
    = inl w
    /\ nth 0 (MergeWindow.time w) 0 = 1000.
Proof.
  destruct (merge_after_window_search
              [1; 1; 1; 50; 50; 50; 50; 1; 1; 1]
              [1; 1; 1; 50; 50; 50; 50; 1; 1; 1]
              [0; 60; 120; 180; 240; 300; 360; 420; 480; 540]
              20 240 100 1000 0 [] [] 3 6 eq_refl eq_refl
              (or_introl (conj eq_refl eq_refl)))
    as (w & E & _ & _ & _ & H0 & _).
  exists w. split; [exact E | exact H0].
Defined.

(** ** Recovered flights *)

Section RecoverFlightFacts.

Import RecoverFlight.

Variable date : Type.
Variable date_of : Z -> date.
Variable airports : list airport.
Variable lat_lon_dist : option Q -> option Q -> option Q -> option Q -> option Q.

Lemma less_chain (x y best : option Q) :
  less x best = true -> less y best = false -> less y x = false.
Proof.
  destruct x as [a|], y as [c|], best as [b|]; cbn; try congruence.
  intros H1 H2. apply Qltb_lt in H1. apply Qltb_ge in H2. apply Qltb_ge.
  apply Qlt_le_weak. apply (Qlt_le_trans _ _ _ H1 H2).
Qed.

Lemma less_not_chain (x best v : option Q) :
  less x best = false -> less best v = false -> less x v = false.
Proof.
  destruct x as [a|], best as [b|], v as [c|]; cbn; try congruence.
  intros H1 H2. apply Qltb_ge in H1, H2. apply Qltb_ge.
  apply (Qle_trans _ _ _ H2 H1).
Qed.

Lemma less_irrefl (x : option Q) : less x x = false.
Proof. destruct x as [a|]; [|reflexivity]. cbn. apply Qltb_ge, Qle_refl. Qed.

(** [argmin_from] ends on the best entry so far or on an entry of the
    list, and no entry is smaller than the one it ends on. *)
Lemma argmin_from_least (l : list (option Q)) (best_i : nat) (best : option Q)
  (i : nat) :
  exists v,
    ((argmin_from best_i best i l = best_i /\ v = best)
     \/ ((i <= argmin_from best_i best i l)%nat
         /\ nth_error l (argmin_from best_i best i l - i) = Some v))
    /\ less best v = false
    /\ (forall x, In x l -> less x v = false).
Proof.
  revert best_i best i. induction l as [|x r IH]; intros best_i best i.
  - exists best. split; [left; split; reflexivity|].
    split; [apply less_irrefl | intros x []].
  - cbn [argmin_from]. destruct (less x best) eqn:E.
    + destruct (IH i x (S i)) as (v & Hv & Hb & Hr). exists v. split; [|split].
      * right. destruct Hv as [[Hi ->] | [Hle Hn]].
        -- rewrite Hi. split; [lia|]. rewrite Nat.sub_diag. reflexivity.
        -- split; [lia|].
           replace (argmin_from i x (S i) r - i)%nat
             with (S (argmin_from i x (S i) r - S i)) by lia.
           exact Hn.
      * clear -E Hb.
        destruct best as [b|], x as [a|], v as [c|]; cbn in *; try congruence.
        apply Qltb_lt in E. apply Qltb_ge in Hb. apply Qltb_ge.
        apply Qlt_le_weak. apply (Qle_lt_trans _ _ _ Hb E).
      * intros y [<-|Hy]; [exact Hb | apply Hr, Hy].
    + destruct (IH best_i best (S i)) as (v & Hv & Hb & Hr). exists v.
      split; [|split].
      * destruct Hv as [[Hi ->] | [Hle Hn]]; [left; auto|].
        right. split; [lia|].
        replace (argmin_from best_i best (S i) r - i)%nat
          with (S (argmin_from best_i best (S i) r - S i)) by lia.
        exact Hn.
      * exact Hb.
      * intros y [Hy|Hy]; [subst y | apply Hr, Hy].
        apply (less_not_chain _ _ _ E Hb).
Qed.

Lemma argmin_least (l : list (option Q)) (i : nat) :
  argmin l = inl i ->
  exists v, nth_error l i = Some v /\ forall x, In x l -> less x v = false.
Proof.
  destruct l as [|x r]; [discriminate|]. cbn [argmin]. intros H. injection H as <-.
  destruct (argmin_from_least r 0 x 1) as (v & Hv & Hb & Hr).
  exists v. split.
  - destruct Hv as [[-> ->] | [Hle Hn]]; [reflexivity|].
    destruct (argmin_from 0 x 1 r) as [|k]; [lia|].
    cbn [nth_error]. replace (S k - 1)%nat with k in Hn by lia. exact Hn.
  - intros y [<-|Hy]; [exact Hb | apply Hr, Hy].
Qed.

Lemma nth_error_last {A : Type} (l : list A) (x d : A) :
  nth_error (x :: l) (length l) = Some (last (x :: l) d).
Proof.
  revert x. induction l as [|y l IH]; intros x; [reflexivity|].
  cbn [length nth_error]. rewrite IH. reflexivity.
Qed.

(** The airport [nearest] names: none is nearer. *)
Lemma nearest_is_nearest (lat0 lon0 : option Q) (code : String.string) :
  nearest airports lat_lon_dist lat0 lon0 = inl code ->
  exists a,
    In a airports /\ code = String.substring 0 4 (icao a)
    /\ forall b, In b airports ->
         less (lat_lon_dist lat0 lon0 (Some (airport_lat b)) (Some (airport_lon b)))
              (lat_lon_dist lat0 lon0 (Some (airport_lat a)) (Some (airport_lon a)))
         = false.
Proof.
  unfold nearest.
  destruct (argmin _) as [i|e] eqn:A; [|discriminate].
  destruct (nth_error airports i) as [a|] eqn:N; [|discriminate].
  intros H. injection H as <-. exists a.
  split; [apply (nth_error_In _ _ N)|]. split; [reflexivity|].
  apply argmin_least in A. destruct A as (v & Hv & Hmin).
  rewrite nth_error_map, N in Hv. cbn in Hv. injection Hv as <-.
  intros b Hb. apply Hmin. apply in_map_iff. exists b. auto.
Qed.

(** X21.  Without a sample that has a position and lies within the
    times given, [recover_flight] raises IndexError. *)
Theorem recover_flight_needs_a_position (data : list sample)
  (takeoff landing : option Z) (flight_number : String.string) :
  (forall s, In s data -> valid takeoff landing s = false) ->
  recover_flight date date_of airports lat_lon_dist data takeoff landing
                 flight_number
  = inr IndexError.
Proof.
  intros H. unfold recover_flight.
  replace (filter (valid takeoff landing) data) with (@nil sample); [reflexivity|].
  symmetry. induction data as [|s r IH]; [reflexivity|].
  cbn [filter]. rewrite (H s (or_introl eq_refl)).
  apply IH. intros x Hx. apply H. right. exact Hx.
Qed.

(** X22.  What [recover_flight] returns: the samples that have a
    position and lie within the times given, in order; the takeoff and
    landing are the first and last of their times; the flight number is
    the argument; and origin and destination are airports none of which
    is nearer to the first and to the last position. *)
Theorem recover_flight_keeps_positions (data : list sample)
  (takeoff_time landing_time : option Z) (number : String.string)
  (f : flight date) :
  recover_flight date date_of airports lat_lon_dist data takeoff_time landing_time
                 number
  = inl f ->
  let kept := filter (valid takeoff_time landing_time) data in
  kept <> []
  /\ time f = map time_of kept /\ lat f = map lat_of kept
  /\ lon f = map lon_of kept /\ alt f = map alt_of kept
  /\ (forall s, In s kept ->
        lat_of s <> None /\ lon_of s <> None /\ alt_of s <> None
        /\ (forall t, takeoff_time = Some t -> t <= time_of s)
        /\ (forall t, landing_time = Some t -> time_of s <= t))
  /\ nth_error (time f) 0 = Some (takeoff f)
  /\ nth_error (time f) (length (time f) - 1) = Some (landing f)
  /\ flight_number f = number
  /\ (exists a first,
        nth_error kept 0 = Some first /\ In a airports
        /\ origin_ICAO f = String.substring 0 4 (icao a)
        /\ forall b, In b airports ->
             less (lat_lon_dist (lat_of first) (lon_of first)
                                (Some (airport_lat b)) (Some (airport_lon b)))
                  (lat_lon_dist (lat_of first) (lon_of first)
                                (Some (airport_lat a)) (Some (airport_lon a)))
             = false)
  /\ (exists a final,
        nth_error kept (length kept - 1) = Some final /\ In a airports
        /\ destination_ICAO f = String.substring 0 4 (icao a)
        /\ forall b, In b airports ->
             less (lat_lon_dist (lat_of final) (lon_of final)
                                (Some (airport_lat b)) (Some (airport_lon b)))
                  (lat_lon_dist (lat_of final) (lon_of final)
                                (Some (airport_lat a)) (Some (airport_lon a)))
             = false).
Proof.
  intros H kept. unfold recover_flight in H. fold kept in H.
  assert (Hk : forall s, In s kept ->
             lat_of s <> None /\ lon_of s <> None /\ alt_of s <> None
             /\ (forall t, takeoff_time = Some t -> t <= time_of s)
             /\ (forall t, landing_time = Some t -> time_of s <= t)).
  { intros s Hs. apply filter_In in Hs. destruct Hs as [_ V]. unfold valid in V.
    apply andb_true_iff in V. destruct V as [V V3].
    apply andb_true_iff in V. destruct V as [V1 V2].
    destruct (lat_of s), (lon_of s), (alt_of s); try discriminate.
    repeat split; try discriminate.
    - intros t ->. apply Z.leb_le, V2.
    - intros t ->. apply Z.leb_le, V3. }
  destruct kept as [|first rest] eqn:K; [discriminate|].
  destruct (nearest _ _ (lat_of first) (lon_of first)) as [o|e] eqn:N1;
    [|discriminate].
  destruct (nearest _ _ (lat_of (last _ _)) _) as [d|e] eqn:N2; [|discriminate].
  destruct (city_of airports o) as [co|e]; [|discriminate].
  destruct (city_of airports d) as [cd|e]; [|discriminate].
  injection H as <-.
  cbn [time lat lon alt takeoff landing flight_number origin_ICAO destination_ICAO].
  split; [discriminate|]. repeat (split; [reflexivity|]).
  split; [exact Hk|]. split; [reflexivity|].
  split; [|split; [reflexivity|split]].
  - change (time_of first :: map time_of rest) with (map time_of (first :: rest)).
    rewrite length_map.
    replace (length (first :: rest) - 1)%nat with (length rest) by (cbn; lia).
    rewrite nth_error_map, (nth_error_last rest first first). reflexivity.
  - apply nearest_is_nearest in N1. destruct N1 as (a & Ha & Ho & Hmin).
    exists a, first. split; [reflexivity|]. auto.
  - apply nearest_is_nearest in N2. destruct N2 as (a & Ha & Ho & Hmin).
    exists a, (last (first :: rest) first). split; [|auto].
    replace (length (first :: rest) - 1)%nat with (length rest) by (cbn; lia).
    apply nth_error_last.
Qed.

End RecoverFlightFacts.

Lemma recover_flight_needs_a_position_witness :
  RecoverFlight.recover_flight
    Z (fun t => t / 86400) RecoverFlight.example_airports
    RecoverFlight.example_dist
    [RecoverFlight.mkSample 10 None None None;
     RecoverFlight.mkSample 20 (Some 1%Q) None (Some 2%Q)]
    None None String.EmptyString
  = inr IndexError.
Proof.
  apply recover_flight_needs_a_position.
  intros s [<-|[<-|[]]]; reflexivity.
Defined.

Lemma recover_flight_keeps_positions_witness :
  RecoverFlight.time RecoverFlight.example_flight
  = map RecoverFlight.time_of
        (filter (RecoverFlight.valid (Some 15) (Some 45))
                RecoverFlight.example_data)
  /\ nth_error (RecoverFlight.time RecoverFlight.example_flight) 0
     = Some (RecoverFlight.takeoff RecoverFlight.example_flight).
Proof.
  destruct (recover_flight_keeps_positions
              Z (fun t => t / 86400) RecoverFlight.example_airports
              RecoverFlight.example_dist RecoverFlight.example_data
              (Some 15) (Some 45) String.EmptyString
              RecoverFlight.example_flight eq_refl)
    as (_ & Ht & _ & _ & _ & _ & H0 & _).
  split; [exact Ht | exact H0].
Defined.

(** ** Drive links *)

Module DriveLinkFacts.

Import String Ascii ProcessedLog DriveLink.
Local Open Scope list_scope.
Local Open Scope string_scope.

Lemma rfind_from_none_any (pat s : string) (i j : nat) :
  rfind_from pat s i = None -> rfind_from pat s j = None.
Proof.
  revert i j. induction s as [|c r IH]; intros i j; cbn [rfind_from].
  - destruct (prefix pat ""); [discriminate | reflexivity].
  - destruct (rfind_from pat r (S i)) eqn:E; [discriminate|].
    rewrite (IH _ (S j) E). destruct (prefix pat (String c r)); [discriminate|].
    reflexivity.
Qed.

(** An occurrence of [pat] with none after it is the one [rfind] finds. *)
Lemma rfind_from_last (pat a b : string) (i : nat) :
  prefix pat b = true ->
  (forall c r, b = String c r -> rfind_from pat r 0 = None) ->
  rfind_from pat (a ++ b) i = Some (i + String.length a)%nat.
Proof.
  intros Hp Hlater. revert i. induction a as [|x a IH]; intros i.
  - cbn [append String.length]. rewrite Nat.add_0_r. destruct b as [|c r].
    + cbn [rfind_from]. rewrite Hp. reflexivity.
    + cbn [rfind_from].
      rewrite (rfind_from_none_any pat r 0 (S i) (Hlater c r eq_refl)).
      rewrite Hp. reflexivity.
  - cbn [append rfind_from String.length]. rewrite IH. f_equal. lia.
Qed.

Lemma rfind_last (pat a b : string) :
  prefix pat b = true ->
  (forall c r, b = String c r -> rfind_from pat r 0 = None) ->
  rfind pat (a ++ b) = Z.of_nat (String.length a).
Proof.
  intros Hp Hl. unfold rfind. rewrite (rfind_from_last pat a b 0 Hp Hl).
  reflexivity.
Qed.

(** A text without the first character of [pat] holds no [pat]. *)
Lemma rfind_from_no_char (c : ascii) (p s : string) (i : nat) :
  no_char c s = true -> rfind_from (String c p) s i = None.
Proof.
  revert i. induction s as [|x r IH]; intros i H; cbn [rfind_from prefix].
  - reflexivity.
  - unfold no_char in H. cbn [all_chars] in H. apply andb_true_iff in H.
    destruct H as [Hx Hr]. rewrite (IH _ Hr).
    destruct (ascii_dec c x) as [->|N].
    + rewrite Ascii.eqb_refl in Hx. discriminate.
    + destruct (ascii_dec c x); [contradiction | reflexivity].
Qed.

(** The number of times [c] occurs in [s]. *)
Lemma rfind_from_none_contains (pat s : string) (i : nat) :
  contains pat s = false -> rfind_from pat s i = None.
Proof.
  revert i. induction s as [|x r IH]; intros i; cbn [contains rfind_from].
  - destruct (prefix pat ""); [discriminate | reflexivity].
  - destruct (prefix pat (String x r)); [discriminate|].
    intros H. rewrite (IH _ H). reflexivity.
Qed.

Lemma no_char_app (c : ascii) (a b : string) :
  no_char c (a ++ b) = no_char c a && no_char c b.
Proof.
  unfold no_char. induction a as [|x a IH]; cbn [append all_chars]; [reflexivity|].
  rewrite IH. apply andb_assoc.
Qed.

Lemma bound_within (n : nat) (k : nat) : (k <= n)%nat -> bound n (Z.of_nat k) = k.
Proof.
  intros H. unfold bound.
  replace (Z.ltb (Z.of_nat k) 0) with false by (symmetry; apply Z.ltb_ge; lia).
  lia.
Qed.

Lemma length_app (a b : string) :
  String.length (a ++ b) = (String.length a + String.length b)%nat.
Proof. induction a as [|x a IH]; cbn [append String.length]; [reflexivity | lia]. Qed.

Lemma substring_skip (a s : string) (m : nat) :
  substring (String.length a) m (a ++ s) = substring 0 m s.
Proof. induction a as [|x a IH]; cbn [append String.length substring]; auto. Qed.

Lemma substring_head (v c : string) :
  substring 0 (String.length v) (v ++ c) = v.
Proof.
  induction v as [|x v IH]; cbn [append String.length substring].
  - destruct c; reflexivity.
  - rewrite IH. reflexivity.
Qed.

Lemma substring_all (v : string) : substring 0 (String.length v) v = v.
Proof.
  induction v as [|x v IH]; cbn [String.length substring]; [reflexivity|].
  rewrite IH. reflexivity.
Qed.

Lemma slice_middle (a v c : string) :
  slice (a ++ v ++ c) (Z.of_nat (String.length a))
        (Z.of_nat (String.length a + String.length v))
  = v.
Proof.
  unfold slice. rewrite !length_app, !bound_within by lia.
  replace (String.length a + String.length v - String.length a)%nat
    with (String.length v) by lia.
  rewrite substring_skip. apply substring_head.
Qed.

Lemma slice_from_tail (a v : string) :
  slice_from (a ++ v) (Z.of_nat (String.length a)) = v.
Proof.
  unfold slice_from. rewrite !length_app, !bound_within by lia.
  replace (String.length a + String.length v - String.length a)%nat
    with (String.length v) by lia.
  rewrite substring_skip. apply substring_all.
Qed.

Lemma prefix_self (pat v : string) : prefix pat (pat ++ v) = true.
Proof.
  induction pat as [|a p IH]; cbn [append prefix].
  - destruct v; reflexivity.
  - destruct (ascii_dec a a); [exact IH | contradiction].
Qed.

Lemma contains_middle (pat pre v : string) :
  contains pat (pre ++ pat ++ v) = true.
Proof.
  induction pre as [|x pre IH]; cbn [append].
  - pose proof (prefix_self pat v) as P.
    destruct (pat ++ v) eqn:E; cbn [contains]; rewrite P; reflexivity.
  - cbn [contains]. rewrite IH. destruct (prefix pat _); reflexivity.
Qed.

(** X23.  A link [...id=ID] without ["file/d"], whose [ID] holds no
    ["="]: [extract_drive_id] returns [ID], what follows the last
    ["="]. *)
Theorem extract_drive_id_of_open_link (pre id : string) :
  no_char "=" id = true ->
  contains "file/d" (pre ++ "id=" ++ id) = false ->
  extract_drive_id (pre ++ "id=" ++ id) = id.
Proof.
  intros Hid Hf. unfold extract_drive_id. rewrite Hf.
  rewrite (contains_middle "id=" pre id).
  replace (pre ++ "id=" ++ id) with ((pre ++ "id") ++ "=" ++ id)
    by (rewrite ProcessedLogFacts.append_assoc; reflexivity).
  rewrite (rfind_last "=" (pre ++ "id") ("=" ++ id)).
  - replace (Z.add (Z.of_nat (String.length (pre ++ "id"))) 1)
      with (Z.of_nat (String.length ((pre ++ "id") ++ "=")))
      by (rewrite (length_app (pre ++ "id") "="); cbn [String.length]; lia).
    replace ((pre ++ "id") ++ "=" ++ id) with (((pre ++ "id") ++ "=") ++ id)
      by (rewrite (ProcessedLogFacts.append_assoc (pre ++ "id")); reflexivity).
    apply slice_from_tail.
  - apply prefix_self.
  - intros c r E. cbn [append] in E. injection E as _ <-.
    apply rfind_from_no_char, Hid.
Qed.

Lemma occurrences_app (c : ascii) (a b : string) :
  occurrences c (a ++ b) = (occurrences c a + occurrences c b)%nat.
Proof.
  induction a as [|x a IH]; cbn [append occurrences]; [reflexivity|].
  rewrite IH. lia.
Qed.

Lemma occurrences_no_char (c : ascii) (s : string) :
  no_char c s = true -> occurrences c s = 0%nat.
Proof.
  unfold no_char. induction s as [|x s IH]; cbn [all_chars occurrences];
    [reflexivity|].
  intros H. apply andb_true_iff in H. destruct H as [Hx Hs].
  apply negb_true_iff in Hx. rewrite Hx, (IH Hs). reflexivity.
Qed.

Lemma prefix_occurrences (c : ascii) (pat s : string) :
  prefix pat s = true -> (occurrences c pat <= occurrences c s)%nat.
Proof.
  revert s. induction pat as [|a p IH]; intros s; [cbn; lia|].
  destruct s as [|b s]; cbn [prefix occurrences]; [discriminate|].
  destruct (ascii_dec a b) as [->|]; [|discriminate].
  intros H. specialize (IH s H). lia.
Qed.

(** A text with fewer [c] than [pat] holds no [pat]. *)
Lemma rfind_from_fewer (c : ascii) (pat s : string) (i : nat) :
  (occurrences c s < occurrences c pat)%nat -> rfind_from pat s i = None.
Proof.
  revert i. induction s as [|x r IH]; intros i H; cbn [rfind_from].
  - destruct (prefix pat "") eqn:P; [|reflexivity].
    apply (prefix_occurrences c) in P. lia.
  - rewrite IH by (cbn [occurrences] in H; lia).
    destruct (prefix pat (String x r)) eqn:P; [|reflexivity].
    apply (prefix_occurrences c) in P. lia.
Qed.

Lemma rfind_from_skip (pat : string) (x : ascii) (r : string) (i : nat) :
  prefix pat (String x r) = false -> rfind_from pat r 0 = None ->
  rfind_from pat (String x r) i = None.
Proof.
  intros P T. cbn [rfind_from]. rewrite (rfind_from_none_any pat r 0 (S i) T), P.
  reflexivity.
Qed.

(** X24.  A link [.../file/d/ID/view...] with no ["/"] in [ID] nor after
    ["/view"]: [extract_drive_id] returns [ID], what lies between the
    last ["file/d/"] and the last ["/view"], whatever precedes and
    whether or not the link also holds ["id="]. *)
Theorem extract_drive_id_of_view_link (pre id post : string) :
  no_char "/" id = true -> no_char "/" post = true ->
  extract_drive_id (pre ++ "file/d/" ++ id ++ "/view" ++ post) = id.
Proof.
  intros Hid Hpost. unfold extract_drive_id.
  assert (C : contains "file/d" (pre ++ "file/d/" ++ id ++ "/view" ++ post) = true).
  { change ("file/d/" ++ id ++ "/view" ++ post)
      with ("file/d" ++ "/" ++ id ++ "/view" ++ post).
    apply contains_middle. }
  rewrite C.
  assert (V : rfind_from "/view" ("view" ++ post) 0 = None).
  { apply rfind_from_no_char. rewrite no_char_app, Hpost. reflexivity. }
  assert (T : rfind_from "file/d/" (id ++ "/view" ++ post) 0 = None).
  { apply (rfind_from_fewer "/").
    rewrite !occurrences_app, (occurrences_no_char _ _ Hid),
      (occurrences_no_char _ _ Hpost).
    cbn. lia. }
  replace (pre ++ "file/d/" ++ id ++ "/view" ++ post)
    with ((pre ++ "file/d/" ++ id) ++ "/view" ++ post)
    by (rewrite !ProcessedLogFacts.append_assoc; reflexivity).
  rewrite (rfind_last "/view" (pre ++ "file/d/" ++ id) ("/view" ++ post));
    [|apply prefix_self
     |intros c r E; cbn [append] in E; injection E as _ <-; exact V].
  replace ((pre ++ "file/d/" ++ id) ++ "/view" ++ post)
    with (pre ++ "file/d/" ++ id ++ "/view" ++ post)
    by (rewrite !ProcessedLogFacts.append_assoc; reflexivity).
  rewrite (rfind_last "file/d/" pre ("file/d/" ++ id ++ "/view" ++ post));
    [|apply prefix_self|].
  - replace (Z.add (Z.of_nat (String.length pre)) 7)
      with (Z.of_nat (String.length (pre ++ "file/d/")))
      by (rewrite length_app; cbn [String.length]; lia).
    replace (String.length (pre ++ "file/d/" ++ id))
      with (String.length (pre ++ "file/d/") + String.length id)%nat
      by (rewrite !length_app; lia).
    replace (pre ++ "file/d/" ++ id ++ "/view" ++ post)
      with ((pre ++ "file/d/") ++ id ++ "/view" ++ post)
      by (rewrite !ProcessedLogFacts.append_assoc; reflexivity).
    apply slice_middle.
  - intros c r E. cbn [append] in E. injection E as _ <-.
    repeat (apply rfind_from_skip; [reflexivity|]). exact T.
Qed.

(** X25.  A link [.../file/d/ID] that holds no ["/view"]: [rfind] gives
    -1 for the end of the slice, and [extract_drive_id] returns [ID]
    without its last character. *)
Theorem extract_drive_id_without_view (pre id : string) :
  no_char "/" id = true ->
  contains "/view" (pre ++ "file/d/" ++ id) = false ->
  extract_drive_id (pre ++ "file/d/" ++ id)
  = substring 0 (String.length id - 1) id.
Proof.
  intros Hid Hv. unfold extract_drive_id.
  assert (C : contains "file/d" (pre ++ "file/d/" ++ id) = true).
  { change ("file/d/" ++ id) with ("file/d" ++ "/" ++ id). apply contains_middle. }
  rewrite C.
  assert (V : rfind "/view" (pre ++ "file/d/" ++ id) = (-1)%Z).
  { unfold rfind. rewrite (rfind_from_none_contains _ _ 0 Hv). reflexivity. }
  rewrite V.
  rewrite (rfind_last "file/d/" pre ("file/d/" ++ id)); [|apply prefix_self|].
  - replace (Z.add (Z.of_nat (String.length pre)) 7)
      with (Z.of_nat (String.length (pre ++ "file/d/")))
      by (rewrite length_app; cbn [String.length]; lia).
    replace (pre ++ "file/d/" ++ id) with ((pre ++ "file/d/") ++ id)
      by (rewrite !ProcessedLogFacts.append_assoc; reflexivity).
    unfold slice. rewrite length_app, bound_within by lia.
    replace (bound (String.length (pre ++ "file/d/") + String.length id) (-1)
             - String.length (pre ++ "file/d/"))%nat
      with (String.length id - 1)%nat.
    + apply substring_skip.
    + unfold bound. cbn [Z.ltb Z.compare].
      rewrite (length_app pre). cbn [String.length]. lia.
  - intros c r E. cbn [append] in E. injection E as _ <-.
    repeat (apply rfind_from_skip; [reflexivity|]).
    apply (rfind_from_fewer "/").
    rewrite (occurrences_no_char _ _ Hid). cbn. lia.
Qed.

Lemma extract_drive_id_of_open_link_witness :
  extract_drive_id ("https://drive.google.com/open?" ++ "id=" ++ "1AbC_d-9")
  = "1AbC_d-9".
Proof.
  apply (extract_drive_id_of_open_link "https://drive.google.com/open?" "1AbC_d-9");
    vm_compute; reflexivity.
Defined.

Lemma extract_drive_id_of_view_link_witness :
  extract_drive_id ("https://drive.google.com/" ++ "file/d/" ++ "1AbC_d-9"
                    ++ "/view" ++ "?usp=sharing")
  = "1AbC_d-9".
Proof.
  apply (extract_drive_id_of_view_link "https://drive.google.com/" "1AbC_d-9"
           "?usp=sharing"); vm_compute; reflexivity.
Defined.

Lemma extract_drive_id_without_view_witness :
  extract_drive_id ("https://drive.google.com/" ++ "file/d/" ++ "1AbC_d-9")
  = substring 0 (String.length "1AbC_d-9" - 1) "1AbC_d-9".
Proof.
  apply (extract_drive_id_without_view "https://drive.google.com/" "1AbC_d-9");
    vm_compute; reflexivity.
Defined.

End DriveLinkFacts.

(** ** The Safecast reader *)

Section SafecastFacts.

Import SafecastLog Device.

Variable strptime : String.string -> option Z.
Variable py_int : String.string -> option Z.
Variable py_float : String.string -> option (option Q).

Lemma sentence_passed_over (line : String.string) (d : data) :
  passed_over line = true -> sentence strptime py_int py_float line d = inl d.
Proof.
  unfold passed_over, sentence.
  destruct (negb (String.prefix _ line)); [reflexivity|]. cbn [orb].
  destruct (nth_error _ 6) as [r6|]; [|discriminate].
  intros ->. reflexivity.
Qed.

(** X26.  [read_safecast_log] omits the lines that are no [$BNRDD]
    sentence and the sentences whose device status holds no ["A"]:
    dropping them from the file changes nothing of what the reader
    returns or raises. *)
Theorem read_safecast_log_omits_invalid (lines : list String.string) :
  read_safecast_log strptime py_int py_float lines
  = read_safecast_log strptime py_int py_float
      (filter (fun line => negb (passed_over line)) lines).
Proof.
  unfold read_safecast_log. generalize (mkData String.EmptyString [] [] [] [] [] []).
  induction lines as [|line rest IH]; intros d; [reflexivity|].
  cbn [filter sentences]. destruct (passed_over line) eqn:P; cbn [negb].
  - rewrite (sentence_passed_over line d P). apply IH.
  - cbn [sentences]. destruct (sentence _ _ _ line d); [apply IH | reflexivity].
Qed.

Lemma sentence_adds_one (line : String.string) (d d' : data) :
  passed_over line = false ->
  sentence strptime py_int py_float line d = inl d' ->
  length (time d') = S (length (time d))
  /\ length (cnt_1mn d') = S (length (cnt_1mn d))
  /\ length (cnt_5sc d') = S (length (cnt_5sc d))
  /\ length (lat d') = S (length (lat d))
  /\ length (lon d') = S (length (lon d))
  /\ length (alt d') = S (length (alt d)).
Proof.
  unfold passed_over, sentence.
  destruct (negb (String.prefix _ line)); [discriminate|]. cbn [orb].
  destruct (nth_error _ 6) as [r6|]; [|discriminate].
  intros ->.
  destruct (strptime _); [|discriminate].
  destruct (py_int _); [|discriminate].
  destruct (py_int _); [|discriminate].
  destruct (nth_error _ 12); [|discriminate].
  match goal with
  | |- match ?g with _ => _ end = _ -> _ => destruct g as [[[la lo] al]|e]
  end; [|discriminate].
  intros H. injection H as <-. cbn [time cnt_1mn cnt_5sc lat lon alt].
  rewrite !length_app. cbn [length]. lia.
Qed.

(** X27.  When [read_safecast_log] returns, its six arrays have one
    entry for every [$BNRDD] sentence with a valid device status,
    whether or not the position of the sentence is valid. *)
Theorem read_safecast_log_aligned (lines : list String.string) (d : data) :
  read_safecast_log strptime py_int py_float lines = inl d ->
  let n := length (filter (fun line => negb (passed_over line)) lines) in
  length (time d) = n /\ length (cnt_1mn d) = n /\ length (cnt_5sc d) = n
  /\ length (lat d) = n /\ length (lon d) = n /\ length (alt d) = n.
Proof.
  unfold read_safecast_log.
  assert (G : forall d0 d1,
             sentences strptime py_int py_float lines d0 = inl d1 ->
             let n := length (filter (fun line => negb (passed_over line)) lines) in
             length (time d1) = (length (time d0) + n)%nat
             /\ length (cnt_1mn d1) = (length (cnt_1mn d0) + n)%nat
             /\ length (cnt_5sc d1) = (length (cnt_5sc d0) + n)%nat
             /\ length (lat d1) = (length (lat d0) + n)%nat
             /\ length (lon d1) = (length (lon d0) + n)%nat
             /\ length (alt d1) = (length (alt d0) + n)%nat).
  { induction lines as [|line rest IH]; intros d0 d1; cbn [sentences filter].
    - intros H. injection H as <-. cbn. lia.
    - destruct (sentence _ _ _ line d0) as [d'|e] eqn:S; [|discriminate].
      intros H. specialize (IH _ _ H). cbn zeta in IH.
      destruct (passed_over line) eqn:P; cbn [negb].
      + rewrite (sentence_passed_over line d0 P) in S. injection S as <-. exact IH.
      + destruct (sentence_adds_one line d0 d' P S) as (A1 & A2 & A3 & A4 & A5 & A6).
        cbn [length]. cbn zeta. lia. }
  intros H. apply (G _ _ H).
Qed.

End SafecastFacts.

Lemma read_safecast_log_aligned_witness :
  length (Device.time SafecastLog.example_data) = 2%nat
  /\ length (Device.cnt_1mn SafecastLog.example_data) = 2%nat
  /\ length (Device.cnt_5sc SafecastLog.example_data) = 2%nat
  /\ length (Device.lat SafecastLog.example_data) = 2%nat
  /\ length (Device.lon SafecastLog.example_data) = 2%nat
  /\ length (Device.alt SafecastLog.example_data) = 2%nat.
Proof.
  apply (read_safecast_log_aligned
           ProcessedLog.int_of_str ProcessedLog.int_of_str
           SafecastLog.example_float SafecastLog.example_lines).
  vm_compute. reflexivity.
Defined.

(** ** The reader of the other counters *)

Section CsvLogFacts.

Import CsvLog Device.

Variable dl : dialect.

Lemma row_step_lengths (line : String.string) (d d' : data) :
  row_step dl (split (separator dl) line) d = inl d' ->
  exists m,
    length (cnt_1mn d') = (length (cnt_1mn d) + m)%nat
    /\ length (cnt_5sc d') = (length (cnt_5sc d) + m)%nat
    /\ length (lat d') = (length (lat d) + m)%nat
    /\ length (lon d') = (length (lon d) + m)%nat
    /\ length (alt d') = (length (alt d) + m)%nat
    /\ length (time d')
       = (length (time d) + m + if unmatched dl line then 1 else 0)%nat
    /\ device_id d' = device_id d.
Proof.
  unfold row_step, unmatched.
  destruct (time_of dl _) as [t|];
    [|intros H; injection H as <-; exists 0%nat; cbn; repeat split; (lia || reflexivity)].
  destruct (nth_error _ (column dl)) as [c|];
    [|intros H; injection H as <-; exists 0%nat; cbn; repeat split; (lia || reflexivity)].
  destruct (String.eqb c String.EmptyString);
    [intros H; injection H as <-; exists 0%nat; cbn; repeat split; (lia || reflexivity)|].
  cbn [negb andb].
  destruct (convert dl c) as [c1 c5| |]; [| |discriminate];
    intros H; injection H as <-; cbn [time cnt_1mn cnt_5sc lat lon alt device_id];
    rewrite ?length_app; cbn [length].
  - exists 1%nat. repeat split; (lia || reflexivity).
  - exists 0%nat. repeat split; (lia || reflexivity).
Qed.

Lemma rows_lengths (lines : list String.string) (d d' : data) :
  rows dl lines d = inl d' ->
  exists m,
    length (cnt_1mn d') = (length (cnt_1mn d) + m)%nat
    /\ length (cnt_5sc d') = (length (cnt_5sc d) + m)%nat
    /\ length (lat d') = (length (lat d) + m)%nat
    /\ length (lon d') = (length (lon d) + m)%nat
    /\ length (alt d') = (length (alt d) + m)%nat
    /\ length (time d')
       = (length (time d) + m + length (filter (unmatched dl) lines))%nat
    /\ device_id d' = device_id d.
Proof.
  revert d. induction lines as [|line rest IH]; intros d; cbn [rows filter].
  - intros H. injection H as <-. exists 0%nat. cbn.
    repeat split; (lia || reflexivity).
  - destruct (row_step dl _ d) as [d1|e] eqn:S; [|discriminate].
    intros H. destruct (IH _ H) as (m2 & B1 & B2 & B3 & B4 & B5 & B6 & B7).
    destruct (row_step_lengths _ _ _ S) as (m1 & A1 & A2 & A3 & A4 & A5 & A6 & A7).
    exists (m1 + m2)%nat.
    destruct (unmatched dl line); cbn [length]; repeat split; try lia; congruence.
Qed.

End CsvLogFacts.

Section CsvReaderFacts.

Import CsvLog Device.

Variable strptime_dash strptime_slash strptime_seconds strptime_rium
  : String.string -> option Z.
Variable py_int : String.string -> option Z.
Variable rate_counts : String.string -> conversion.

(** X28.  When [read_otherdata_csv] returns, the device id is that of
    the format found, the two count arrays and the three position
    arrays have one length, and the array of timestamps is longer by
    the number of rows with a timestamp and a count that is no number:
    the timestamp of such a row is kept, its count is not. *)
Theorem read_otherdata_csv_alignment (data_filename : String.string)
  (lines : list String.string) (d : data) :
  read_otherdata_csv strptime_dash strptime_slash strptime_seconds strptime_rium
                     py_int rate_counts data_filename lines
  = inl d ->
  exists dl,
    dialect_of strptime_dash strptime_slash strptime_seconds strptime_rium
               py_int rate_counts data_filename (hd String.EmptyString lines)
    = Some dl
    /\ device_id d = id dl
    /\ length (cnt_5sc d) = length (cnt_1mn d)
    /\ length (lat d) = length (cnt_1mn d)
    /\ length (lon d) = length (cnt_1mn d)
    /\ length (alt d) = length (cnt_1mn d)
    /\ length (time d)
       = (length (cnt_1mn d) + length (filter (unmatched dl) (tl lines)))%nat.
Proof.
  unfold read_otherdata_csv.
  destruct (dialect_of _ _ _ _ _ _ _ _) as [dl|]; [|discriminate].
  intros H. exists dl. split; [reflexivity|].
  destruct (rows_lengths _ _ _ _ H) as (m & A1 & A2 & A3 & A4 & A5 & A6 & A7).
  cbn [time cnt_1mn cnt_5sc lat lon alt device_id length] in *.
  repeat split; try lia. exact A7.
Qed.

End CsvReaderFacts.

Lemma read_otherdata_csv_alignment_witness :
  length (Device.cnt_5sc CsvLog.example_data)
  = length (Device.cnt_1mn CsvLog.example_data)
  /\ length (Device.time CsvLog.example_data)
     = S (length (Device.cnt_1mn CsvLog.example_data)).
Proof.
  destruct (read_otherdata_csv_alignment
              ProcessedLog.int_of_str ProcessedLog.int_of_str
              ProcessedLog.int_of_str ProcessedLog.int_of_str
              ProcessedLog.int_of_str CsvLog.example_rate
              String.EmptyString CsvLog.example_lines CsvLog.example_data)
    as (dl & _ & _ & H5 & _).
  - vm_compute. reflexivity.
  - split; [exact H5 | reflexivity].
Defined.

(** ** The default smoothing of [plotly_plot] *)

Section PlotlyPlotFacts.

Import MovingAverage PlotlyPlot.

Variable X : Type.
Variable average : Z -> list X -> X.

Lemma moving_average_raises (arr : list X) (w : Z) (e : exn) :
  moving_average X average arr w = inr e -> e = ValueError.
Proof.
  unfold moving_average, convolve_valid, assign_slice.
  repeat match goal with
         | |- context [if ?c then _ else _] => destruct c
         | |- context [match ?l with [] => _ | _ :: _ => _ end] => destruct l
         end; congruence.
Qed.

Lemma last_cons (l : list Z) (a b : Z) : last (a :: l) b = last l a.
Proof.
  revert a b. induction l as [|c l IH]; intros a b; [reflexivity|].
  change (last (a :: c :: l) b) with (last (c :: l) b).
  rewrite !IH. reflexivity.
Qed.

Lemma Zsum_diffs (x : Z) (l : list Z) :
  Zsum (diffs (x :: l)) = last l x - x.
Proof.
  assert (F : forall l a, fold_left Z.add l a = a + fold_left Z.add l 0).
  { induction l0 as [|y l0 IHl]; intros a0; cbn [fold_left]; [lia|].
    rewrite (IHl (a0 + y)), (IHl (0 + y)). lia. }
  revert x. induction l as [|y l IH]; intros x; [cbn; lia|].
  change (diffs (x :: y :: l)) with ((y - x) :: diffs (y :: l)).
  unfold Zsum in *. cbn [fold_left]. rewrite F, IH, last_cons. lia.
Qed.

Lemma diffs_length_cons (x : Z) (l : list Z) : length (diffs (x :: l)) = length l.
Proof.
  revert x. induction l as [|y l IH]; intros x; [reflexivity|].
  change (diffs (x :: y :: l)) with ((y - x) :: diffs (y :: l)).
  cbn [length]. rewrite IH. reflexivity.
Qed.

Lemma Qtrunc_ratio (s m : Z) :
  0 < s -> 0 < m ->
  Qtrunc (600 / (inject_Z s / inject_Z m))%Q = 600 * m / s.
Proof.
  intros Hs Hm. destruct s as [|s|s]; try lia. destruct m as [|m|m]; try lia.
  unfold Qtrunc, Qdiv, Qinv, Qmult, inject_Z. cbn [Qnum Qden Z.mul Pos.mul].
  rewrite ?Pos.mul_1_r, ?Pos.mul_1_l.
  cbn. rewrite Z.quot_div_nonneg by lia. reflexivity.
Qed.

Lemma nth_last (x : Z) (l : list Z) :
  nth (length (x :: l) - 1) (x :: l) 0 = last l x.
Proof.
  cbn [length]. replace (S (length l) - 1)%nat with (length l) by lia.
  revert x. induction l as [|y l IH]; intros x; [reflexivity|].
  change (nth (length (y :: l)) (x :: y :: l) 0) with (nth (length l) (y :: l) 0).
  rewrite IH, last_cons. reflexivity.
Qed.

(** The width [plotly_plot] takes when none is given: the whole number
    of mean deltas in 600 s, made odd. *)
Lemma default_width_value (time : list Z) :
  (2 <= length time)%nat ->
  let n := Z.of_nat (length time) in
  let span := nth (length time - 1) time 0 - nth 0 time 0 in
  0 < span ->
  let q := 600 * (n - 1) / span in
  width (-1) time = inl (q + (if q mod 2 =? 0 then 1 else 0)).
Proof.
  intros Hn n span Hs q. unfold width. cbn [Z.eqb Pos.eqb].
  destruct time as [|x l]; [cbn in Hn; lia|].
  destruct l as [|y l]; [cbn in Hn; lia|].
  unfold default_width, average_dt.
  pose proof (Zsum_diffs x (y :: l)) as S.
  pose proof (diffs_length_cons x (y :: l)) as L.
  pose proof (nth_last x (y :: l)) as N.
  destruct (diffs (x :: y :: l)) as [|d ds] eqn:D; [cbn in L; lia|].
  assert (Es : Zsum (d :: ds) = span).
  { rewrite S. unfold span. rewrite N. reflexivity. }
  assert (El : Z.of_nat (length (d :: ds)) = n - 1).
  { rewrite L. unfold n. cbn [length]. lia. }
  rewrite Es, El.
  assert (P : (0 < inject_Z span / inject_Z (n - 1))%Q).
  { apply Qlt_shift_div_l.
    - change 0%Q with (inject_Z 0). rewrite <- Zlt_Qlt. unfold n. cbn [length]. lia.
    - rewrite Qmult_0_l. change 0%Q with (inject_Z 0). rewrite <- Zlt_Qlt. exact Hs. }
  destruct (Qle_bool _ 0) eqn:E.
  - apply Qle_bool_iff in E. exfalso. apply (Qlt_not_le _ _ P E).
  - rewrite Qtrunc_ratio by (unfold n; cbn [length]; lia). reflexivity.
Qed.

(** X29.  With no width given, [plotly_plot] smooths a record of [n >= 2]
    samples that span [span > 0] seconds with an odd width, the number
    of mean deltas in 600 s made odd.  The smoothing raises ValueError
    when the samples are more than 300 s apart on average (the width is
    1) and when [(n + 1) * span <= 600 * (n - 1)] (the width exceeds
    [n]); it returns when [600 <= span <= 300 * (n - 1)]. *)
Theorem default_width_smoothing (time : list Z) (cpm : list X) :
  length cpm = length time -> (2 <= length time)%nat ->
  let n := Z.of_nat (length time) in
  let span := nth (length time - 1) time 0 - nth 0 time 0 in
  0 < span ->
  exists w,
    width (-1) time = inl w /\ w mod 2 = 1
    /\ (300 * (n - 1) < span ->
        w = 1 /\ cpm_average X average cpm (-1) time = inr ValueError)
    /\ ((n + 1) * span <= 600 * (n - 1) ->
        n < w /\ cpm_average X average cpm (-1) time = inr ValueError)
    /\ (600 <= span <= 300 * (n - 1) ->
        3 <= w <= n /\ exists out, cpm_average X average cpm (-1) time = inl out).
Proof.
  intros Hc Hn n span Hs.
  pose proof (default_width_value time Hn Hs) as W. cbn zeta in W.
  fold n span in W. set (q := 600 * (n - 1) / span) in W.
  set (w := q + (if q mod 2 =? 0 then 1 else 0)) in W.
  assert (Hn1 : 1 <= n - 1) by (unfold n; lia).
  assert (Hq : 0 <= q) by (apply Z.div_pos; lia).
  assert (Odd : w mod 2 = 1).
  { unfold w. pose proof (Z.mod_pos_bound q 2 ltac:(lia)) as M.
    destruct (q mod 2 =? 0) eqn:E;
      [apply Z.eqb_eq in E | apply Z.eqb_neq in E].
    - rewrite Z.add_mod, E by lia. reflexivity.
    - rewrite Z.add_0_r. lia. }
  assert (Wq : q <= w <= q + 1) by (unfold w; destruct (q mod 2 =? 0); lia).
  assert (Raise : ~ (3 <= w <= n \/ (w = 1 /\ length time = 1%nat)) ->
                  cpm_average X average cpm (-1) time = inr ValueError).
  { intros N. unfold cpm_average. rewrite W.
    destruct (moving_average X average cpm w) as [out|e] eqn:M.
    - exfalso. apply N.
      assert (D : exists o, moving_average X average cpm w = inl o)
        by (exists out; exact M).
      apply moving_average_domain in D. destruct D as [_ D].
      rewrite Hc in D. exact D.
    - f_equal. apply (moving_average_raises _ _ _ M). }
  exists w. split; [exact W|]. split; [exact Odd|].
  split; [|split].
  - intros H.
    assert (q <= 1).
    { apply Z.lt_succ_r. apply Z.div_lt_upper_bound; lia. }
    assert (w = 1).
    { unfold w in *. destruct (q mod 2 =? 0) eqn:E;
        [apply Z.eqb_eq in E | apply Z.eqb_neq in E].
      - assert (q = 0) by (destruct (Z.eq_dec q 1) as [->|]; [discriminate E | lia]).
        lia.
      - assert (q = 1) by (destruct (Z.eq_dec q 0) as [->|]; [exfalso; apply E; reflexivity | lia]).
        lia. }
    split; [assumption|]. apply Raise. lia.
  - intros H.
    assert (n + 1 <= q).
    { apply Z.div_le_lower_bound; lia. }
    split; [lia|]. apply Raise. lia.
  - intros [H1 H2].
    assert (2 <= q) by (apply Z.div_le_lower_bound; lia).
    assert (q <= n - 1).
    { apply Z.lt_succ_r. apply Z.div_lt_upper_bound; [lia|]. nia. }
    assert (Hw : 3 <= w <= n).
    { split.
      - unfold w in *. destruct (q mod 2 =? 0) eqn:E; [lia|].
        apply Z.eqb_neq in E.
        destruct (Z.eq_dec q 2) as [->|]; [exfalso; apply E; reflexivity | lia].
      - lia. }
    split; [exact Hw|].
    unfold cpm_average. rewrite W.
    apply moving_average_domain. split; [exact Odd|]. left. rewrite Hc. exact Hw.
Qed.

End PlotlyPlotFacts.

Lemma default_width_smoothing_witness :
  exists w,
    PlotlyPlot.width (-1) [0; 400; 800] = inl w /\ w mod 2 = 1
    /\ (300 * (3 - 1) < 800 - 0 ->
        w = 1
        /\ PlotlyPlot.cpm_average Z MovingAverage.example_average [7; 8; 9] (-1)
             [0; 400; 800]
           = inr ValueError)
    /\ ((3 + 1) * (800 - 0) <= 600 * (3 - 1) ->
        3 < w
        /\ PlotlyPlot.cpm_average Z MovingAverage.example_average [7; 8; 9] (-1)
             [0; 400; 800]
           = inr ValueError)
    /\ (600 <= 800 - 0 <= 300 * (3 - 1) ->
        3 <= w <= 3
        /\ exists out,
             PlotlyPlot.cpm_average Z MovingAverage.example_average [7; 8; 9] (-1)
               [0; 400; 800]
             = inl out).
Proof.
  apply (default_width_smoothing Z MovingAverage.example_average
           [0; 400; 800] [7; 8; 9]); [reflexivity | cbn; lia | cbn; lia].
Defined.

(** ** The reader of flight tracks *)

Section FlightCsvFacts.

Import FlightCsv RecoverFlight.

Variable strptime : String.string -> option Z.
Variable py_float : String.string -> option (option Q).
Variable date : Type.
Variable date_of : Z -> date.
Variable airports : list airport.
Variable lat_lon_dist : option Q -> option Q -> option Q -> option Q -> option Q.

Lemma row_skipped (line : String.string) (st : list sample * String.string) :
  data_row line = false -> row strptime py_float line st = inl st.
Proof.
  destruct line as [|c r]; [discriminate|]. cbn [data_row row].
  intros ->. reflexivity.
Qed.

Lemma rows_data_rows (lines : list String.string) (st : list sample * String.string) :
  rows strptime py_float lines st
  = rows strptime py_float (filter data_row lines) st.
Proof.
  revert st. induction lines as [|line rest IH]; intros st; [reflexivity|].
  cbn [filter rows]. destruct (data_row line) eqn:D.
  - cbn [rows]. destruct (row _ _ line st); [apply IH | reflexivity].
  - rewrite (row_skipped line st D). apply IH.
Qed.

Lemma row_number (line : String.string) (st st' : list sample * String.string) :
  data_row line = true ->
  row strptime py_float line st = inl st' ->
  snd st' = number_of line /\ length (fst st') = S (length (fst st)).
Proof.
  destruct line as [|c r]; [discriminate|]. cbn [data_row row]. intros ->.
  cbn [negb]. unfold number_of.
  destruct (nth_error _ 1); [|discriminate].
  destruct (strptime _); [|discriminate].
  destruct (nth_error _ 2) as [l2|] eqn:E2; [|discriminate].
  destruct (nth_error _ 3); [|discriminate].
  destruct (py_float _); [|discriminate].
  destruct (nth_error _ 4); [|discriminate].
  destruct (py_float _); [|discriminate].
  destruct (nth_error _ 5); [|discriminate].
  destruct (py_float _); [|discriminate].
  intros H. injection H as <-. cbn [fst snd].
  rewrite (nth_error_nth _ _ _ E2), length_app. cbn [length].
  split; [reflexivity | lia].
Qed.

Lemma rows_number (lines : list String.string)
  (st : list sample * String.string) (samples : list sample)
  (number : String.string) :
  rows strptime py_float lines st = inl (samples, number) ->
  number = match rev (filter data_row lines) with
           | [] => snd st
           | line :: _ => number_of line
           end
  /\ length samples = (length (fst st) + length (filter data_row lines))%nat.
Proof.
  revert st. induction lines as [|line rest IH]; intros st; cbn [rows filter].
  - intros H. injection H as ->. cbn. split; [reflexivity | lia].
  - destruct (row _ _ line st) as [st'|e] eqn:R; [|discriminate].
    intros H. destruct (IH _ H) as [N L]. destruct (data_row line) eqn:D.
    + destruct (row_number line st st' D R) as [S1 S2].
      cbn [rev length]. rewrite L, S2. split; [|lia].
      rewrite N. destruct (rev (filter data_row rest)); [exact S1 | reflexivity].
    + rewrite (row_skipped line st D) in R. injection R as <-. split; assumption.
Qed.

(** X30.  [read_flight_csv] reads the lines that start with a decimal
    digit and no other: dropping the others from the file changes
    nothing of what it returns or raises.  A file without such a line
    makes it raise IndexError, in [recover_flight]; and when it
    returns, the flight number is the third field of the last such line
    and the track has at most one point for each. *)
Theorem read_flight_csv_data_rows (lines : list String.string) :
  let read := read_flight_csv strptime py_float date date_of airports
                              lat_lon_dist in
  let data := filter data_row lines in
  read lines = read data
  /\ (data = [] -> read lines = inr IndexError)
  /\ (forall f, read lines = inl f ->
        flight_number f = number_of (last data String.EmptyString)
        /\ (length (time f) <= length data)%nat).
Proof.
  intros read data. unfold read, read_flight_csv.
  rewrite (rows_data_rows lines). fold data.
  split; [reflexivity|]. split.
  - intros ->. reflexivity.
  - intros f.
    destruct (rows strptime py_float data _) as [[samples number]|e] eqn:R;
      [|discriminate].
    rewrite <- (rows_data_rows lines) in R.
    apply rows_number in R. fold data in R. cbn [fst snd length] in R.
    destruct R as [N L].
    unfold recover_flight.
    destruct (filter (valid None None) samples) as [|first kept] eqn:K;
      [discriminate|].
    repeat match goal with
           | |- match ?x with _ => _ end = _ -> _ => destruct x; [|discriminate]
           end.
    intros H. injection H as <-. cbn [flight_number time].
    split.
    + rewrite N. generalize data. intros d.
      destruct d as [|l ls _] using rev_ind; [reflexivity|].
      rewrite rev_app_distr, last_last. reflexivity.
    + change (time_of first :: map time_of kept) with (map time_of (first :: kept)).
      rewrite length_map, <- K. cbn [Nat.add] in L. rewrite <- L.
      apply filter_length_le.
Qed.

End FlightCsvFacts.

Lemma read_flight_csv_data_rows_witness :
  FlightCsv.example_read FlightCsv.example_lines = inl FlightCsv.example_flight
  /\ RecoverFlight.flight_number FlightCsv.example_flight
     = FlightCsv.number_of
         (last (filter FlightCsv.data_row FlightCsv.example_lines)
               String.EmptyString)
  /\ (length (RecoverFlight.time FlightCsv.example_flight)
      <= length (filter FlightCsv.data_row FlightCsv.example_lines))%nat.
Proof.
  assert (E : FlightCsv.example_read FlightCsv.example_lines
              = inl FlightCsv.example_flight) by (vm_compute; reflexivity).
  split; [exact E|].
  apply (read_flight_csv_data_rows
           ProcessedLog.int_of_str SafecastLog.example_float Z (fun t => t)
           RecoverFlight.example_airports RecoverFlight.example_dist
           FlightCsv.example_lines).
  exact E.
Defined.
